(** * Billing-cycle payment generator of KursApp (services/storage.ts)

    A shallow embedding of [generatePaymentsForEnrollment] and of the
    ECMAScript [Date] operations it is written with, of its callers in
    App.tsx, of what the server does with the payments it is sent
    (server/index.js) and of the views that read them, followed by their
    properties.

    Conventions of the embedding.
    - A JavaScript [Date] holds a time value: an integral number of
      milliseconds since the epoch, at most 8.64e15 in magnitude, or NaN
      (an Invalid Date).  It is embedded as [option Z], [None] being NaN.
      The copies made by [new Date(date)] are the identity on time values.
    - Relational operators on dates compare time values as numbers, and
      every comparison with NaN is false.
    - [setDate], [setMonth] and [setFullYear] work on the fields of the
      date in the local time of the host, [new Date(string)] and
      [toISOString] in UTC.  The host ([Host]) gives the offset of its local
      time from UTC, which depends on the instant (daylight saving time),
      and its date-string parser.
      The offset is less than a day in magnitude, which is what makes the
      alignment loop of the generator advance.
    - [crypto.randomUUID()] is an argument of the generator: the function
      that gives the identifier returned by its [k]-th call.
    - Fees and amounts are binary64 Numbers (primitive floats).
    - [toISOString] throws a RangeError on an Invalid Date; the generator
      therefore returns a [completion]. *)

From Stdlib Require Import ZArith List String Ascii Bool Lia Sorted RelationClasses.
From Stdlib Require Import PrimFloat FloatOps SpecFloat Uint63.
Import ListNotations.

Set Default Proof Using "Type".

Local Open Scope string_scope.
Local Open Scope Z_scope.

(** ** ECMAScript time values (ECMA-262, Date objects) *)

Module ES.

Definition msPerDay : Z := 86400000.

Definition Day (t : Z) : Z := t / msPerDay.

Definition TimeWithinDay (t : Z) : Z := t mod msPerDay.

Definition isLeap (y : Z) : bool :=
  ((y mod 4 =? 0) && negb (y mod 100 =? 0)) || (y mod 400 =? 0).

Definition DaysInYear (y : Z) : Z := if isLeap y then 366 else 365.

Definition DayFromYear (y : Z) : Z :=
  365 * (y - 1970) + (y - 1969) / 4 - (y - 1901) / 100 + (y - 1601) / 400.

Definition TimeFromYear (y : Z) : Z := msPerDay * DayFromYear y.

(** The largest [y] with [TimeFromYear y <= t]: an estimate from the mean
    length of a Gregorian year, corrected by at most one year either way
    (see [YearFromTime_spec]). *)
Definition YearFromTime (t : Z) : Z :=
  let d := Day t in
  let y := 1970 + (400 * d) / 146097 in
  if d <? DayFromYear y then y - 1
  else if DayFromYear (y + 1) <=? d then y + 1
  else y.

Definition InLeapYear (t : Z) : Z :=
  if isLeap (YearFromTime t) then 1 else 0.

Definition DayWithinYear (t : Z) : Z := Day t - DayFromYear (YearFromTime t).

Definition MonthFromTime (t : Z) : Z :=
  let d := DayWithinYear t in
  let l := InLeapYear t in
  if d <? 31 then 0
  else if d <? 59 + l then 1
  else if d <? 90 + l then 2
  else if d <? 120 + l then 3
  else if d <? 151 + l then 4
  else if d <? 181 + l then 5
  else if d <? 212 + l then 6
  else if d <? 243 + l then 7
  else if d <? 273 + l then 8
  else if d <? 304 + l then 9
  else if d <? 334 + l then 10
  else 11.

(** Number of days of the year that precede month [m] (0 = January). *)
Definition daysBeforeMonth (m : Z) (l : Z) : Z :=
  if m <=? 0 then 0
  else if m =? 1 then 31
  else if m =? 2 then 59 + l
  else if m =? 3 then 90 + l
  else if m =? 4 then 120 + l
  else if m =? 5 then 151 + l
  else if m =? 6 then 181 + l
  else if m =? 7 then 212 + l
  else if m =? 8 then 243 + l
  else if m =? 9 then 273 + l
  else if m =? 10 then 304 + l
  else 334 + l.

(** Number of days of month [m] (0 = January). *)
Definition daysInMonth (m : Z) (l : Z) : Z :=
  if m =? 11 then 31 else daysBeforeMonth (m + 1) l - daysBeforeMonth m l.

Definition DateFromTime (t : Z) : Z :=
  DayWithinYear t - daysBeforeMonth (MonthFromTime t) (InLeapYear t) + 1.

(** [MakeDay]: the day number of the first of month [month mod 12] of
    year [year + floor (month / 12)], plus [date - 1]. *)
Definition MakeDay (year month date : Z) : Z :=
  let ym := year + month / 12 in
  let mn := month mod 12 in
  DayFromYear ym + daysBeforeMonth mn (if isLeap ym then 1 else 0) + date - 1.

Definition MakeDate (day time : Z) : Z := day * msPerDay + time.

Definition HourFromTime (t : Z) : Z := (t / 3600000) mod 24.

Definition MinFromTime (t : Z) : Z := (t / 60000) mod 60.

Definition SecFromTime (t : Z) : Z := (t / 1000) mod 60.

Definition msFromTime (t : Z) : Z := t mod 1000.

Definition maxTime : Z := 8640000000000000.

(** [TimeClip]: a time value further than 8.64e15 ms from the epoch is NaN. *)
Definition TimeClip (t : Z) : option Z :=
  if Z.abs t <=? maxTime then Some t else None.

End ES.

Import ES.

(** ** Completions: a value, or the RangeError of [toISOString] *)

Inductive completion (A : Type) : Type :=
| Returns (a : A)
| ThrowsRangeError.

Arguments Returns {A} a.
Arguments ThrowsRangeError {A}.

Definition bind {A B : Type} (c : completion A) (k : A -> completion B)
  : completion B :=
  match c with
  | Returns a => k a
  | ThrowsRangeError => ThrowsRangeError
  end.

Notation "x <- c ;; k" := (bind c (fun x => k))
  (at level 61, c at next level, right associativity).

(** ** Numbers *)

(** The Number (binary64) of an integer below 2^63 in magnitude: exact
    below 2^53, as time values are, and rounded to nearest above. *)
Definition Number_ofZ (z : Z) : float :=
  if z <? 0 then PrimFloat.opp (PrimFloat.of_uint63 (Uint63.of_Z (- z)))
  else PrimFloat.of_uint63 (Uint63.of_Z z).

(** [Math.round]: the closest integral Number, ties toward +infinity;
    NaN, the infinities, the zeros and integral values are returned as
    they are. *)
Definition Math_round (x : float) : float :=
  match Prim2SF x with
  | S754_finite s m e =>
      if 0 <=? e then x
      else
        let k := - e in
        let q := Z.shiftr (Z.pos m) k in
        let r := Z.land (Z.pos m) (Z.ones k) in
        let half := Z.shiftl 1 (k - 1) in
        if s then PrimFloat.opp (Number_ofZ (if half <? r then q + 1 else q))
        else Number_ofZ (if half <=? r then q + 1 else q)
  | _ => x
  end.

(** ** Date objects *)

Definition Date : Type := option Z.

(** [a < b], [a <= b], [a > b], [a >= b] on dates: false when either is NaN. *)
Definition date_ltb (a b : Date) : bool :=
  match a, b with Some x, Some y => x <? y | _, _ => false end.

Definition date_leb (a b : Date) : bool :=
  match a, b with Some x, Some y => x <=? y | _, _ => false end.

Definition date_gtb (a b : Date) : bool := date_ltb b a.

Definition date_geb (a b : Date) : bool := date_leb b a.

(** [date.getTime()] as a Number. *)
Definition getTime (d : Date) : float :=
  match d with
  | Some t => Number_ofZ t
  | None => PrimFloat.nan
  end.

(** *** Predicates on time values and dates *)

(** The time value of a calendar date written [YYYY-MM-DD]: midnight UTC
    of a day of the years 0 to 9999. *)
Definition calendarDate (t : Z) : Prop :=
  TimeWithinDay t = 0 /\ 0 <= YearFromTime t <= 9999.

(** Dates are NaN or within the range of [TimeClip]. *)
Definition inRange (d : Date) : Prop :=
  match d with Some t => Z.abs t <= maxTime | None => True end.

(** A date that is NaN or at midnight UTC. *)
Definition atMidnight (d : Date) : Prop :=
  match d with Some u => TimeWithinDay u = 0 | None => True end.

(** *** Decimal rendering *)

Definition digit (n : Z) : ascii := ascii_of_nat (48 + Z.to_nat n).

(** The decimal digits of a non-negative integer below [10 ^ fuel]. *)
Fixpoint decimal (fuel : nat) (n : Z) : string :=
  match fuel with
  | O => EmptyString
  | S f =>
      String.append (if n <? 10 then EmptyString else decimal f (n / 10))
                    (String (digit (n mod 10)) EmptyString)
  end.

Fixpoint zeros (n : nat) : string :=
  match n with
  | O => EmptyString
  | S n' => String "0"%char (zeros n')
  end.

(** [ToZeroPaddedDecimalString n minLength]. *)
Definition ToZeroPaddedDecimalString (n : Z) (minLength : nat) : string :=
  let s := decimal 21 n in
  String.append (zeros (minLength - String.length s)) s.

(** The year of the ISO format: four digits from 0 to 9999, otherwise a
    sign and six digits. *)
Definition yearString (y : Z) : string :=
  if (0 <=? y) && (y <=? 9999) then ToZeroPaddedDecimalString y 4
  else if y <? 0 then String "-"%char (ToZeroPaddedDecimalString (- y) 6)
  else String "+"%char (ToZeroPaddedDecimalString y 6).

(** The calendar date of the ISO format, in UTC. *)
Definition calendarText (t : Z) : string :=
  (yearString (YearFromTime t)
   ++ String "-"%char (ToZeroPaddedDecimalString (MonthFromTime t + 1) 2)
   ++ String "-"%char (ToZeroPaddedDecimalString (DateFromTime t) 2))%string.

(** The time of day of the ISO format, in UTC. *)
Definition clockText (t : Z) : string :=
  (ToZeroPaddedDecimalString (HourFromTime t) 2
   ++ String ":"%char (ToZeroPaddedDecimalString (MinFromTime t) 2)
   ++ String ":"%char (ToZeroPaddedDecimalString (SecFromTime t) 2)
   ++ String "."%char (ToZeroPaddedDecimalString (msFromTime t) 3))%string.

(** [date.toISOString()]: a RangeError on an Invalid Date. *)
Definition toISOString (d : Date) : completion string :=
  match d with
  | None => ThrowsRangeError
  | Some t =>
      Returns (calendarText t ++ String "T"%char (clockText t ++ "Z"))%string
  end.

(** [s.split('T')[0]]: the text of [s] that precedes its first T. *)
Fixpoint split_T_0 (s : string) : string :=
  match s with
  | EmptyString => EmptyString
  | String c s' =>
      if Ascii.eqb c "T"%char then EmptyString else String c (split_T_0 s')
  end.

(** [date.toISOString().split('T')[0]]. *)
Definition toISODate (d : Date) : completion string :=
  s <- toISOString d ;; Returns (split_T_0 s).

(** ** The data model (types.ts) *)

Inductive PaymentStatus : Type := pending | paid | waived | overdue.

Module Course.
Record t : Type := mk {
  id : string;
  name : string;
  startDate : string;
  fee : float;
  period : string;
  scheduleDays : list string;
  scheduleTime : string;
  notes : string
}.
End Course.

Module Payment.
Record t : Type := mk {
  id : string;
  studentId : string;
  courseId : string;
  periodStart : string;
  periodEnd : string;
  amount : float;
  status : PaymentStatus;
  dueDate : string;
  paidDate : option string
}.
End Payment.

(** The course [c] with [p] as its period. *)
Definition withPeriod (c : Course.t) (p : string) : Course.t :=
  Course.mk (Course.id c) (Course.name c) (Course.startDate c) (Course.fee c) p
            (Course.scheduleDays c) (Course.scheduleTime c) (Course.notes c).

(** ** Date strings *)

(** A parser for the date-only form [YYYY-MM-DD] of the ECMAScript
    date-time string format, which denotes midnight UTC of that day; other
    strings are not recognised. *)

Definition digitValue (c : ascii) : option Z :=
  let n := Z.of_nat (nat_of_ascii c) in
  if (48 <=? n) && (n <=? 57) then Some (n - 48) else None.

Definition twoDigits (a b : ascii) : option Z :=
  match digitValue a, digitValue b with
  | Some x, Some y => Some (10 * x + y)
  | _, _ => None
  end.

Definition parseDateOnly (s : string) : option Z :=
  match s with
  | String y1 (String y2 (String y3 (String y4 (String "-"%char
      (String m1 (String m2 (String "-"%char
      (String d1 (String d2 EmptyString))))))))) =>
      match twoDigits y1 y2, twoDigits y3 y4, twoDigits m1 m2, twoDigits d1 d2 with
      | Some yh, Some yl, Some m, Some d =>
          let y := 100 * yh + yl in
          if (1 <=? m) && (m <=? 12) && (1 <=? d)
             && (d <=? daysInMonth (m - 1) (if isLeap y then 1 else 0))
          then Some (MakeDate (MakeDay y (m - 1) d) 0)
          else None
      | _, _, _, _ => None
      end
  | _ => None
  end.

(** The sign that opens the year of an ISO date outside 0 to 9999. *)
Definition isSign (c : ascii) : bool :=
  Ascii.eqb c "+"%char || Ascii.eqb c "-"%char.

(** The calendar-date prefix of a date or date-time string in the ISO
    format: its first ten characters ([YYYY-MM-DD]), or its first thirteen
    when the year is written with a sign and six digits. *)
Definition datePrefix (s : string) : string :=
  match s with
  | EmptyString => EmptyString
  | String c _ => substring 0 (if isSign c then 13 else 10) s
  end.

(** What the duplicate check reads of an existing payment. *)
Definition dedupKey (p : Payment.t) : string * string * string :=
  (Payment.studentId p, Payment.courseId p, datePrefix (Payment.periodStart p)).

(** Two sequences of payments with the same set of keys. *)
Definition sameKeys (ps ps' : list Payment.t) : Prop :=
  forall k, In k (map dedupKey ps) <-> In k (map dedupKey ps').

(** ** The generator (services/storage.ts) *)

(** What the generator takes from its host: the offset of local time from
    UTC, in milliseconds, and [Date.parse], the time value a date string
    denotes (NaN if none).

    [LocalTZA t isUTC] is the local time zone adjustment of ECMA-262: for
    a time value [t], with [isUTC] true, the offset in force at that
    instant; for a local time [t], with [isUTC] false, the offset with
    which the host reads that local time.  The two differ around the
    transitions of daylight saving time, where a local time is skipped or
    occurs twice and the host reads it with the offset of its choice.  No
    time zone is a day or more away from UTC ([LocalTZA_bound]). *)
Class Host : Type := {
  LocalTZA : Z -> bool -> Z;
  Date_parse : string -> option Z;
  LocalTZA_bound : forall t isUTC, - msPerDay < LocalTZA t isUTC < msPerDay
}.

(** A host whose offset from UTC is [z] at every instant: a time zone
    without daylight saving time. *)
Definition fixedOffset (host : Host) (z : Z) : Prop :=
  forall t isUTC, LocalTZA t isUTC = z.

Section Model.

Context {host : Host}.

Definition LocalTime (t : Z) : Z := t + LocalTZA t true.

Definition UTC (t : Z) : Z := t - LocalTZA t false.

(** [new Date(string)]. *)
Definition newDate (s : string) : Date :=
  match Date_parse s with
  | Some t => TimeClip t
  | None => None
  end.

Definition getDate (d : Date) : option Z :=
  option_map (fun t => DateFromTime (LocalTime t)) d.

Definition getMonth (d : Date) : option Z :=
  option_map (fun t => MonthFromTime (LocalTime t)) d.

Definition getFullYear (d : Date) : option Z :=
  option_map (fun t => YearFromTime (LocalTime t)) d.

(** [n + k] for a Number [n] that is integral or NaN. *)
Definition plus (n : option Z) (k : Z) : option Z :=
  option_map (fun x => x + k) n.

Definition setDate (d : Date) (date : option Z) : Date :=
  match d, date with
  | Some u, Some dt =>
      let t := LocalTime u in
      TimeClip (UTC (MakeDate (MakeDay (YearFromTime t) (MonthFromTime t) dt)
                              (TimeWithinDay t)))
  | _, _ => None
  end.

Definition setMonth (d : Date) (month : option Z) : Date :=
  match d, month with
  | Some u, Some m =>
      let t := LocalTime u in
      TimeClip (UTC (MakeDate (MakeDay (YearFromTime t) m (DateFromTime t))
                              (TimeWithinDay t)))
  | _, _ => None
  end.

(** [setFullYear] starts from time value +0 when the date is invalid. *)
Definition setFullYear (d : Date) (year : option Z) : Date :=
  match year with
  | Some y =>
      let t := match d with Some u => LocalTime u | None => 0 end in
      TimeClip (UTC (MakeDate (MakeDay y (MonthFromTime t) (DateFromTime t))
                              (TimeWithinDay t)))
  | None => None
  end.

Definition addDays (date : Date) (days : Z) : Date :=
  let result := date in
  setDate result (plus (getDate result) days).

Definition addMonths (date : Date) (months : Z) : Date :=
  let result := date in
  setMonth result (plus (getMonth result) months).

Definition addYears (date : Date) (years : Z) : Date :=
  let result := date in
  setFullYear result (plus (getFullYear result) years).

(** The end of the cycle that starts at [d]: the three-way branch on
    [course.period] shared by the alignment and the generation loops. *)
Definition nextPeriod (period : string) (d : Date) : Date :=
  if String.eqb period "weekly" then addDays d 7
  else if String.eqb period "monthly" then addMonths d 1
  else addYears d 1.

(** The alignment loop [while (cycleStart <= joinDate) ...], run for at
    most [fuel] iterations. *)
Fixpoint alignLoop (fuel : nat) (period : string) (joinDate cycleStart : Date)
  : Date :=
  match fuel with
  | O => cycleStart
  | S fuel' =>
      if date_leb cycleStart joinDate then
        let nextCycle := nextPeriod period cycleStart in
        if date_gtb nextCycle joinDate then cycleStart
        else alignLoop fuel' period joinDate nextCycle
      else cycleStart
  end.

(** Every iteration that continues moves [cycleStart] more than five days
    forward (a week of local time, less the change of the offset), so this
    many iterations reach the exit of the loop ([alignLoop_exit],
    [alignLoop_more_fuel]). *)
Definition alignFuel (joinDate courseStartDate : Date) : nat :=
  match joinDate, courseStartDate with
  | Some j, Some s => S (Z.to_nat ((j - s) / (5 * msPerDay)))
  | _, _ => 1%nat
  end.

(** The fuel is enough when it exceeds the number of spans of five days
    from [cycleStart] to the join date. *)
Definition enoughFuel (joinDate : Date) (fuel : nat) (cycleStart : Date) : Prop :=
  match joinDate, cycleStart with
  | Some j, Some s => (j - s) / (5 * msPerDay) < Z.of_nat fuel
  | _, _ => True
  end.

(** The condition on which the source leaves the alignment loop: the test
    of the [while] fails, or the [break] is taken. *)
Definition loopExit (period : string) (joinDate cycleStart : Date) : Prop :=
  date_leb cycleStart joinDate = false
  \/ date_gtb (nextPeriod period cycleStart) joinDate = true.

Definition periodsToGenerate (period : string) : nat :=
  if String.eqb period "weekly" then 52%nat
  else if String.eqb period "monthly" then 12%nat
  else 5%nat.

Section Generate.

Variable randomUUID : nat -> string.
Variable studentId : string.
Variable course : Course.t.
Variable joinDate : Date.
Variable existingPayments : list Payment.t.

(** [existingPayments.some(p => ...)]: the date is rendered only when
    the two identifiers of [p] match. *)
Fixpoint some_existing (effectiveStart : Date) (ps : list Payment.t)
  : completion bool :=
  match ps with
  | [] => Returns false
  | p :: ps' =>
      if String.eqb (Payment.studentId p) studentId
         && String.eqb (Payment.courseId p) (Course.id course)
      then
        day <- toISODate effectiveStart ;;
        if String.prefix day (Payment.periodStart p) then Returns true
        else some_existing effectiveStart ps'
      else some_existing effectiveStart ps'
  end.

(** The body of the generation loop for [n] more iterations from
    iteration [i], with the loop's variables as arguments. *)
Fixpoint generateLoop (n i : nat) (currentPeriodStart : Date)
         (newPayments : list Payment.t) : completion (list Payment.t) :=
  match n with
  | O => Returns newPayments
  | S n' =>
      let periodEnd := nextPeriod (Course.period course) currentPeriodStart in
      let effectiveStart :=
        if date_ltb currentPeriodStart joinDate then joinDate
        else currentPeriodStart in
      if date_geb effectiveStart periodEnd then
        generateLoop n' (S i) periodEnd newPayments
      else
        let amount :=
          if Nat.eqb i 0 && date_gtb joinDate currentPeriodStart then
            let totalDuration :=
              PrimFloat.sub (getTime periodEnd) (getTime currentPeriodStart) in
            let studentDuration :=
              PrimFloat.sub (getTime periodEnd) (getTime joinDate) in
            let ratio := PrimFloat.div studentDuration totalDuration in
            Math_round (PrimFloat.mul (Course.fee course) ratio)
          else Course.fee course in
        exists_ <- some_existing effectiveStart existingPayments ;;
        if negb exists_ then
          let id := randomUUID (List.length newPayments) in
          ps <- toISODate effectiveStart ;;
          pe <- toISODate periodEnd ;;
          due <- toISODate periodEnd ;;
          generateLoop n' (S i) periodEnd
            (newPayments ++
             [Payment.mk id studentId (Course.id course) ps pe amount
                         pending due None])
        else generateLoop n' (S i) periodEnd newPayments
  end.

(** *** The loop, cycle by cycle

    The generation loop visits the cycles that start at [currentPeriodStart]
    and at its successive [nextPeriod]s.  The definitions below describe, for
    one cycle, what the body of the loop computes, and for the whole loop,
    the list of records it returns; [generateLoop_cycles] relates them to
    [generateLoop]. *)

Definition effectiveStartOf (currentPeriodStart : Date) : Date :=
  if date_ltb currentPeriodStart joinDate then joinDate else currentPeriodStart.

Definition periodEndOf (currentPeriodStart : Date) : Date :=
  nextPeriod (Course.period course) currentPeriodStart.

Definition amountOf (i : nat) (currentPeriodStart : Date) : float :=
  if Nat.eqb i 0 && date_gtb joinDate currentPeriodStart then
    Math_round
      (PrimFloat.mul (Course.fee course)
         (PrimFloat.div
            (PrimFloat.sub (getTime (periodEndOf currentPeriodStart))
                           (getTime joinDate))
            (PrimFloat.sub (getTime (periodEndOf currentPeriodStart))
                           (getTime currentPeriodStart))))
  else Course.fee course.

(** The test of the duplicate check on one existing payment. *)
Definition matchesCycle (day : string) (p : Payment.t) : bool :=
  String.eqb (Payment.studentId p) studentId
  && String.eqb (Payment.courseId p) (Course.id course)
  && String.prefix day (Payment.periodStart p).

Definition isValid (d : Date) : bool :=
  match d with Some _ => true | None => false end.

(** The calendar date of a valid date, as [toISODate] renders it. *)
Definition dateText (d : Date) : string :=
  match toISODate d with
  | Returns s => s
  | ThrowsRangeError => EmptyString
  end.

(** The cycles of [n] iterations from iteration [i]: the iteration number
    and the start of the cycle.  Whichever branch an iteration takes, it
    leaves [currentPeriodStart] at its [periodEnd]. *)
Fixpoint cycles (n i : nat) (currentPeriodStart : Date) : list (nat * Date) :=
  match n with
  | O => []
  | S n' =>
      (i, currentPeriodStart)
        :: cycles n' (S i) (periodEndOf currentPeriodStart)
  end.

(** A cycle is suppressed when an existing payment matches it. *)
Definition suppressed (c : nat * Date) : bool :=
  existsb (matchesCycle (dateText (effectiveStartOf (snd c)))) existingPayments.

(** The iteration of a cycle completes without a RangeError. *)
Definition completes (c : nat * Date) : bool :=
  isValid (effectiveStartOf (snd c))
  && (suppressed c || isValid (periodEndOf (snd c))).

(** The record pushed for a cycle, with its identifier. *)
Definition candidate (id : string) (c : nat * Date) : Payment.t :=
  Payment.mk id studentId (Course.id course)
             (dateText (effectiveStartOf (snd c)))
             (dateText (periodEndOf (snd c)))
             (amountOf (fst c) (snd c))
             pending
             (dateText (periodEndOf (snd c)))
             None.

(** The records of a list of cycles, the first of them being the [k]-th
    record pushed. *)
Fixpoint number (k : nat) (cs : list (nat * Date)) : list Payment.t :=
  match cs with
  | [] => []
  | c :: cs' => candidate (randomUUID k) c :: number (S k) cs'
  end.

Definition unsuppressed (cs : list (nat * Date)) : list (nat * Date) :=
  filter (fun c => negb (suppressed c)) cs.

(** *** Invariants of the generation loop *)

(** The state of the generation loop after the alignment loop, and after
    every iteration: the cycle does not start before the join date, or it
    ends after it. *)
Definition aligned (currentPeriodStart : Date) : Prop :=
  date_ltb currentPeriodStart joinDate = false
  \/ date_gtb (periodEndOf currentPeriodStart) joinDate = true.

(** From the second iteration on, the cycle does not start before the join
    date, and its effective start is its own start. *)
Definition settled (currentPeriodStart : Date) : Prop :=
  date_ltb currentPeriodStart joinDate = false.

(** The time value of the effective start of a cycle. *)
Definition startTime (c : nat * Date) : Z :=
  match effectiveStartOf (snd c) with Some t => t | None => 0 end.

End Generate.

Definition generatePaymentsForEnrollment (randomUUID : nat -> string)
           (studentId : string) (course : Course.t) (joinDateStr : string)
           (existingPayments : list Payment.t) : completion (list Payment.t) :=
  let joinDate := newDate joinDateStr in
  let courseStartDate := newDate (Course.startDate course) in
  let cycleStart :=
    alignLoop (alignFuel joinDate courseStartDate) (Course.period course)
              joinDate courseStartDate in
  generateLoop randomUUID studentId course joinDate existingPayments
               (periodsToGenerate (Course.period course)) 0 cycleStart [].

(** The start of the first cycle, as the alignment loop leaves it, and the
    cycles of the horizon that the generation loop visits from there. *)
Definition cycleStartOf (course : Course.t) (joinDateStr : string) : Date :=
  let joinDate := newDate joinDateStr in
  let courseStartDate := newDate (Course.startDate course) in
  alignLoop (alignFuel joinDate courseStartDate) (Course.period course)
            joinDate courseStartDate.

Definition horizon (course : Course.t) (joinDateStr : string) : list (nat * Date) :=
  cycles course (periodsToGenerate (Course.period course)) 0
         (cycleStartOf course joinDateStr).

(** The course start advanced by [k] whole periods. *)
Definition advanced (course : Course.t) (k : nat) : Date :=
  Nat.iter k (nextPeriod (Course.period course)) (newDate (Course.startDate course)).

(** A record whose [periodStart] is the calendar date of the course start
    advanced by whole periods. *)
Definition onCycleBoundary (course : Course.t) (r : Payment.t) : Prop :=
  exists k t, advanced course k = Some t
              /\ Payment.periodStart r = dateText (Some t).

End Model.

(** The first two tests of the duplicate check: the payment is one of this
    student for this course. *)
Definition ofPair (studentId : string) (course : Course.t) (p : Payment.t)
  : bool :=
  String.eqb (Payment.studentId p) studentId
  && String.eqb (Payment.courseId p) (Course.id course).

(** ** The rest of the data model (types.ts) *)

Inductive StudentStatus : Type := active | passive | prereg.

Module Enrollment.
Record t : Type := mk {
  courseId : string;
  joinDate : string
}.
End Enrollment.

Module Student.
Record t : Type := mk {
  id : string;
  firstName : string;
  lastName : string;
  phone : string;
  dob : string;
  motherName : option string;
  motherPhone : option string;
  fatherName : option string;
  fatherPhone : option string;
  notes : option string;
  status : option StudentStatus;
  enrollments : list Enrollment.t
}.
End Student.

Module AppData.
Record t : Type := mk {
  students : list Student.t;
  courses : list Course.t;
  payments : list Payment.t
}.
End AppData.

(** [data] with [ps] as its payments. *)
Definition withPayments (data : AppData.t) (ps : list Payment.t) : AppData.t :=
  AppData.mk (AppData.students data) (AppData.courses data) ps.

(** [status === s] on payment statuses. *)
Definition PaymentStatus_eqb (a b : PaymentStatus) : bool :=
  match a, b with
  | pending, pending | paid, paid | waived, waived | overdue, overdue => true
  | _, _ => false
  end.

(** ** The callers of the generator (App.tsx)

    [handleEnrollStudent] and [handleTransferStudent] look the course up,
    call the generator and post a request to the server.  They are embedded
    up to the request: the result is the object that is serialised as the
    body of the request, or nothing when the course is not found and the
    handler returns before any request.  The generator is called outside
    the [try] block, so that its RangeError is the outcome of the handler. *)

Module EnrollRequest.
Record t : Type := mk {
  studentId : string;
  courseId : string;
  joinDate : string;
  payments : list Payment.t
}.
End EnrollRequest.

Module TransferRequest.
Record t : Type := mk {
  studentId : string;
  oldCourseId : string;
  newCourseId : string;
  transferDate : string;
  newPayments : list Payment.t
}.
End TransferRequest.

Section App.

Context {host : Host}.

Variable randomUUID : nat -> string.
Variable data : AppData.t.

(** [data.courses.find(c => c.id === courseId)]. *)
Definition findCourse (courseId : string) : option Course.t :=
  find (fun c => String.eqb (Course.id c) courseId) (AppData.courses data).

Definition handleEnrollStudent (studentId courseId joinDate : string)
  : completion (option EnrollRequest.t) :=
  match findCourse courseId with
  | None => Returns None
  | Some course =>
      newPayments <- generatePaymentsForEnrollment randomUUID studentId course
                       joinDate (AppData.payments data) ;;
      Returns (Some (EnrollRequest.mk studentId courseId joinDate newPayments))
  end.

Definition handleTransferStudent (studentId oldCourseId newCourseId
                                  transferDate : string)
  : completion (option TransferRequest.t) :=
  match findCourse newCourseId with
  | None => Returns None
  | Some newCourse =>
      newGeneratedPayments <-
        generatePaymentsForEnrollment randomUUID studentId newCourse transferDate
                                      (AppData.payments data) ;;
      Returns (Some (TransferRequest.mk studentId oldCourseId newCourseId
                                        transferDate newGeneratedPayments))
  end.

End App.

(** ** The payment rows of the server (server/index.js)

    The handlers of [/api/enroll] and [/api/transfer] turn each payment of
    the request into a row whose dates are [Date]s, and the handlers of
    [/api/unenroll] and [/api/transfer] delete the rows that match a
    [where] clause.  [GET /api/data] answers with the JSON of the rows, in
    which a [Date] is its [toJSON]. *)

Module PaymentRow.
Record t : Type := mk {
  id : string;
  studentId : string;
  courseId : string;
  periodStart : Date;
  periodEnd : Date;
  amount : float;
  status : PaymentStatus;
  dueDate : Date;
  paidDate : option Date
}.
End PaymentRow.

(** [date.toJSON()]: the ISO text, or null for an Invalid Date. *)
Definition Date_toJSON (d : Date) : option string :=
  match toISOString d with
  | Returns s => Some s
  | ThrowsRangeError => None
  end.

(** [s ? a : b] on an optional string: undefined, null and the empty
    string are falsy. *)
Definition truthy (s : option string) : bool :=
  match s with
  | Some (String _ _) => true
  | _ => false
  end.

Section Server.

Context {host : Host}.

(** The row for a payment [p] of the request:
    [{...p, periodStart: new Date(p.periodStart), ...,
      paidDate: p.paidDate ? new Date(p.paidDate) : null}]. *)
Definition paymentRow (p : Payment.t) : PaymentRow.t :=
  PaymentRow.mk (Payment.id p) (Payment.studentId p) (Payment.courseId p)
                (newDate (Payment.periodStart p))
                (newDate (Payment.periodEnd p))
                (Payment.amount p)
                (Payment.status p)
                (newDate (Payment.dueDate p))
                (match Payment.paidDate p with
                 | Some s => if truthy (Some s) then Some (newDate s) else None
                 | None => None
                 end).

(** The [where] clause [{ studentId, courseId, status: 'pending' }] of the
    [deleteMany] of [/api/unenroll] and of [/api/transfer]. *)
Definition pendingOfPair (studentId courseId : string) (r : PaymentRow.t) : bool :=
  String.eqb (PaymentRow.studentId r) studentId
  && String.eqb (PaymentRow.courseId r) courseId
  && PaymentStatus_eqb (PaymentRow.status r) pending.

(** A payment [q] that the client receives for the row of a payment [p]:
    with the student and the course of [p], and with the JSON of the
    [Date] of the row as its [periodStart]. *)
Definition storedAs (p q : Payment.t) : Prop :=
  Payment.studentId q = Payment.studentId p
  /\ Payment.courseId q = Payment.courseId p
  /\ Date_toJSON (PaymentRow.periodStart (paymentRow p))
     = Some (Payment.periodStart q).

(** The update of [PUT /api/payments/:id]:
    [{ status, paidDate: paidDate ? new Date(paidDate) : null }] written
    over the row. *)
Definition updatePayment (r : PaymentRow.t) (status : PaymentStatus)
           (paidDate : option string) : PaymentRow.t :=
  PaymentRow.mk (PaymentRow.id r) (PaymentRow.studentId r) (PaymentRow.courseId r)
                (PaymentRow.periodStart r) (PaymentRow.periodEnd r)
                (PaymentRow.amount r) status (PaymentRow.dueDate r)
                (match paidDate with
                 | Some s => if truthy (Some s) then Some (newDate s) else None
                 | None => None
                 end).

End Server.

(** The body of the request of [handleUpdatePaymentStatus], [now] being
    [new Date()]:
    [{ status, paidDate: status === 'paid' ? now.toISOString() : undefined }]. *)
Definition handleUpdatePaymentStatus (now : Date) (status : PaymentStatus)
  : completion (PaymentStatus * option string) :=
  if PaymentStatus_eqb status paid
  then paidDate <- toISOString now ;; Returns (status, Some paidDate)
  else Returns (status, None).

(** ** The payments view (components/Payments.tsx, ImportExport.tsx)

    The view shows a table of [filteredPayments], the payments that its
    filters (search, status and date) keep, in the order of their due
    dates, with a badge for each row, and the totals of these same
    payments.  The filters and the sort are not embedded: the functions
    below take [filteredPayments] as an argument, as the code reads it
    from the variable. *)

Section Views.

Context {host : Host}.

(** [new Date()], the time of the call; the calls of one rendering are
    taken at one instant. *)
Variable now : Date.

(** [getDisplayStatus]. *)
Definition getDisplayStatus (p : Payment.t) : PaymentStatus :=
  if PaymentStatus_eqb (Payment.status p) pending
     && date_ltb (newDate (Payment.dueDate p)) now
  then overdue
  else Payment.status p.

(** The test of the filter of the overdue total of the payments view,
    which is taken over [filteredPayments] ([totalOverdue]). *)
Definition countsAsOverdue (p : Payment.t) : bool :=
  PaymentStatus_eqb (Payment.status p) overdue
  || (PaymentStatus_eqb (Payment.status p) pending
      && date_ltb (newDate (Payment.dueDate p)) now).

(** [totalOverdue]:
    [filteredPayments.filter(p => ...).reduce((acc, curr) => acc + curr.amount, 0)]. *)
Definition totalOverdue (filteredPayments : list Payment.t) : float :=
  fold_left (fun acc curr => PrimFloat.add acc (Payment.amount curr))
            (filter countsAsOverdue filteredPayments) 0%float.

(** The filter of the overdue payments of a student in the export. *)
Definition overdueOf (s : Student.t) (p : Payment.t) : bool :=
  String.eqb (Payment.studentId p) (Student.id s)
  && (PaymentStatus_eqb (Payment.status p) overdue
      || (PaymentStatus_eqb (Payment.status p) pending
          && date_ltb (newDate (Payment.dueDate p)) now)).

(** [overduePayments] of the export, over all the payments of the data. *)
Definition overduePayments (payments : list Payment.t) (s : Student.t)
  : list Payment.t :=
  filter (overdueOf s) payments.

End Views.

(** ** The courses view (components/Courses.tsx) *)

(** [s.enrollments.some(e => e.courseId === courseId)]. *)
Definition enrolledIn (courseId : string) (s : Student.t) : bool :=
  existsb (fun e => String.eqb (Enrollment.courseId e) courseId)
          (Student.enrollments s).

Definition getEnrolledStudents (students : list Student.t) (courseId : string)
  : list Student.t :=
  filter (enrolledIn courseId) students.

Definition getAvailableStudents (students : list Student.t) (courseId : string)
  : list Student.t :=
  filter (fun s => negb (enrolledIn courseId s)) students.

(** [handleDayToggle]: the schedule days of the form after a click on
    [day]; a form without schedule days has none. *)
Definition handleDayToggle (scheduleDays : option (list string)) (day : string)
  : list string :=
  let currentDays := match scheduleDays with Some l => l | None => [] end in
  if existsb (String.eqb day) currentDays
  then filter (fun d => negb (String.eqb d day)) currentDays
  else currentDays ++ [day].

(** ** Hosts and sample data

    Hosts that parse date-only strings: one in UTC, one three hours east
    and one five hours west of it without daylight saving time, and one in
    Central European time, with daylight saving time; an identifier source
    that numbers its identifiers; and the monthly course of the
    specification. *)

(** The host [host] moved to the UTC time zone. *)
Definition inUTC (host : Host) : Host :=
  {| LocalTZA := fun _ _ => 0;
     Date_parse := @Date_parse host;
     LocalTZA_bound := fun _ _ => conj eq_refl eq_refl |}.

Definition utcHost : Host :=
  {| LocalTZA := fun _ _ => 0;
     Date_parse := parseDateOnly;
     LocalTZA_bound := fun _ _ => conj eq_refl eq_refl |}.

(** Three hours east of UTC all year (Europe/Istanbul). *)
Definition eastHost : Host :=
  {| LocalTZA := fun _ _ => 10800000;
     Date_parse := parseDateOnly;
     LocalTZA_bound := fun _ _ => conj eq_refl eq_refl |}.

(** Five hours west of UTC all year (Etc/GMT+5). *)
Definition westHost : Host :=
  {| LocalTZA := fun _ _ => -18000000;
     Date_parse := parseDateOnly;
     LocalTZA_bound := fun _ _ => conj eq_refl eq_refl |}.

(** *** Central European time (Europe/Berlin)

    One hour ahead of UTC, and two hours ahead from 01:00 UTC on the last
    Sunday of March until 01:00 UTC on the last Sunday of October (the
    rule in force since 1996, taken here for every year).  In
    local time the clocks jump from 02:00 to 03:00 in March, and go back
    from 03:00 to 02:00 in October: the hour skipped in March and the hour
    repeated in October are read with the offset in force before the
    transition, as ECMA-262 has it. *)

Definition msPerHour : Z := 3600000.

(** The day number of the last Sunday of a month of 31 days; day 0 of the
    epoch was a Thursday, so that the day of the week of day [d] is
    [(d + 4) mod 7], 0 being Sunday. *)
Definition lastSunday (year month : Z) : Z :=
  let d := MakeDay year month 31 in
  d - (d + 4) mod 7.

(** Summer time at the time value [t], or for the local time [t]: with
    either offset the transitions are at 03:00 of the local clock that the
    host reads. *)
Definition summerTime (t : Z) (isUTC : bool) : bool :=
  let year := YearFromTime t in
  let shift := if isUTC then 0 else 2 * msPerHour in
  (lastSunday year 2 * msPerDay + msPerHour + shift <=? t)
  && (t <? lastSunday year 9 * msPerDay + msPerHour + shift).

Definition berlinOffset (t : Z) (isUTC : bool) : Z :=
  if summerTime t isUTC then 7200000 else 3600000.

Definition berlinOffset_bound (t : Z) (isUTC : bool)
  : - msPerDay < berlinOffset t isUTC < msPerDay :=
  match summerTime t isUTC as b
        return - msPerDay < (if b then 7200000 else 3600000) < msPerDay
  with
  | true => conj eq_refl eq_refl
  | false => conj eq_refl eq_refl
  end.

Definition berlinHost : Host :=
  {| LocalTZA := berlinOffset;
     Date_parse := parseDateOnly;
     LocalTZA_bound := berlinOffset_bound |}.

Definition sampleUUID (n : nat) : string :=
  String.append "payment-" (decimal 21 (Z.of_nat n)).

Definition sampleCourse : Course.t :=
  Course.mk "course-1" "Mathematics" "2024-01-01" 1000%float "monthly"
            ["Monday"; "Wednesday"] "14:00" "".

Definition quarterlyCourse : Course.t := withPeriod sampleCourse "quarterly".

(** The scenario on the host in UTC. *)
Definition sampleRun (joinDateStr : string) (existingPayments : list Payment.t)
  : completion (list Payment.t) :=
  generatePaymentsForEnrollment (host := utcHost) sampleUUID "student-1"
                                sampleCourse joinDateStr existingPayments.

(** The scenario on the host west of UTC. *)
Definition sampleRunWest : completion (list Payment.t) :=
  generatePaymentsForEnrollment (host := westHost) sampleUUID "student-1"
                                sampleCourse "2024-01-16" [].

(** The course of the scenario with a join date of 2024-04-30, on the host
    in Central European time. *)
Definition sampleRunBerlin : completion (list Payment.t) :=
  generatePaymentsForEnrollment (host := berlinHost) sampleUUID "student-1"
                                sampleCourse "2024-04-30" [].

Definition returned (r : completion (list Payment.t)) : list Payment.t :=
  match r with Returns out => out | ThrowsRangeError => [] end.

Definition sampleOutput : list Payment.t :=
  Eval vm_compute in returned (sampleRun "2024-01-16" []).

(** A paid payment for February 2024, as the storage layer returns it. *)
Definition sampleExisting : list Payment.t :=
  [Payment.mk "payment-paid" "student-1" "course-1"
              "2024-02-01T00:00:00.000Z" "2024-03-01T00:00:00.000Z" 1000%float
              paid "2024-03-01T00:00:00.000Z" (Some "2024-02-20T09:30:00.000Z")].

Definition sampleOutputAfterFebruary : list Payment.t :=
  Eval vm_compute in returned (sampleRun "2024-01-16" sampleExisting).

(** The same payment, still pending and with other amounts and dates. *)
Definition sampleExistingPending : list Payment.t :=
  [Payment.mk "payment-pending" "student-1" "course-1"
              "2024-02-01" "2024-02-15" 1%float pending "2024-02-15" None].

(** The cycle of February 2024 in the horizon of the scenario. *)
Definition februaryCycle : nat * Date := (1%nat, Some 1706745600000).

(** A weekly course, and a course whose start date is not in the ISO
    format. *)
Definition guitarCourse : Course.t :=
  Course.mk "course-2" "Guitar" "2024-01-03" 250%float "weekly"
            ["Wednesday"] "16:00" "".

Definition misdatedCourse : Course.t :=
  Course.mk "course-3" "Chess" "01.01.2024" 400%float "monthly"
            ["Friday"] "10:00" "".

(** A pending payment of another student for the weekly course. *)
Definition guitarPending : list Payment.t :=
  [Payment.mk "payment-guitar" "student-2" "course-2"
              "2024-01-03T00:00:00.000Z" "2024-01-10T00:00:00.000Z" 250%float
              pending "2024-01-10T00:00:00.000Z" None].

Definition sampleStudents : list Student.t :=
  [Student.mk "student-1" "Ada" "Kaya" "05551234567" "2010-05-20"
              None None None None None (Some active)
              [Enrollment.mk "course-1" "2024-01-16"];
   Student.mk "student-2" "Deniz" "Demir" "" "2011-03-02"
              None None None None None (Some active)
              [Enrollment.mk "course-2" "2024-01-03"]].

Definition sampleData : AppData.t :=
  AppData.mk sampleStudents [sampleCourse; guitarCourse]
             (sampleExisting ++ guitarPending).

(** The request of the enrolment of the second student in the monthly
    course. *)
Definition sampleRequest : EnrollRequest.t :=
  Eval vm_compute in
    match handleEnrollStudent (host := utcHost) sampleUUID sampleData
                              "student-2" "course-1" "2024-01-16" with
    | Returns (Some req) => req
    | _ => EnrollRequest.mk "" "" "" []
    end.

(** What the server removes for a transfer from the weekly course: the
    pending payments of the student for that course. *)
Definition keptOnTransfer (p : Payment.t) : bool :=
  negb (String.eqb (Payment.studentId p) "student-2"
        && String.eqb (Payment.courseId p) "course-2"
        && PaymentStatus_eqb (Payment.status p) pending).

(** The output of the scenario as the server returns it once stored: with
    its dates as the JSON of the [Date]s of the rows. *)
Definition sampleStored : list Payment.t :=
  Eval vm_compute in
    let json s := match Date_toJSON (newDate (host := utcHost) s) with
                  | Some text => text
                  | None => s
                  end in
    map (fun p => Payment.mk (Payment.id p) (Payment.studentId p)
                             (Payment.courseId p) (json (Payment.periodStart p))
                             (json (Payment.periodEnd p)) (Payment.amount p)
                             (Payment.status p) (json (Payment.dueDate p)) None)
        sampleOutput.

(** The row of the paid payment for February 2024. *)
Definition sampleRow : PaymentRow.t :=
  PaymentRow.mk "payment-paid" "student-1" "course-1"
                (Some 1706745600000) (Some 1709251200000) 1000%float paid
                (Some 1709251200000) (Some (Some 1708421400000)).

(** The payments of the second student, who joins the monthly course on
    2024-03-16. *)
Definition marchOutput : list Payment.t :=
  Eval vm_compute in
    returned (generatePaymentsForEnrollment (host := utcHost) sampleUUID
                "student-2" sampleCourse "2024-03-16"
                (AppData.payments sampleData)).

(** * Properties *)

(** ** The calendar *)

Lemma DaysInYear_cases y : DaysInYear y = 365 \/ DaysInYear y = 366.
Proof. unfold DaysInYear; destruct (isLeap y); auto. Qed.

Lemma DayFromYear_succ y : DayFromYear (y + 1) = DayFromYear y + DaysInYear y.
Proof.
  unfold DayFromYear, DaysInYear, isLeap.
  destruct (Z.eqb_spec (y mod 4) 0), (Z.eqb_spec (y mod 100) 0),
    (Z.eqb_spec (y mod 400) 0);
    cbn [andb orb negb]; Z.div_mod_to_equations; lia.
Qed.

Lemma DayFromYear_bounds y :
  146097 * (y - 1970) - 600 <= 400 * DayFromYear y <= 146097 * (y - 1970) + 600.
Proof. unfold DayFromYear. Z.div_mod_to_equations; lia. Qed.

(** [YearFromTime t] is the year whose days contain [t], as ECMA-262
    defines it. *)
Lemma YearFromTime_spec t :
  DayFromYear (YearFromTime t) <= Day t < DayFromYear (YearFromTime t + 1).
Proof.
  unfold YearFromTime. set (d := Day t). set (y := 1970 + 400 * d / 146097).
  assert (Hy : 146097 * (y - 1970) <= 400 * d < 146097 * (y - 1970) + 146097)
    by (subst y; Z.div_mod_to_equations; lia).
  pose proof (DayFromYear_bounds y). pose proof (DayFromYear_bounds (y + 1)).
  pose proof (DayFromYear_bounds (y - 1)). pose proof (DayFromYear_bounds (y + 2)).
  destruct (Z.ltb_spec d (DayFromYear y)).
  - replace (y - 1 + 1) with y by lia. lia.
  - destruct (Z.leb_spec (DayFromYear (y + 1)) d).
    + replace (y + 1 + 1) with (y + 2) by lia. lia.
    + lia.
Qed.

Lemma InLeapYear_cases t : InLeapYear t = 0 \/ InLeapYear t = 1.
Proof. unfold InLeapYear; destruct (isLeap _); auto. Qed.

Lemma DaysInYear_InLeapYear t : DaysInYear (YearFromTime t) = 365 + InLeapYear t.
Proof. unfold DaysInYear, InLeapYear; destruct (isLeap _); reflexivity. Qed.

Lemma DayWithinYear_range t : 0 <= DayWithinYear t < 365 + InLeapYear t.
Proof.
  pose proof (YearFromTime_spec t) as H.
  rewrite DayFromYear_succ, DaysInYear_InLeapYear in H.
  unfold DayWithinYear. lia.
Qed.

Lemma MonthFromTime_range t : 0 <= MonthFromTime t <= 11.
Proof.
  unfold MonthFromTime.
  repeat match goal with |- context [if ?b then _ else _] => destruct b end; lia.
Qed.

(** Case analysis on the integer tests of a goal, closing the branches
    that arithmetic settles. *)
Ltac split_tests :=
  repeat (match goal with
          | |- context [if ?x =? ?y then _ else _] => destruct (Z.eqb_spec x y)
          | |- context [if ?x <=? ?y then _ else _] => destruct (Z.leb_spec x y)
          | |- context [if ?x <? ?y then _ else _] => destruct (Z.ltb_spec x y)
          end; try lia).

Lemma daysInMonth_range m l : 0 <= m <= 11 -> 0 <= l <= 1 -> 28 <= daysInMonth m l <= 31.
Proof. intros Hm Hl. unfold daysInMonth, daysBeforeMonth. split_tests. Qed.

(** The day of the month lies within its month. *)
Lemma DateFromTime_range t :
  1 <= DateFromTime t <= daysInMonth (MonthFromTime t) (InLeapYear t).
Proof.
  pose proof (DayWithinYear_range t) as Hd.
  pose proof (InLeapYear_cases t) as Hl.
  unfold DateFromTime, MonthFromTime, daysInMonth.
  repeat match goal with
         | |- context [if ?x <? ?y then _ else _] => destruct (Z.ltb_spec x y)
         end; unfold daysBeforeMonth; split_tests.
Qed.

Lemma DateFromTime_le_31 t : 1 <= DateFromTime t <= 31.
Proof.
  pose proof (DateFromTime_range t).
  pose proof (daysInMonth_range (MonthFromTime t) (InLeapYear t)
                (MonthFromTime_range t)).
  pose proof (InLeapYear_cases t). lia.
Qed.

(** The fields of a time value name its day. *)
Lemma MakeDay_fields t :
  MakeDay (YearFromTime t) (MonthFromTime t) (DateFromTime t) = Day t.
Proof.
  pose proof (MonthFromTime_range t) as Hm.
  unfold MakeDay.
  rewrite (Z.div_small (MonthFromTime t) 12), (Z.mod_small (MonthFromTime t) 12) by lia.
  rewrite Z.add_0_r. fold (InLeapYear t).
  unfold DateFromTime, DayWithinYear. lia.
Qed.

Lemma DayFromYear_mono y y' : y <= y' -> DayFromYear y <= DayFromYear y'.
Proof. intros H. unfold DayFromYear. Z.div_mod_to_equations; lia. Qed.

(** The year of a day is the only one whose days contain it. *)
Lemma YearFromTime_unique t y :
  DayFromYear y <= Day t < DayFromYear (y + 1) -> YearFromTime t = y.
Proof.
  intros Hy. pose proof (YearFromTime_spec t) as Ht.
  destruct (Z.lt_trichotomy (YearFromTime t) y) as [Hlt | [Heq | Hgt]];
    [|exact Heq|].
  - pose proof (DayFromYear_mono (YearFromTime t + 1) y ltac:(lia)). lia.
  - pose proof (DayFromYear_mono (y + 1) (YearFromTime t) ltac:(lia)). lia.
Qed.

(** [MakeDay] as ECMA-262 defines it: for a month [m] from 0 to 11,
    [MakeDay y m 1] is the day whose year is [y], whose month is [m] and
    whose day of the month is 1, and [MakeDay y m d] is [d - 1] days later. *)
Lemma MakeDay_first y m :
  0 <= m <= 11 ->
  let t := MakeDay y m 1 * msPerDay in
  YearFromTime t = y /\ MonthFromTime t = m /\ DateFromTime t = 1.
Proof.
  intros Hm t.
  assert (Hday : Day t = DayFromYear y
                         + daysBeforeMonth m (if isLeap y then 1 else 0)).
  { unfold t, Day, MakeDay, msPerDay.
    rewrite (Z.div_small m 12), (Z.mod_small m 12), Z.add_0_r by lia.
    rewrite Z.div_mul by lia. lia. }
  assert (Hyear : YearFromTime t = y).
  { apply YearFromTime_unique. rewrite Hday, DayFromYear_succ.
    unfold DaysInYear, daysBeforeMonth. destruct (isLeap y); split_tests. }
  assert (Hleap : InLeapYear t = if isLeap y then 1 else 0)
    by (unfold InLeapYear; rewrite Hyear; reflexivity).
  assert (Hdwy : DayWithinYear t = daysBeforeMonth m (InLeapYear t))
    by (unfold DayWithinYear; rewrite Hyear, Hday, Hleap; lia).
  assert (Hmonth : MonthFromTime t = m).
  { unfold MonthFromTime. rewrite Hdwy, Hleap. unfold daysBeforeMonth.
    destruct (isLeap y); split_tests. }
  split; [exact Hyear|]. split; [exact Hmonth|].
  unfold DateFromTime. rewrite Hmonth, Hdwy. lia.
Qed.

Lemma MakeDay_date y m d k : MakeDay y m (d + k) = MakeDay y m d + k.
Proof. unfold MakeDay. lia. Qed.

Lemma MakeDay_next_month y m d :
  0 <= m <= 11 ->
  MakeDay y (m + 1) d = MakeDay y m d + daysInMonth m (if isLeap y then 1 else 0).
Proof.
  intros Hm. unfold MakeDay, daysInMonth.
  rewrite (Z.div_small m 12), (Z.mod_small m 12), Z.add_0_r by lia.
  destruct (Z.eqb_spec m 11) as [-> | Hne].
  - change ((11 + 1) / 12) with 1. change ((11 + 1) mod 12) with 0.
    rewrite DayFromYear_succ. unfold DaysInYear, daysBeforeMonth.
    destruct (isLeap y), (isLeap (y + 1)); split_tests.
  - rewrite (Z.div_small (m + 1) 12), (Z.mod_small (m + 1) 12), Z.add_0_r by lia.
    lia.
Qed.

Lemma MakeDay_next_year y m d :
  0 <= m <= 11 ->
  MakeDay y m d + 365 <= MakeDay (y + 1) m d <= MakeDay y m d + 366.
Proof.
  intros Hm. unfold MakeDay.
  rewrite (Z.div_small m 12), (Z.mod_small m 12), !Z.add_0_r by lia.
  rewrite DayFromYear_succ. unfold DaysInYear, daysBeforeMonth.
  destruct (isLeap y), (isLeap (y + 1)); split_tests.
Qed.

Lemma Day_TimeWithinDay t : t = Day t * msPerDay + TimeWithinDay t.
Proof.
  unfold Day, TimeWithinDay, msPerDay. Z.div_mod_to_equations; lia.
Qed.

Lemma TimeWithinDay_add u k :
  TimeWithinDay (u + k * msPerDay) = TimeWithinDay u.
Proof. unfold TimeWithinDay, msPerDay. apply Z.mod_add. lia. Qed.

Section Properties.

Context {host : Host}.

(** ** Date arithmetic of the source *)

Lemma TimeClip_Some t v : TimeClip t = Some v -> v = t /\ Z.abs t <= maxTime.
Proof.
  unfold TimeClip. destruct (Z.leb_spec (Z.abs t) maxTime); intros E;
    [injection E as <-; split; [reflexivity | assumption] | discriminate].
Qed.

(** Moving a local time by whole days keeps its time within the day. *)
Lemma MakeDate_Day_add t k :
  MakeDate (Day t + k) (TimeWithinDay t) = t + k * msPerDay.
Proof. unfold MakeDate. pose proof (Day_TimeWithinDay t) as H. lia. Qed.

(** The three helpers move the local time of the date by whole days, and
    return the instant that the host reads for the local time they
    reach. *)
Lemma addDays_Some u k :
  addDays (Some u) k = TimeClip (UTC (LocalTime u + k * msPerDay)).
Proof.
  unfold addDays, setDate, getDate, plus, option_map.
  rewrite MakeDay_date, MakeDay_fields, MakeDate_Day_add. reflexivity.
Qed.

Lemma addMonths_Some u :
  addMonths (Some u) 1
  = TimeClip (UTC (LocalTime u
                   + daysInMonth (MonthFromTime (LocalTime u))
                                 (InLeapYear (LocalTime u)) * msPerDay)).
Proof.
  unfold addMonths, setMonth, getMonth, plus, option_map.
  rewrite MakeDay_next_month by apply MonthFromTime_range.
  fold (InLeapYear (LocalTime u)).
  rewrite MakeDay_fields, MakeDate_Day_add. reflexivity.
Qed.

Lemma addYears_Some u :
  exists k, 365 <= k <= 366
            /\ addYears (Some u) 1 = TimeClip (UTC (LocalTime u + k * msPerDay)).
Proof.
  unfold addYears, setFullYear, getFullYear, plus, option_map.
  set (t := LocalTime u).
  pose proof (MakeDay_next_year (YearFromTime t) (MonthFromTime t) (DateFromTime t)
                (MonthFromTime_range t)) as H.
  rewrite MakeDay_fields in H.
  exists (MakeDay (YearFromTime t + 1) (MonthFromTime t) (DateFromTime t) - Day t).
  split; [lia|].
  rewrite <- MakeDate_Day_add. do 3 f_equal. lia.
Qed.

(** A local time [k] days later is read as an instant less than two days
    from [k] days later: the offsets at the two ends are each less than a
    day. *)
Lemma UTC_LocalTime_days u k :
  u + (k - 2) * msPerDay < UTC (LocalTime u + k * msPerDay)
  < u + (k + 2) * msPerDay.
Proof.
  unfold UTC, LocalTime.
  pose proof (LocalTZA_bound u true).
  pose proof (LocalTZA_bound (u + LocalTZA u true + k * msPerDay) false).
  lia.
Qed.

(** It is read as the instant [k] days later when the offset with which
    the host reads it is the offset at the start. *)
Lemma UTC_LocalTime_same_offset u k :
  LocalTZA (LocalTime u + k * msPerDay) false = LocalTZA u true ->
  UTC (LocalTime u + k * msPerDay) = u + k * msPerDay.
Proof. unfold UTC. intros ->. unfold LocalTime. lia. Qed.

Lemma nextPeriod_None period : nextPeriod period None = None.
Proof.
  unfold nextPeriod.
  destruct (String.eqb period "weekly"); [reflexivity|].
  destruct (String.eqb period "monthly"); reflexivity.
Qed.

(** Every period is a whole number of days of local time, from 7 to
    366. *)
Lemma nextPeriod_TimeClip period u :
  exists k, 7 <= k <= 366
            /\ nextPeriod period (Some u)
               = TimeClip (UTC (LocalTime u + k * msPerDay)).
Proof.
  unfold nextPeriod.
  destruct (String.eqb period "weekly").
  - exists 7. split; [lia | apply addDays_Some].
  - destruct (String.eqb period "monthly").
    + rewrite addMonths_Some.
      assert (Hl : 0 <= InLeapYear (LocalTime u) <= 1)
        by (pose proof (InLeapYear_cases (LocalTime u)); lia).
      pose proof (daysInMonth_range _ _ (MonthFromTime_range (LocalTime u)) Hl).
      eexists. split; [|reflexivity]. lia.
    + destruct (addYears_Some u) as (k & Hk & ->). exists k. split; [lia | reflexivity].
Qed.

(** A period ends more than 5 and less than 368 days after it starts. *)
Lemma nextPeriod_Some period u v :
  nextPeriod period (Some u) = Some v ->
  u + 5 * msPerDay < v < u + 368 * msPerDay.
Proof.
  destruct (nextPeriod_TimeClip period u) as (k & Hk & ->).
  intros H. apply TimeClip_Some in H. destruct H as [-> _].
  pose proof (UTC_LocalTime_days u k). unfold msPerDay in *. lia.
Qed.

(** Away from the ends of the range of time values, the next period is a
    valid date. *)
Lemma nextPeriod_total period u :
  - maxTime <= u -> u + 368 * msPerDay <= maxTime ->
  exists v, nextPeriod period (Some u) = Some v
            /\ u + 5 * msPerDay < v < u + 368 * msPerDay.
Proof.
  intros Hlo Hhi. destruct (nextPeriod_TimeClip period u) as (k & Hk & E).
  pose proof (UTC_LocalTime_days u k) as Hb.
  exists (UTC (LocalTime u + k * msPerDay)).
  split; [|unfold msPerDay in *; lia].
  rewrite E. unfold TimeClip.
  destruct (Z.leb_spec (Z.abs (UTC (LocalTime u + k * msPerDay))) maxTime);
    [reflexivity|].
  unfold msPerDay, maxTime in *. lia.
Qed.

Lemma nextPeriod_valid period d v : nextPeriod period d = Some v -> exists u, d = Some u.
Proof.
  destruct d as [u|]; [eauto|]. rewrite nextPeriod_None. discriminate.
Qed.

(** A time value, once valid, stays within the range of [TimeClip]. *)
Lemma nextPeriod_in_range period d v :
  nextPeriod period d = Some v -> Z.abs v <= maxTime.
Proof.
  unfold nextPeriod, addDays, addMonths, addYears, setDate, setMonth, setFullYear.
  destruct (String.eqb period "weekly");
    [|destruct (String.eqb period "monthly")];
    destruct d; simpl; try discriminate;
    intros H; apply TimeClip_Some in H; destruct H as [-> H]; exact H.
Qed.

(** ** The loops *)

Lemma date_leb_ltb a b : date_leb a b = false -> date_ltb a b = false.
Proof.
  destruct a, b; simpl; auto. intros H.
  apply Z.leb_gt in H. apply Z.ltb_ge. lia.
Qed.

(** *** The calendar date is what precedes the T *)

Fixpoint withoutT (s : string) : bool :=
  match s with
  | EmptyString => true
  | String c s' => negb (Ascii.eqb c "T"%char) && withoutT s'
  end.

Lemma withoutT_append s1 s2 :
  withoutT s1 = true -> withoutT s2 = true -> withoutT (String.append s1 s2) = true.
Proof.
  intros H1 H2. induction s1 as [|c s1 IH]; simpl in *; [exact H2|].
  apply andb_true_iff in H1. destruct H1 as [Hc H1].
  rewrite Hc, (IH H1). reflexivity.
Qed.

Lemma withoutT_digit x : negb (Ascii.eqb (digit (x mod 10)) "T"%char) = true.
Proof.
  assert (H : 0 <= x mod 10 < 10) by (apply Z.mod_pos_bound; lia).
  assert (Hc : x mod 10 = 0 \/ x mod 10 = 1 \/ x mod 10 = 2 \/ x mod 10 = 3
               \/ x mod 10 = 4 \/ x mod 10 = 5 \/ x mod 10 = 6 \/ x mod 10 = 7
               \/ x mod 10 = 8 \/ x mod 10 = 9) by lia.
  repeat (destruct Hc as [Hc | Hc]); rewrite Hc; reflexivity.
Qed.

Lemma withoutT_decimal fuel : forall n, withoutT (decimal fuel n) = true.
Proof.
  induction fuel as [|fuel IH]; intros n; [reflexivity|].
  cbn [decimal]. apply withoutT_append.
  - destruct (n <? 10); [reflexivity | apply IH].
  - cbn [withoutT]. rewrite withoutT_digit. reflexivity.
Qed.

Lemma withoutT_zeros n : withoutT (zeros n) = true.
Proof. induction n as [|n IH]; simpl; [|rewrite IH]; reflexivity. Qed.

Lemma withoutT_padded n w : withoutT (ToZeroPaddedDecimalString n w) = true.
Proof.
  unfold ToZeroPaddedDecimalString.
  apply withoutT_append; [apply withoutT_zeros | apply withoutT_decimal].
Qed.

Lemma withoutT_yearString y : withoutT (yearString y) = true.
Proof.
  unfold yearString.
  destruct ((0 <=? y) && (y <=? 9999)); [apply withoutT_padded|].
  destruct (y <? 0); cbn [withoutT]; rewrite withoutT_padded; reflexivity.
Qed.

Lemma withoutT_calendarText t : withoutT (calendarText t) = true.
Proof.
  unfold calendarText.
  apply withoutT_append; [apply withoutT_yearString|].
  cbn [withoutT]. rewrite withoutT_append; [reflexivity | apply withoutT_padded |].
  cbn [withoutT]. rewrite withoutT_padded. reflexivity.
Qed.

Lemma split_T_0_append s1 s2 :
  withoutT s1 = true ->
  split_T_0 (String.append s1 (String "T"%char s2)) = s1.
Proof.
  intros H. induction s1 as [|c s1 IH]; simpl in *; [reflexivity|].
  apply andb_true_iff in H. destruct H as [Hc H].
  apply negb_true_iff in Hc. rewrite Hc, (IH H). reflexivity.
Qed.

(** The date that the generator prints is the calendar date in UTC. *)
Lemma toISODate_calendarText t : toISODate (Some t) = Returns (calendarText t).
Proof.
  unfold toISODate, toISOString. cbn [bind].
  rewrite split_T_0_append by apply withoutT_calendarText. reflexivity.
Qed.

Lemma toISODate_None : toISODate None = ThrowsRangeError.
Proof. reflexivity. Qed.

Lemma dateText_calendarText t : dateText (Some t) = calendarText t.
Proof. unfold dateText. rewrite toISODate_calendarText. reflexivity. Qed.

Lemma toISODate_Some t : exists day, toISODate (Some t) = Returns day.
Proof. eexists. apply toISODate_calendarText. Qed.

Lemma toISODate_dateText d day : toISODate d = Returns day -> dateText d = day.
Proof. unfold dateText. intros ->. reflexivity. Qed.

Section GenerateFacts.

Variable randomUUID : nat -> string.
Variable studentId : string.
Variable course : Course.t.
Variable joinDate : Date.
Variable existingPayments : list Payment.t.

(** The cycle-level definitions at the inputs of this section. *)
Local Abbreviation endOf := (periodEndOf course).
Local Abbreviation startOf := (effectiveStartOf joinDate).
Local Abbreviation matching := (matchesCycle studentId course).
Local Abbreviation isSuppressed :=
  (suppressed studentId course joinDate existingPayments).
Local Abbreviation isComplete :=
  (completes studentId course joinDate existingPayments).
Local Abbreviation cyclesFrom := (cycles course).
Local Abbreviation kept := (unsuppressed studentId course joinDate existingPayments).
Local Abbreviation records := (number randomUUID studentId course joinDate).
Local Abbreviation loop :=
  (generateLoop randomUUID studentId course joinDate existingPayments).

(** The duplicate check on a valid date is a search of the existing
    payments. *)
Lemma some_existing_valid effectiveStart day ps :
  toISODate effectiveStart = Returns day ->
  some_existing studentId course effectiveStart ps
  = Returns (existsb (matching day) ps).
Proof.
  intros Hday. induction ps as [|p ps IH]; simpl; [reflexivity|].
  unfold matchesCycle at 1.
  destruct (String.eqb (Payment.studentId p) studentId
            && String.eqb (Payment.courseId p) (Course.id course)); simpl.
  - rewrite Hday. simpl. destruct (String.prefix day (Payment.periodStart p)); auto.
  - exact IH.
Qed.

(** On an Invalid Date the check either throws or finds nothing. *)
Lemma some_existing_invalid ps :
  some_existing studentId course None ps = ThrowsRangeError
  \/ some_existing studentId course None ps = Returns false.
Proof.
  induction ps as [|p ps IH]; simpl; [auto|].
  destruct (String.eqb (Payment.studentId p) studentId
            && String.eqb (Payment.courseId p) (Course.id course)); simpl; auto.
Qed.

Lemma periodEndOf_later u v : endOf (Some u) = Some v -> u < v.
Proof.
  intros H. apply nextPeriod_Some in H. unfold msPerDay in H. lia.
Qed.

Lemma aligned_no_skip cps :
  aligned course joinDate cps -> date_geb (startOf cps) (endOf cps) = false.
Proof.
  unfold aligned, effectiveStartOf, date_geb, date_gtb.
  destruct (endOf cps) as [e|] eqn:He; [|intros _; reflexivity].
  destruct (nextPeriod_valid _ _ _ He) as [u ->].
  apply periodEndOf_later in He.
  destruct joinDate as [j|]; simpl.
  - destruct (Z.ltb_spec u j); simpl; intros [E|E];
      try discriminate; apply Z.leb_gt; lia.
  - intros _. apply Z.leb_gt. lia.
Qed.

Lemma aligned_next cps :
  aligned course joinDate cps -> date_ltb (endOf cps) joinDate = false.
Proof.
  unfold aligned, date_gtb.
  destruct (endOf cps) as [e|] eqn:He; [|reflexivity].
  destruct (nextPeriod_valid _ _ _ He) as [u ->].
  apply periodEndOf_later in He.
  destruct joinDate as [j|]; simpl; [|reflexivity].
  intros [H|H]; apply Z.ltb_ge.
  - apply Z.ltb_ge in H. lia.
  - apply Z.ltb_lt in H. lia.
Qed.

Lemma aligned_periodEndOf cps :
  aligned course joinDate cps -> aligned course joinDate (endOf cps).
Proof. intros H. left. apply aligned_next, H. Qed.

(** The generation loop returns the records of the cycles that no existing
    payment suppresses, in the order of the cycles, and throws exactly when
    the iteration of some cycle meets an Invalid Date. *)
Lemma generateLoop_cycles n : forall i cps acc,
  aligned course joinDate cps ->
  loop n i cps acc
  = if forallb isComplete (cyclesFrom n i cps)
    then Returns (acc ++ records (List.length acc) (kept (cyclesFrom n i cps)))%list
    else ThrowsRangeError.
Proof.
  induction n as [|n IH]; intros i cps acc Hal.
  - simpl. rewrite app_nil_r. reflexivity.
  - cbn [generateLoop cycles forallb].
    change (nextPeriod (Course.period course) cps) with (endOf cps).
    change (if date_ltb cps joinDate then joinDate else cps) with (startOf cps).
    rewrite (aligned_no_skip _ Hal).
    unfold completes at 1, suppressed at 1, unsuppressed.
    cbn [snd filter].
    destruct (startOf cps) as [e|] eqn:Heff.
    + destruct (toISODate_Some e) as [day Hday].
      rewrite (some_existing_valid _ _ _ Hday).
      unfold suppressed at 1. cbn [snd]. rewrite Heff.
      rewrite (toISODate_dateText _ _ Hday).
      cbn [bind isValid andb].
      destruct (existsb (matching day) existingPayments); cbn [negb orb].
      * apply IH, aligned_periodEndOf, Hal.
      * rewrite Hday. cbn [bind].
        destruct (endOf cps) as [pe|] eqn:Hpe; [|reflexivity].
        destruct (toISODate_Some pe) as [dayE HdayE]. rewrite HdayE. cbn [bind isValid].
        rewrite IH by (rewrite <- Hpe; apply aligned_periodEndOf, Hal).
        destruct (forallb _ _); [|reflexivity].
        rewrite <- app_assoc, length_app, Nat.add_1_r. cbn [app number].
        unfold candidate, amountOf. cbn [fst snd].
        rewrite Heff, Hpe, (toISODate_dateText _ _ Hday),
          (toISODate_dateText _ _ HdayE).
        reflexivity.
    + cbn [isValid andb].
      destruct (some_existing_invalid existingPayments) as [-> | ->]; reflexivity.
Qed.

End GenerateFacts.

(** ** The alignment loop *)

Section Alignment.

Variable period : string.
Variable joinDate : Date.

Lemma enoughFuel_next fuel s v :
  enoughFuel joinDate (S fuel) (Some s) ->
  nextPeriod period (Some s) = Some v ->
  enoughFuel joinDate fuel (Some v).
Proof.
  unfold enoughFuel. destruct joinDate as [j|]; [|trivial].
  intros Hf Hv. apply nextPeriod_Some in Hv.
  rewrite Nat2Z.inj_succ in Hf. unfold msPerDay in *.
  Z.div_mod_to_equations; lia.
Qed.

(** With enough fuel the model leaves the loop where the source does. *)
Lemma alignLoop_exit fuel : forall cycleStart,
  enoughFuel joinDate fuel cycleStart ->
  loopExit period joinDate (alignLoop fuel period joinDate cycleStart).
Proof.
  induction fuel as [|fuel IH]; intros cs Hf.
  - left. simpl. unfold enoughFuel in Hf.
    destruct joinDate as [j|], cs as [s|]; simpl; try reflexivity.
    apply Z.leb_gt. unfold msPerDay in Hf. simpl in Hf.
    Z.div_mod_to_equations; lia.
  - simpl. destruct (date_leb cs joinDate) eqn:Hle; [|left; exact Hle].
    destruct (date_gtb (nextPeriod period cs) joinDate) eqn:Hgt; [right; exact Hgt|].
    apply IH.
    destruct (nextPeriod period cs) as [v|] eqn:Hv;
      [|unfold enoughFuel; destruct joinDate; trivial].
    destruct (nextPeriod_valid _ _ _ Hv) as [s ->].
    eapply enoughFuel_next; eauto.
Qed.

(** Past that point more fuel changes nothing. *)
Lemma alignLoop_more_fuel fuel : forall cycleStart fuel',
  enoughFuel joinDate fuel cycleStart -> (fuel <= fuel')%nat ->
  alignLoop fuel' period joinDate cycleStart
  = alignLoop fuel period joinDate cycleStart.
Proof.
  induction fuel as [|fuel IH]; intros cs fuel' Hf Hle.
  - simpl. destruct fuel' as [|fuel']; [reflexivity|]. simpl.
    replace (date_leb cs joinDate) with false; [reflexivity|].
    unfold enoughFuel in Hf.
    destruct joinDate as [j|], cs as [s|]; simpl; try reflexivity.
    symmetry. apply Z.leb_gt. unfold msPerDay in Hf. simpl in Hf.
    Z.div_mod_to_equations; lia.
  - destruct fuel' as [|fuel']; [lia|]. simpl.
    destruct (date_leb cs joinDate) eqn:Hcs; [|reflexivity].
    destruct (date_gtb (nextPeriod period cs) joinDate) eqn:Hgt; [reflexivity|].
    apply IH; [|lia].
    destruct (nextPeriod period cs) as [v|] eqn:Hv;
      [|unfold enoughFuel; destruct joinDate; trivial].
    destruct (nextPeriod_valid _ _ _ Hv) as [s ->].
    eapply enoughFuel_next; eauto.
Qed.

Lemma alignFuel_enough courseStartDate :
  enoughFuel joinDate (alignFuel joinDate courseStartDate) courseStartDate.
Proof.
  unfold enoughFuel, alignFuel.
  destruct joinDate as [j|], courseStartDate as [s|]; trivial.
  rewrite Nat2Z.inj_succ. lia.
Qed.

(** The loop only ever moves by whole periods. *)
Lemma alignLoop_iter fuel : forall cycleStart,
  exists k, alignLoop fuel period joinDate cycleStart
            = Nat.iter k (nextPeriod period) cycleStart.
Proof.
  induction fuel as [|fuel IH]; intros cs.
  - exists 0%nat. reflexivity.
  - simpl. destruct (date_leb cs joinDate); [|exists 0%nat; reflexivity].
    destruct (date_gtb (nextPeriod period cs) joinDate); [exists 0%nat; reflexivity|].
    destruct (IH (nextPeriod period cs)) as [k Hk].
    exists (S k). rewrite Hk. symmetry. apply Nat.iter_succ_r.
Qed.

(** The loop is not entered when the join date precedes the start. *)
Lemma alignLoop_not_entered fuel cycleStart :
  date_leb cycleStart joinDate = false ->
  alignLoop fuel period joinDate cycleStart = cycleStart.
Proof. intros H. destruct fuel; simpl; [|rewrite H]; reflexivity. Qed.

End Alignment.

(** ** The generator as a whole *)

Lemma cycleStartOf_aligned course joinDateStr :
  aligned course (newDate joinDateStr) (cycleStartOf course joinDateStr).
Proof.
  destruct (alignLoop_exit (Course.period course) (newDate joinDateStr) _ _
              (alignFuel_enough (newDate joinDateStr)
                 (newDate (Course.startDate course)))) as [H|H].
  - left. apply date_leb_ltb, H.
  - right. exact H.
Qed.

(** [generatePaymentsForEnrollment] returns the records of the unsuppressed
    cycles of the horizon, numbered from 0. *)
Lemma generate_horizon randomUUID studentId course joinDateStr existingPayments :
  generatePaymentsForEnrollment randomUUID studentId course joinDateStr
                                existingPayments
  = if forallb (completes studentId course (newDate joinDateStr) existingPayments)
               (horizon course joinDateStr)
    then Returns
           (number randomUUID studentId course (newDate joinDateStr) 0
              (unsuppressed studentId course (newDate joinDateStr)
                 existingPayments (horizon course joinDateStr)))
    else ThrowsRangeError.
Proof.
  unfold generatePaymentsForEnrollment.
  exact (generateLoop_cycles randomUUID studentId course (newDate joinDateStr)
           existingPayments _ 0%nat _ [] (cycleStartOf_aligned course joinDateStr)).
Qed.

Lemma generate_returns randomUUID studentId course joinDateStr existingPayments out :
  generatePaymentsForEnrollment randomUUID studentId course joinDateStr
                                existingPayments = Returns out ->
  forallb (completes studentId course (newDate joinDateStr) existingPayments)
          (horizon course joinDateStr) = true
  /\ out = number randomUUID studentId course (newDate joinDateStr) 0
             (unsuppressed studentId course (newDate joinDateStr)
                existingPayments (horizon course joinDateStr)).
Proof.
  rewrite generate_horizon. destruct (forallb _ _); [|discriminate].
  intros H. injection H as <-. auto.
Qed.

Lemma length_cycles course n : forall i cps, List.length (cycles course n i cps) = n.
Proof. induction n; intros; simpl; [|rewrite IHn]; reflexivity. Qed.

Lemma length_number randomUUID studentId course joinDate cs :
  forall k, List.length (number randomUUID studentId course joinDate k cs)
            = List.length cs.
Proof. induction cs; intros; simpl; [|rewrite IHcs]; reflexivity. Qed.

Lemma length_unsuppressed studentId course joinDate existingPayments cs :
  (List.length (unsuppressed studentId course joinDate existingPayments cs)
   <= List.length cs)%nat.
Proof. apply filter_length_le. Qed.

(** C5. Horizon bound: a call returns at most 52 records for a weekly
    course, at most 12 for a monthly one and at most 5 for a yearly one. *)
Theorem horizon_bound randomUUID studentId course joinDateStr existingPayments out :
  generatePaymentsForEnrollment randomUUID studentId course joinDateStr
                                existingPayments = Returns out ->
  (Course.period course = "weekly" -> (List.length out <= 52)%nat)
  /\ (Course.period course = "monthly" -> (List.length out <= 12)%nat)
  /\ (Course.period course = "yearly" -> (List.length out <= 5)%nat).
Proof.
  intros H. apply generate_returns in H. destruct H as [_ ->].
  rewrite length_number.
  pose proof (length_unsuppressed studentId course (newDate joinDateStr)
                existingPayments (horizon course joinDateStr)) as Hlen.
  unfold horizon in Hlen at 2. rewrite length_cycles in Hlen.
  repeat split; intros Hp; rewrite Hp in Hlen; exact Hlen.
Qed.

(** ** The period of the course *)

Lemma nextPeriod_weekly d : nextPeriod "weekly" d = addDays d 7.
Proof. reflexivity. Qed.

Lemma nextPeriod_monthly d : nextPeriod "monthly" d = addMonths d 1.
Proof. reflexivity. Qed.

Lemma nextPeriod_yearly d : nextPeriod "yearly" d = addYears d 1.
Proof. reflexivity. Qed.

Lemma nextPeriod_fallback period d :
  period <> "weekly" -> period <> "monthly" -> nextPeriod period d = addYears d 1.
Proof.
  intros Hw Hm. unfold nextPeriod.
  apply String.eqb_neq in Hw, Hm. rewrite Hw, Hm. reflexivity.
Qed.

Lemma periodsToGenerate_fallback period :
  period <> "weekly" -> period <> "monthly" -> periodsToGenerate period = 5%nat.
Proof.
  intros Hw Hm. unfold periodsToGenerate.
  apply String.eqb_neq in Hw, Hm. rewrite Hw, Hm. reflexivity.
Qed.

Lemma alignLoop_period_ext period period' joinDate :
  (forall d, nextPeriod period d = nextPeriod period' d) ->
  forall fuel cycleStart,
    alignLoop fuel period joinDate cycleStart
    = alignLoop fuel period' joinDate cycleStart.
Proof.
  intros Hext. induction fuel as [|fuel IH]; intros cs; simpl; [reflexivity|].
  rewrite Hext, IH. reflexivity.
Qed.

Lemma some_existing_course_ext studentId course course' effectiveStart ps :
  Course.id course = Course.id course' ->
  some_existing studentId course effectiveStart ps
  = some_existing studentId course' effectiveStart ps.
Proof.
  intros Hid. induction ps as [|p ps IH]; simpl; [reflexivity|].
  rewrite Hid, IH. reflexivity.
Qed.

(** The generation loop reads the course through its identifier, its fee
    and the period arithmetic only. *)
Lemma generateLoop_course_ext randomUUID studentId course course' joinDate
      existingPayments :
  Course.id course = Course.id course' ->
  Course.fee course = Course.fee course' ->
  (forall d, nextPeriod (Course.period course) d
             = nextPeriod (Course.period course') d) ->
  forall n i cps acc,
    generateLoop randomUUID studentId course joinDate existingPayments n i cps acc
    = generateLoop randomUUID studentId course' joinDate existingPayments n i cps acc.
Proof.
  intros Hid Hfee Hext. induction n as [|n IH]; intros i cps acc; simpl; [reflexivity|].
  rewrite Hext, Hfee, Hid, (some_existing_course_ext _ _ _ _ _ Hid).
  destruct (date_geb _ _); [apply IH|].
  destruct (some_existing _ _ _ _) as [[|]|]; simpl; [apply IH| |reflexivity].
  destruct (toISODate (if date_ltb cps joinDate then joinDate else cps));
    simpl; [|reflexivity].
  destruct (toISODate (nextPeriod _ _)); simpl; [apply IH|reflexivity].
Qed.

(** C7. Unrecognized-period fallback: with a period other than weekly and
    monthly the generator does what it does for a yearly course; the period
    advances by one calendar year and the horizon is 5 cycles. *)
Theorem unrecognized_period_is_yearly randomUUID studentId course joinDateStr
        existingPayments :
  Course.period course <> "weekly" ->
  Course.period course <> "monthly" ->
  generatePaymentsForEnrollment randomUUID studentId course joinDateStr
                                existingPayments
  = generatePaymentsForEnrollment randomUUID studentId (withPeriod course "yearly")
                                  joinDateStr existingPayments
  /\ (forall d, nextPeriod (Course.period course) d = addYears d 1)
  /\ periodsToGenerate (Course.period course) = 5%nat.
Proof.
  intros Hw Hm.
  assert (Hext : forall d, nextPeriod (Course.period course) d
                           = nextPeriod (Course.period (withPeriod course "yearly")) d).
  { intros d. rewrite nextPeriod_fallback by assumption. reflexivity. }
  split; [|split].
  - unfold generatePaymentsForEnrollment.
    rewrite (alignLoop_period_ext _ _ _ Hext).
    rewrite (periodsToGenerate_fallback _ Hw Hm).
    apply generateLoop_course_ext; auto.
  - intros d. apply nextPeriod_fallback; assumption.
  - apply periodsToGenerate_fallback; assumption.
Qed.

(** ** Duplicate detection *)

Lemma prefix_refl s : String.prefix s s = true.
Proof.
  induction s as [|a s IH]; simpl; [reflexivity|].
  destruct (ascii_dec a a); [exact IH | congruence].
Qed.

Lemma filter_none {A : Type} (f : A -> bool) (l : list A) :
  (forall x, In x l -> f x = false) -> filter f l = [].
Proof.
  induction l as [|a l IH]; intros H; simpl; [reflexivity|].
  rewrite (H a) by (left; reflexivity). apply IH. intros x Hx. apply H. right. exact Hx.
Qed.

Lemma forallb_agree {A : Type} (f g : A -> bool) (l : list A) :
  (forall x, In x l -> f x = g x) -> forallb f l = forallb g l.
Proof.
  induction l as [|a l IH]; intros H; simpl; [reflexivity|].
  rewrite (H a) by (left; reflexivity). f_equal.
  apply IH. intros x Hx. apply H. right. exact Hx.
Qed.

Lemma existsb_matchesCycle studentId course day ps :
  existsb (matchesCycle studentId course day) ps = true
  <-> exists p, In p ps
                /\ Payment.studentId p = studentId
                /\ Payment.courseId p = Course.id course
                /\ String.prefix day (Payment.periodStart p) = true.
Proof.
  rewrite existsb_exists. unfold matchesCycle.
  split; intros (p & Hin & H); exists p; split; auto.
  - apply andb_true_iff in H. destruct H as [H H3].
    apply andb_true_iff in H. destruct H as [H1 H2].
    apply String.eqb_eq in H1, H2. auto.
  - destruct H as (-> & -> & ->). rewrite !String.eqb_refl. reflexivity.
Qed.

Lemma In_number randomUUID studentId course joinDate c cs :
  forall k, In c cs ->
            exists k', In (candidate studentId course joinDate (randomUUID k') c)
                          (number randomUUID studentId course joinDate k cs).
Proof.
  induction cs as [|c0 cs IH]; intros k; simpl; [intros []|].
  intros [-> | Hin].
  - exists k. left. reflexivity.
  - destruct (IH (S k) Hin) as [k' H]. exists k'. right. exact H.
Qed.

Lemma In_number_inv randomUUID studentId course joinDate r cs :
  forall k, In r (number randomUUID studentId course joinDate k cs) ->
            exists c k', In c cs
                         /\ r = candidate studentId course joinDate (randomUUID k') c.
Proof.
  induction cs as [|c0 cs IH]; intros k; simpl; [intros []|].
  intros [<- | Hin].
  - exists c0, k. auto.
  - destruct (IH (S k) Hin) as (c & k' & Hc & Hr). exists c, k'. auto.
Qed.

Lemma completes_valid studentId course joinDate existingPayments c :
  completes studentId course joinDate existingPayments c = true ->
  isValid (effectiveStartOf joinDate (snd c)) = true.
Proof. unfold completes. intros H. apply andb_true_iff in H. apply H. Qed.

(** C1. Idempotence: when a call returns [out], a second call on the same
    inputs, with [out] appended to the existing payments, returns the empty
    list. *)
Theorem generate_idempotent randomUUID randomUUID' studentId course joinDateStr
        existingPayments out :
  generatePaymentsForEnrollment randomUUID studentId course joinDateStr
                                existingPayments = Returns out ->
  generatePaymentsForEnrollment randomUUID' studentId course joinDateStr
                                (existingPayments ++ out) = Returns [].
Proof.
  intros H. apply generate_returns in H. destruct H as [Hok Hout].
  rewrite generate_horizon.
  set (joinDate := newDate joinDateStr) in *.
  assert (Hsup : forall c, In c (horizon course joinDateStr) ->
                 suppressed studentId course joinDate (existingPayments ++ out) c
                 = true).
  { intros c Hc. unfold suppressed. rewrite existsb_app.
    destruct (existsb _ existingPayments) eqn:Hex; [reflexivity|]. simpl.
    assert (Hkept : In c (unsuppressed studentId course joinDate existingPayments
                            (horizon course joinDateStr))).
    { apply filter_In. split; [exact Hc|]. unfold suppressed. rewrite Hex. reflexivity. }
    destruct (In_number randomUUID studentId course joinDate c _ 0%nat Hkept)
      as [k Hk].
    rewrite <- Hout in Hk.
    apply existsb_matchesCycle. eexists. split; [exact Hk|].
    simpl. repeat split. apply prefix_refl. }
  replace (forallb _ _) with true.
  - f_equal. unfold unsuppressed. rewrite filter_none; [reflexivity|].
    intros c Hc. rewrite (Hsup c Hc). reflexivity.
  - symmetry. apply forallb_forall. intros c Hc.
    unfold completes. rewrite (Hsup c Hc), orb_true_l, andb_true_r.
    rewrite forallb_forall in Hok. apply (completes_valid _ _ _ _ _ (Hok c Hc)).
Qed.

(** The record of a cycle of the horizon is absent from the output exactly
    when an existing payment has the same student, the same course and a
    [periodStart] that starts with the calendar date of the cycle's
    effective start. *)
Lemma duplicate_suppression_prefix randomUUID studentId course joinDateStr
      existingPayments out :
  generatePaymentsForEnrollment randomUUID studentId course joinDateStr
                                existingPayments = Returns out ->
  forall c, In c (horizon course joinDateStr) ->
    let day := dateText (effectiveStartOf (newDate joinDateStr) (snd c)) in
    (exists r, In r out
               /\ Payment.studentId r = studentId
               /\ Payment.courseId r = Course.id course
               /\ Payment.periodStart r = day)
    <-> ~ (exists p, In p existingPayments
                     /\ Payment.studentId p = studentId
                     /\ Payment.courseId p = Course.id course
                     /\ String.prefix day (Payment.periodStart p) = true).
Proof.
  intros H c Hc day. apply generate_returns in H. destruct H as [_ ->].
  rewrite <- existsb_matchesCycle.
  split.
  - intros (r & Hr & _ & _ & Hday).
    apply In_number_inv in Hr. destruct Hr as (c' & k & Hc' & ->).
    apply filter_In in Hc'. destruct Hc' as [_ Hc'].
    unfold suppressed in *. simpl in Hday. fold day. rewrite <- Hday.
    destruct (existsb _ _); [discriminate | congruence].
  - intros Hns.
    assert (Hkept : In c (unsuppressed studentId course (newDate joinDateStr)
                            existingPayments (horizon course joinDateStr))).
    { apply filter_In. split; [exact Hc|].
      unfold suppressed. fold day.
      destruct (existsb _ _); [congruence | reflexivity]. }
    destruct (In_number randomUUID studentId course (newDate joinDateStr) c _
                0%nat Hkept) as [k Hk].
    eexists. split; [exact Hk|]. simpl. auto.
Qed.

(** ** The cycles of the horizon *)

Lemma StronglySorted_map_filter {A : Type} (R : Z -> Z -> Prop) (g : A -> Z)
      (f : A -> bool) (l : list A) :
  StronglySorted R (map g l) -> StronglySorted R (map g (filter f l)).
Proof.
  induction l as [|a l IH]; simpl; intros H; [constructor|].
  inversion H as [|? ? Hs Hall]; subst.
  destruct (f a); simpl; [|apply IH, Hs].
  constructor; [apply IH, Hs|].
  rewrite Forall_forall in *. intros x Hx. apply Hall.
  apply in_map_iff in Hx. destruct Hx as (y & <- & Hy).
  apply in_map. apply filter_In in Hy. apply Hy.
Qed.

Section CycleFacts.

Variable studentId : string.
Variable course : Course.t.
Variable joinDate : Date.
Variable existingPayments : list Payment.t.

Local Abbreviation endOf := (periodEndOf course).
Local Abbreviation startOf := (effectiveStartOf joinDate).
Local Abbreviation cyclesFrom := (cycles course).

Lemma settled_startOf cps : settled joinDate cps -> startOf cps = cps.
Proof. unfold settled, effectiveStartOf. intros ->. reflexivity. Qed.

Lemma aligned_settled_next cps :
  aligned course joinDate cps -> settled joinDate (endOf cps).
Proof. apply aligned_next. Qed.

Lemma settled_aligned cps : settled joinDate cps -> aligned course joinDate cps.
Proof. intros H. left. exact H. Qed.

Lemma cycles_settled n : forall i cps c,
  settled joinDate cps -> In c (cyclesFrom n i cps) -> settled joinDate (snd c).
Proof.
  induction n as [|n IH]; intros i cps c Hs; simpl; [intros []|].
  intros [<- | Hin]; [exact Hs|].
  eapply IH; [|exact Hin]. apply aligned_settled_next, settled_aligned, Hs.
Qed.

Lemma cycles_iter n : forall i cps c,
  In c (cyclesFrom n i cps) -> exists k, snd c = Nat.iter k endOf cps.
Proof.
  induction n as [|n IH]; intros i cps c; simpl; [intros []|].
  intros [<- | Hin]; [exists 0%nat; reflexivity|].
  destruct (IH _ _ _ Hin) as [k Hk]. exists (S k).
  rewrite Hk. symmetry. apply Nat.iter_succ_r.
Qed.

Lemma startTime_dateText c :
  isValid (startOf (snd c)) = true ->
  dateText (startOf (snd c)) = dateText (Some (startTime joinDate c)).
Proof. unfold startTime. destruct (startOf (snd c)); [reflexivity | discriminate]. Qed.

(** The effective starts of successive cycles increase strictly. *)
Lemma cycles_sorted n : forall i cps,
  aligned course joinDate cps ->
  forallb (fun c => isValid (startOf (snd c))) (cyclesFrom n i cps) = true ->
  Sorted Z.lt (map (startTime joinDate) (cyclesFrom n i cps)).
Proof.
  induction n as [|n IH]; intros i cps Hal Hv; simpl; [constructor|].
  simpl in Hv. apply andb_true_iff in Hv. destruct Hv as [Hv0 Hv].
  constructor; [apply IH; [apply aligned_periodEndOf, Hal | exact Hv]|].
  destruct n as [|n]; simpl; [constructor|].
  constructor. simpl in Hv. apply andb_true_iff in Hv. destruct Hv as [Hv1 _].
  pose proof (aligned_no_skip _ _ _ Hal) as Hns.
  unfold startTime. simpl.
  rewrite (settled_startOf _ (aligned_settled_next _ Hal)) in *.
  destruct (startOf cps) as [a|]; [|discriminate].
  destruct (endOf cps) as [e|]; [|discriminate].
  simpl in Hns. apply Z.leb_gt in Hns. exact Hns.
Qed.

Lemma completes_all_valid cs :
  forallb (completes studentId course joinDate existingPayments) cs = true ->
  forallb (fun c => isValid (startOf (snd c))) cs = true.
Proof.
  rewrite !forallb_forall. intros H c Hc. eapply completes_valid, H, Hc.
Qed.

End CycleFacts.

Lemma Day_le_mono a b : a <= b -> Day a <= Day b.
Proof. intros H. unfold Day, msPerDay. apply Z.div_le_mono; lia. Qed.

Lemma periodStart_number randomUUID studentId course joinDate cs :
  forall k,
    Forall (fun c => isValid (effectiveStartOf joinDate (snd c)) = true) cs ->
    Forall2 (fun r t => Payment.periodStart r = dateText (Some t))
            (number randomUUID studentId course joinDate k cs)
            (map (startTime joinDate) cs).
Proof.
  induction cs as [|c cs IH]; intros k Hv; simpl; [constructor|].
  inversion Hv; subst. constructor; [|apply IH; assumption].
  simpl. apply startTime_dateText. assumption.
Qed.

(** C8. Output ordering: the records are returned in ascending order of
    [periodStart]: their [periodStart]s are the calendar dates of strictly
    increasing time values, hence of ascending days. *)
Theorem output_ascending randomUUID studentId course joinDateStr existingPayments
        out :
  generatePaymentsForEnrollment randomUUID studentId course joinDateStr
                                existingPayments = Returns out ->
  exists ts,
    Forall2 (fun r t => Payment.periodStart r = dateText (Some t)) out ts
    /\ StronglySorted Z.lt ts
    /\ StronglySorted Z.le (map Day ts).
Proof.
  intros H. apply generate_returns in H. destruct H as [Hok ->].
  set (joinDate := newDate joinDateStr) in *.
  apply completes_all_valid in Hok.
  exists (map (startTime joinDate)
              (unsuppressed studentId course joinDate existingPayments
                 (horizon course joinDateStr))).
  assert (Hs : StronglySorted Z.lt
                 (map (startTime joinDate)
                    (unsuppressed studentId course joinDate existingPayments
                       (horizon course joinDateStr)))).
  { apply StronglySorted_map_filter.
    apply Sorted_StronglySorted; [exact Z.lt_strorder.(StrictOrder_Transitive)|].
    apply cycles_sorted; [apply cycleStartOf_aligned | exact Hok]. }
  split; [|split].
  - apply periodStart_number. apply Forall_forall. intros c Hc.
    apply filter_In in Hc. destruct Hc as [Hc _].
    rewrite forallb_forall in Hok. apply Hok, Hc.
  - exact Hs.
  - clear -Hs. induction Hs as [|t ts Hs IH Hall]; simpl; constructor; [exact IH|].
    rewrite Forall_forall in *. intros d Hd.
    apply in_map_iff in Hd. destruct Hd as (t' & <- & Ht').
    apply Day_le_mono. specialize (Hall t' Ht'). lia.
Qed.

(** ** Alignment of the cycles *)

Lemma cycleStartOf_advanced course joinDateStr :
  exists k, cycleStartOf course joinDateStr = advanced course k.
Proof. unfold cycleStartOf, advanced. apply alignLoop_iter. Qed.

Lemma advanced_iter course k k' :
  Nat.iter k' (periodEndOf course) (advanced course k) = advanced course (k' + k).
Proof. unfold advanced, periodEndOf. symmetry. apply Nat.iter_add. Qed.

(** Records of settled cycles that start at advanced dates are on cycle
    boundaries. *)
Lemma number_onCycleBoundary randomUUID studentId course joinDate cs :
  (forall c, In c cs ->
             settled joinDate (snd c)
             /\ isValid (effectiveStartOf joinDate (snd c)) = true
             /\ exists k, snd c = advanced course k) ->
  forall k, Forall (onCycleBoundary course)
                   (number randomUUID studentId course joinDate k cs).
Proof.
  intros H k. apply Forall_forall. intros r Hr.
  apply In_number_inv in Hr. destruct Hr as (c & k' & Hc & ->).
  destruct (H c Hc) as (Hs & Hv & j & Hj).
  rewrite (settled_startOf _ _ Hs) in Hv.
  destruct (snd c) as [t|] eqn:Hc2; [|discriminate].
  exists j, t. split; [symmetry; exact Hj|].
  simpl. rewrite Hc2, (settled_startOf _ _ Hs). reflexivity.
Qed.

(** C3. Alignment invariant: the [periodStart] of every generated record
    is the course start advanced by whole periods ([addDays 7],
    [addMonths 1] or [addYears 1] applied [k] times), except possibly that
    of the first generated record, which may be the join date. *)
Theorem alignment_invariant randomUUID studentId course joinDateStr
        existingPayments out :
  generatePaymentsForEnrollment randomUUID studentId course joinDateStr
                                existingPayments = Returns out ->
  match out with
  | [] => True
  | first :: rest =>
      (onCycleBoundary course first
       \/ Payment.periodStart first = dateText (newDate joinDateStr))
      /\ Forall (onCycleBoundary course) rest
  end.
Proof.
  intros H. apply generate_returns in H. destruct H as [Hok ->].
  set (joinDate := newDate joinDateStr) in *.
  pose proof (cycleStartOf_aligned course joinDateStr) as Hal. fold joinDate in Hal.
  destruct (cycleStartOf_advanced course joinDateStr) as [k0 Hk0].
  unfold horizon in *.
  destruct (periodsToGenerate (Course.period course)) as [|n]; [exact I|].
  cbn [cycles] in *. set (cs0 := cycleStartOf course joinDateStr) in *.
  cbn [forallb] in Hok. apply andb_true_iff in Hok. destruct Hok as [Hok0 Hok].
  assert (Hrest : forall k,
             Forall (onCycleBoundary course)
                    (number randomUUID studentId course joinDate k
                       (unsuppressed studentId course joinDate existingPayments
                          (cycles course n 1 (periodEndOf course cs0))))).
  { apply number_onCycleBoundary. intros c Hc.
    apply filter_In in Hc. destruct Hc as [Hc _]. split; [|split].
    - eapply cycles_settled; [apply aligned_settled_next, Hal | exact Hc].
    - rewrite forallb_forall in Hok. eapply completes_valid, Hok, Hc.
    - apply cycles_iter in Hc. destruct Hc as [k Hk].
      exists (S k + k0)%nat. rewrite Hk, Hk0.
      rewrite <- advanced_iter. symmetry. apply Nat.iter_succ_r. }
  unfold unsuppressed in *. cbn [filter].
  destruct (negb (suppressed studentId course joinDate existingPayments (0%nat, cs0))).
  - cbn [number]. split; [|apply Hrest].
    apply completes_valid in Hok0. cbn [snd] in Hok0.
    unfold candidate. cbn [Payment.periodStart snd].
    unfold effectiveStartOf in *.
    destruct (date_ltb cs0 joinDate); [right; reflexivity|].
    left. destruct cs0 as [t|] eqn:Hcs0; [|discriminate].
    exists k0, t. split; [symmetry; exact Hk0 | reflexivity].
  - specialize (Hrest 0%nat).
    destruct (number _ _ _ _ _ _) as [|first rest]; [exact I|].
    inversion Hrest; subst. split; [left|]; assumption.
Qed.

(** ** Calendar dates *)

Lemma calendarDate_range t :
  0 <= YearFromTime t <= 9999 -> - 70000000000000 <= t <= 300000000000000.
Proof.
  intros Hy. pose proof (YearFromTime_spec t) as Hs.
  pose proof (DayFromYear_bounds (YearFromTime t)) as Hlo.
  pose proof (DayFromYear_bounds (YearFromTime t + 1)) as Hhi.
  pose proof (Day_TimeWithinDay t) as Ht.
  assert (0 <= TimeWithinDay t < msPerDay)
    by (unfold TimeWithinDay, msPerDay; apply Z.mod_pos_bound; lia).
  unfold msPerDay in *. lia.
Qed.

Lemma periodsToGenerate_le period : (periodsToGenerate period <= 52)%nat.
Proof.
  unfold periodsToGenerate.
  destruct (String.eqb period "weekly"); [lia|].
  destruct (String.eqb period "monthly"); lia.
Qed.

(** Between dates away from the end of the range, the alignment loop ends
    on a valid date, not before the start and not after the later of the
    start and the join date. *)
Lemma alignLoop_range period j fuel : forall s,
  - maxTime <= s -> j + 368 * msPerDay <= maxTime ->
  exists u, alignLoop fuel period (Some j) (Some s) = Some u
            /\ s <= u <= Z.max s j.
Proof.
  induction fuel as [|fuel IH]; intros s Hlo Hhi.
  - exists s. simpl. split; [reflexivity | lia].
  - simpl. destruct (Z.leb_spec s j) as [Hsj|Hsj];
      [|exists s; split; [reflexivity | lia]].
    destruct (nextPeriod_total period s Hlo ltac:(lia)) as (v & -> & Hv).
    unfold date_gtb. simpl.
    destruct (Z.ltb_spec j v) as [Hjv|Hjv];
      [exists s; split; [reflexivity | lia]|].
    destruct (IH v) as (u & -> & Hu); [unfold msPerDay in *; lia | lia |].
    exists u. split; [reflexivity | unfold msPerDay in *; lia].
Qed.

Section CalendarCycles.

Variable course : Course.t.
Variable joinDate : Date.

Lemma cycles_aligned n : forall i cps c,
  aligned course joinDate cps -> In c (cycles course n i cps) ->
  aligned course joinDate (snd c).
Proof.
  induction n as [|n IH]; intros i cps c Hal; simpl; [intros []|].
  intros [<- | Hin]; [exact Hal|].
  eapply IH; [|exact Hin]. apply aligned_periodEndOf, Hal.
Qed.

(** Cycles that start away from the ends of the range start and end on
    valid dates. *)
Lemma cycles_valid n : forall i u c,
  - maxTime <= u -> u + Z.of_nat n * (368 * msPerDay) <= maxTime ->
  In c (cycles course n i (Some u)) ->
  exists a e, snd c = Some a /\ periodEndOf course (Some a) = Some e.
Proof.
  induction n as [|n IH]; intros i u c Hlo Hhi; simpl; [intros []|].
  rewrite Nat2Z.inj_succ in Hhi.
  destruct (nextPeriod_total (Course.period course) u Hlo
              ltac:(unfold msPerDay in *; lia)) as (v & Hnext & Hv).
  intros [<- | Hin].
  - exists u, v. simpl. split; [reflexivity | exact Hnext].
  - unfold periodEndOf in Hin at 1. rewrite Hnext in Hin.
    apply IH in Hin; [exact Hin | |]; unfold msPerDay in *; lia.
Qed.

End CalendarCycles.

(** On every input, the test [effectiveStart >= periodEnd] is false in
    every cycle of the horizon. *)
Lemma skip_test_false course joinDateStr c :
  In c (horizon course joinDateStr) ->
  date_geb (effectiveStartOf (newDate joinDateStr) (snd c))
           (periodEndOf course (snd c)) = false.
Proof.
  intros Hc. apply aligned_no_skip.
  exact (cycles_aligned _ _ _ _ _ _ (cycleStartOf_aligned course joinDateStr) Hc).
Qed.

(** The start of the first cycle, for calendar dates. *)
Lemma cycleStartOf_calendar course joinDateStr s j :
  newDate (Course.startDate course) = Some s ->
  newDate joinDateStr = Some j ->
  calendarDate s -> calendarDate j ->
  exists u, cycleStartOf course joinDateStr = Some u
            /\ - 70000000000000 <= u <= 300000000000000.
Proof.
  intros Hs Hj [_ Hsy] [_ Hjy].
  apply calendarDate_range in Hsy, Hjy.
  unfold cycleStartOf. rewrite Hs, Hj.
  destruct (alignLoop_range (Course.period course) j
              (alignFuel (Some j) (Some s)) s) as (u & -> & Hu);
    [unfold maxTime; lia | unfold maxTime, msPerDay; lia |].
  exists u. split; [reflexivity | lia].
Qed.

(** Every record of the output is the record of a cycle of the horizon
    whose effective start is strictly before its end. *)
Lemma record_cycle randomUUID studentId course joinDateStr existingPayments out r :
  generatePaymentsForEnrollment randomUUID studentId course joinDateStr
                                existingPayments = Returns out ->
  In r out ->
  exists c a b,
    In c (horizon course joinDateStr)
    /\ effectiveStartOf (newDate joinDateStr) (snd c) = Some a
    /\ periodEndOf course (snd c) = Some b
    /\ Payment.periodStart r = dateText (Some a)
    /\ Payment.periodEnd r = dateText (Some b)
    /\ a < b.
Proof.
  intros H Hr. apply generate_returns in H. destruct H as [Hok ->].
  apply In_number_inv in Hr. destruct Hr as (c & k & Hc & ->).
  apply filter_In in Hc. destruct Hc as [Hc Hs].
  rewrite forallb_forall in Hok. specialize (Hok c Hc).
  pose proof (skip_test_false course joinDateStr c Hc) as Hskip.
  unfold completes in Hok. apply negb_true_iff in Hs. rewrite Hs in Hok.
  apply andb_true_iff in Hok. destruct Hok as [Hv He]. cbn [orb] in He.
  cbn [candidate Payment.periodStart Payment.periodEnd].
  destruct (effectiveStartOf (newDate joinDateStr) (snd c)) as [a|] eqn:Ea;
    [|discriminate Hv].
  destruct (periodEndOf course (snd c)) as [b|] eqn:Eb; [|discriminate He].
  simpl in Hskip. apply Z.leb_gt in Hskip.
  exists c, a, b. repeat split; assumption.
Qed.

(** On every input, every record of the output starts at an instant that
    is strictly before the instant at which it ends; the two are printed
    as calendar dates in UTC, the first of which is not after the second. *)
Lemma records_start_before_end randomUUID studentId course joinDateStr
      existingPayments out r :
  generatePaymentsForEnrollment randomUUID studentId course joinDateStr
                                existingPayments = Returns out ->
  In r out ->
  exists a b, Payment.periodStart r = dateText (Some a)
              /\ Payment.periodEnd r = dateText (Some b)
              /\ a < b /\ Day a <= Day b.
Proof.
  intros H Hr.
  destruct (record_cycle _ _ _ _ _ _ _ H Hr) as (c & a & b & _ & _ & _ & Ha & Hb & Hlt).
  exists a, b. repeat split; [exact Ha | exact Hb | exact Hlt|].
  apply Day_le_mono. lia.
Qed.

(** ** A join date before the start of the course *)

Lemma periodsToGenerate_pos period : exists n, periodsToGenerate period = S n.
Proof.
  unfold periodsToGenerate.
  destruct (String.eqb period "weekly"); [eexists; reflexivity|].
  destruct (String.eqb period "monthly"); eexists; reflexivity.
Qed.

(** C6, as the code has it.  When the join date is strictly before the
    start of the course, the alignment loop leaves [cycleStart] at the
    course start, and the effective start of the first cycle is the later
    of the two dates, the course start: the record generated for the first
    cycle has the course start as its [periodStart] and the full fee as its
    amount. *)
Theorem join_before_start randomUUID studentId course joinDateStr
        existingPayments s j :
  newDate (Course.startDate course) = Some s ->
  newDate joinDateStr = Some j ->
  j < s ->
  cycleStartOf course joinDateStr = Some s
  /\ effectiveStartOf (Some j) (Some s) = Some s
  /\ (forall out,
        generatePaymentsForEnrollment randomUUID studentId course joinDateStr
                                      existingPayments = Returns out ->
        ~ (exists p, In p existingPayments
                     /\ Payment.studentId p = studentId
                     /\ Payment.courseId p = Course.id course
                     /\ String.prefix (dateText (Some s)) (Payment.periodStart p)
                        = true) ->
        exists first rest,
          out = first :: rest
          /\ Payment.periodStart first = dateText (Some s)
          /\ Payment.amount first = Course.fee course).
Proof.
  intros Hs Hj Hlt.
  assert (Hcs : cycleStartOf course joinDateStr = Some s).
  { unfold cycleStartOf. rewrite Hs, Hj. apply alignLoop_not_entered.
    simpl. apply Z.leb_gt. exact Hlt. }
  assert (Heff : effectiveStartOf (Some j) (Some s) = Some s).
  { unfold effectiveStartOf. simpl.
    destruct (Z.ltb_spec s j); [lia | reflexivity]. }
  split; [exact Hcs|]. split; [exact Heff|].
  intros out Hout Hnone. apply generate_returns in Hout. destruct Hout as [_ ->].
  unfold horizon. rewrite Hcs, Hj.
  destruct (periodsToGenerate_pos (Course.period course)) as [n ->].
  unfold unsuppressed. cbn [cycles filter].
  match goal with
  | |- context [negb ?b] => assert (Hsup : b = false)
  end.
  { unfold suppressed. cbn [snd]. rewrite Heff.
    destruct (existsb _ _) eqn:Hex; [|reflexivity].
    exfalso. apply Hnone. apply existsb_matchesCycle. exact Hex. }
  eexists. eexists. rewrite Hsup. cbn [negb number]. split; [reflexivity|].
  unfold candidate, amountOf. cbn [Payment.periodStart Payment.amount fst snd].
  rewrite Heff. split; [reflexivity|].
  unfold date_gtb. simpl. destruct (Z.ltb_spec s j); [lia | reflexivity].
Qed.

(** ** The text of calendar dates *)

Lemma length_append (s1 s2 : string) :
  String.length (String.append s1 s2) = (String.length s1 + String.length s2)%nat.
Proof. induction s1 as [|a s1 IH]; simpl; [|rewrite IH]; reflexivity. Qed.

Lemma length_zeros n : String.length (zeros n) = n.
Proof. induction n as [|n IH]; simpl; [|rewrite IH]; reflexivity. Qed.

Lemma length_decimal fuel : forall n w,
  0 <= n < 10 ^ Z.of_nat (S w) -> (String.length (decimal fuel n) <= S w)%nat.
Proof.
  induction fuel as [|fuel IH]; intros n w Hn; simpl; [lia|].
  rewrite length_append. simpl.
  destruct (Z.ltb_spec n 10) as [Hlt|Hge]; simpl; [lia|].
  destruct w as [|w]; [simpl in Hn; lia|].
  assert (String.length (decimal fuel (n / 10)) <= S w)%nat; [|lia].
  apply IH. rewrite Nat2Z.inj_succ, Z.pow_succ_r in Hn by lia.
  split; [apply Z.div_pos; lia|]. apply Z.div_lt_upper_bound; lia.
Qed.

Lemma length_ToZeroPaddedDecimalString n w :
  0 <= n < 10 ^ Z.of_nat (S w) ->
  String.length (ToZeroPaddedDecimalString n (S w)) = S w.
Proof.
  intros Hn. unfold ToZeroPaddedDecimalString.
  rewrite length_append, length_zeros.
  pose proof (length_decimal 21 n w Hn). lia.
Qed.

Lemma digit_not_sign x : isSign (digit (x mod 10)) = false.
Proof.
  assert (H : 0 <= x mod 10 < 10) by (apply Z.mod_pos_bound; lia).
  assert (Hc : x mod 10 = 0 \/ x mod 10 = 1 \/ x mod 10 = 2 \/ x mod 10 = 3
               \/ x mod 10 = 4 \/ x mod 10 = 5 \/ x mod 10 = 6 \/ x mod 10 = 7
               \/ x mod 10 = 8 \/ x mod 10 = 9) by lia.
  repeat (destruct Hc as [Hc | Hc]); rewrite Hc; reflexivity.
Qed.

(** A decimal rendering starts with a digit. *)
Lemma decimal_head fuel : forall n,
  exists c rest, decimal (S fuel) n = String c rest /\ isSign c = false.
Proof.
  induction fuel as [|fuel IH]; intros n.
  - simpl. destruct (n <? 10); simpl; eexists; eexists;
      (split; [reflexivity | apply digit_not_sign]).
  - change (decimal (S (S fuel)) n)
      with (String.append (if n <? 10 then EmptyString else decimal (S fuel) (n / 10))
                          (String (digit (n mod 10)) EmptyString)).
    destruct (n <? 10).
    + simpl. eexists; eexists; split; [reflexivity | apply digit_not_sign].
    + destruct (IH (n / 10)) as (c & rest & -> & Hc).
      simpl. eexists; eexists; split; [reflexivity | exact Hc].
Qed.

Lemma ToZeroPaddedDecimalString_head n w :
  exists c rest, ToZeroPaddedDecimalString n w = String c rest /\ isSign c = false.
Proof.
  unfold ToZeroPaddedDecimalString.
  destruct (w - String.length (decimal 21 n))%nat as [|k]; cbn [zeros String.append].
  - apply (decimal_head 20).
  - eexists; eexists; split; reflexivity.
Qed.

Lemma YearFromTime_range t :
  Z.abs t <= maxTime -> - 999999 <= YearFromTime t <= 999999.
Proof.
  intros Ht. unfold YearFromTime, Day, maxTime, msPerDay in *.
  repeat match goal with |- context [if ?b then _ else _] => destruct b end;
    Z.div_mod_to_equations; lia.
Qed.

(** The calendar date of a valid date has ten characters, or thirteen when
    it opens with a sign. *)
Lemma dateText_shape t :
  Z.abs t <= maxTime ->
  exists c rest,
    dateText (Some t) = String c rest
    /\ String.length (dateText (Some t)) = (if isSign c then 13 else 10)%nat.
Proof.
  intros Ht. pose proof (YearFromTime_range t Ht) as Hy.
  pose proof (MonthFromTime_range t) as Hm.
  pose proof (DateFromTime_le_31 t) as Hd.
  rewrite dateText_calendarText. unfold calendarText.
  assert (Hlm : String.length (ToZeroPaddedDecimalString (MonthFromTime t + 1) 2)
                = 2%nat)
    by (apply length_ToZeroPaddedDecimalString; simpl; lia).
  assert (Hld : String.length (ToZeroPaddedDecimalString (DateFromTime t) 2) = 2%nat)
    by (apply length_ToZeroPaddedDecimalString; simpl; lia).
  unfold yearString.
  destruct ((0 <=? YearFromTime t) && (YearFromTime t <=? 9999)) eqn:Hin.
  - apply andb_true_iff in Hin. destruct Hin as [H0 H1].
    apply Z.leb_le in H0, H1.
    destruct (ToZeroPaddedDecimalString_head (YearFromTime t) 4)
      as (c & rest & Heq & Hc).
    assert (Hly : String.length (ToZeroPaddedDecimalString (YearFromTime t) 4)
                  = 4%nat)
      by (apply length_ToZeroPaddedDecimalString; simpl; lia).
    exists c. eexists. split; [rewrite Heq; reflexivity|].
    rewrite Hc, length_append, Hly. simpl. rewrite length_append, Hlm. simpl.
    rewrite Hld. reflexivity.
  - assert (Hout : YearFromTime t < 0 \/ 9999 < YearFromTime t).
    { destruct (Z.leb_spec 0 (YearFromTime t)), (Z.leb_spec (YearFromTime t) 9999);
        simpl in Hin; try discriminate; lia. }
    destruct (Z.ltb_spec (YearFromTime t) 0).
    + eexists; eexists. split; [reflexivity|].
      simpl. rewrite length_append, length_ToZeroPaddedDecimalString by (simpl; lia).
      simpl. rewrite length_append, Hlm. simpl. rewrite Hld. reflexivity.
    + eexists; eexists. split; [reflexivity|].
      simpl. rewrite length_append, length_ToZeroPaddedDecimalString by (simpl; lia).
      simpl. rewrite length_append, Hlm. simpl. rewrite Hld. reflexivity.
Qed.

(** An ISO calendar date is a prefix of a string exactly when it is the
    calendar-date prefix of that string. *)
Lemma prefix_datePrefix day c rest s :
  day = String c rest ->
  String.length day = (if isSign c then 13 else 10)%nat ->
  String.prefix day s = true <-> datePrefix s = day.
Proof.
  intros Hday Hlen. split.
  - intros Hp. pose proof Hp as Hp'. apply prefix_correct in Hp'.
    rewrite Hday in Hp. destruct s as [|c' s']; simpl in Hp; [discriminate|].
    destruct (ascii_dec c c') as [<-|]; [|discriminate].
    unfold datePrefix. rewrite <- Hlen. exact Hp'.
  - intros Hd. apply prefix_correct.
    destruct s as [|c' s']; simpl in Hd; [rewrite Hday in Hd; discriminate|].
    assert (c' = c).
    { rewrite Hday in Hd. destruct (isSign c'); simpl in Hd; congruence. }
    subst c'. unfold datePrefix in Hd. rewrite Hlen. exact Hd.
Qed.

(** ** What the duplicate check reads *)

Lemma newDate_inRange s : inRange (newDate s).
Proof.
  unfold newDate. destruct (Date_parse s) as [t|]; [|exact I].
  destruct (TimeClip t) as [v|] eqn:Hv; [|exact I].
  apply TimeClip_Some in Hv. destruct Hv as [-> Hv]. exact Hv.
Qed.

Lemma nextPeriod_inRange period d : inRange (nextPeriod period d).
Proof.
  destruct (nextPeriod period d) as [v|] eqn:Hv; [|exact I].
  simpl. eapply nextPeriod_in_range, Hv.
Qed.

Lemma alignLoop_inRange period joinDate fuel : forall cycleStart,
  inRange cycleStart -> inRange (alignLoop fuel period joinDate cycleStart).
Proof.
  induction fuel as [|fuel IH]; intros cs Hcs; simpl; [exact Hcs|].
  destruct (date_leb cs joinDate); [|exact Hcs].
  destruct (date_gtb _ _); [exact Hcs|]. apply IH, nextPeriod_inRange.
Qed.

Lemma cycles_inRange course n : forall i cps c,
  inRange cps -> In c (cycles course n i cps) -> inRange (snd c).
Proof.
  induction n as [|n IH]; intros i cps c Hr; simpl; [intros []|].
  intros [<- | Hin]; [exact Hr|].
  eapply IH; [|exact Hin]. apply nextPeriod_inRange.
Qed.

Lemma horizon_inRange course joinDateStr c :
  In c (horizon course joinDateStr) ->
  inRange (effectiveStartOf (newDate joinDateStr) (snd c)).
Proof.
  intros Hc. unfold effectiveStartOf.
  destruct (date_ltb _ _); [apply newDate_inRange|].
  unfold horizon in Hc. eapply cycles_inRange; [|exact Hc].
  unfold cycleStartOf. apply alignLoop_inRange, newDate_inRange.
Qed.

(** On the calendar date of a valid date, the search of the duplicate
    check is a search for a key. *)
Lemma existsb_matchesCycle_key studentId course t ps :
  Z.abs t <= maxTime ->
  existsb (matchesCycle studentId course (dateText (Some t))) ps = true
  <-> In (studentId, Course.id course, dateText (Some t)) (map dedupKey ps).
Proof.
  intros Ht. destruct (dateText_shape t Ht) as (c & rest & Hday & Hlen).
  rewrite existsb_matchesCycle, in_map_iff.
  split; intros (p & H); exists p.
  - destruct H as (Hin & Hs & Hc & Hp). split; [|exact Hin].
    unfold dedupKey. rewrite Hs, Hc.
    apply (prefix_datePrefix _ _ _ _ Hday Hlen) in Hp. rewrite Hp. reflexivity.
  - destruct H as (Hk & Hin). unfold dedupKey in Hk.
    injection Hk as Hs Hc Hp. repeat split; auto.
    apply (prefix_datePrefix _ _ _ _ Hday Hlen). exact Hp.
Qed.

Lemma suppressed_sameKeys studentId course joinDate ps ps' c :
  sameKeys ps ps' ->
  inRange (effectiveStartOf joinDate (snd c)) ->
  isValid (effectiveStartOf joinDate (snd c)) = true ->
  suppressed studentId course joinDate ps c
  = suppressed studentId course joinDate ps' c.
Proof.
  intros Hk Hr Hv. unfold suppressed.
  destruct (effectiveStartOf joinDate (snd c)) as [t|]; [|discriminate].
  simpl in Hr.
  apply eq_true_iff_eq.
  rewrite !(existsb_matchesCycle_key _ _ _ _ Hr). apply Hk.
Qed.

(** The records of a list of cycles depend on the existing payments
    through the suppression of the cycles with a valid effective start. *)
Lemma cycles_suppressed_ext randomUUID studentId course joinDate ps ps' cs :
  (forall c, In c cs ->
             isValid (effectiveStartOf joinDate (snd c)) = true ->
             suppressed studentId course joinDate ps c
             = suppressed studentId course joinDate ps' c) ->
  (if forallb (completes studentId course joinDate ps) cs
   then Returns (number randomUUID studentId course joinDate 0
                   (unsuppressed studentId course joinDate ps cs))
   else ThrowsRangeError)
  = (if forallb (completes studentId course joinDate ps') cs
     then Returns (number randomUUID studentId course joinDate 0
                     (unsuppressed studentId course joinDate ps' cs))
     else ThrowsRangeError).
Proof.
  intros Hext.
  assert (Hc : forall c, In c cs ->
                 completes studentId course joinDate ps c
                 = completes studentId course joinDate ps' c).
  { intros c Hc. unfold completes.
    destruct (isValid (effectiveStartOf joinDate (snd c))) eqn:Hv; [|reflexivity].
    rewrite (Hext c Hc Hv). reflexivity. }
  rewrite (forallb_agree _ _ _ Hc).
  destruct (forallb (completes studentId course joinDate ps') cs) eqn:Hok;
    [|reflexivity].
  do 2 f_equal. unfold unsuppressed. apply filter_ext_in. intros c Hin.
  rewrite (Hext c Hin); [reflexivity|].
  rewrite forallb_forall in Hok. eapply completes_valid, Hok, Hin.
Qed.

(** C4. Duplicate suppression: the record of a cycle of the horizon is
    absent from the output exactly when an existing payment has the same
    student, the same course and a [periodStart] whose calendar date (its
    calendar-date prefix) is the calendar date of the cycle's effective
    start; the cycles without such a payment have their record. *)
Theorem duplicate_suppression randomUUID studentId course joinDateStr
        existingPayments out :
  generatePaymentsForEnrollment randomUUID studentId course joinDateStr
                                existingPayments = Returns out ->
  forall c, In c (horizon course joinDateStr) ->
    let day := dateText (effectiveStartOf (newDate joinDateStr) (snd c)) in
    (exists r, In r out
               /\ Payment.studentId r = studentId
               /\ Payment.courseId r = Course.id course
               /\ Payment.periodStart r = day)
    <-> ~ (exists p, In p existingPayments
                     /\ Payment.studentId p = studentId
                     /\ Payment.courseId p = Course.id course
                     /\ datePrefix (Payment.periodStart p) = day).
Proof.
  intros H c Hc day.
  pose proof (duplicate_suppression_prefix _ _ _ _ _ _ H c Hc) as Hpre.
  cbv zeta in Hpre. subst day. rewrite Hpre. clear Hpre.
  apply generate_returns in H. destruct H as [Hok _].
  rewrite forallb_forall in Hok. pose proof (completes_valid _ _ _ _ _ (Hok c Hc)) as Hv.
  pose proof (horizon_inRange _ _ _ Hc) as Hr.
  destruct (effectiveStartOf (newDate joinDateStr) (snd c)) as [t|];
    [|discriminate].
  simpl in Hr. destruct (dateText_shape t Hr) as (a & rest & Hday & Hlen).
  split; intros Hn (p & Hin & Hs & Hcid & Hp); apply Hn; exists p;
    repeat split; auto; apply (prefix_datePrefix _ _ _ _ Hday Hlen); exact Hp.
Qed.

(** C10. Duplicate detection reads the student, the course and the
    calendar-date prefix of [periodStart] only: two sequences of existing
    payments with the same set of such triples give the same output (with
    the same fresh identifiers); in particular, changing any other field of
    the existing payments (status, amount, [periodEnd], [dueDate],
    [paidDate], [id]) changes nothing. *)
Theorem dedup_reads_keys_only randomUUID studentId course joinDateStr :
  (forall ps ps',
      sameKeys ps ps' ->
      generatePaymentsForEnrollment randomUUID studentId course joinDateStr ps
      = generatePaymentsForEnrollment randomUUID studentId course joinDateStr ps')
  /\ (forall (f : Payment.t -> Payment.t) ps,
        (forall p, Payment.studentId (f p) = Payment.studentId p
                   /\ Payment.courseId (f p) = Payment.courseId p
                   /\ Payment.periodStart (f p) = Payment.periodStart p) ->
        generatePaymentsForEnrollment randomUUID studentId course joinDateStr
                                      (map f ps)
        = generatePaymentsForEnrollment randomUUID studentId course joinDateStr ps).
Proof.
  assert (Hmain : forall ps ps',
             sameKeys ps ps' ->
             generatePaymentsForEnrollment randomUUID studentId course joinDateStr ps
             = generatePaymentsForEnrollment randomUUID studentId course
                                             joinDateStr ps').
  { intros ps ps' Hk. rewrite !generate_horizon.
    apply cycles_suppressed_ext. intros c Hc Hv.
    apply suppressed_sameKeys; [exact Hk | exact (horizon_inRange _ _ _ Hc) | exact Hv]. }
  split; [exact Hmain|].
  intros f ps Hf. apply Hmain. intros k. rewrite map_map.
  assert (Hkey : forall p, dedupKey (f p) = dedupKey p).
  { intros p. unfold dedupKey. destruct (Hf p) as (-> & -> & ->). reflexivity. }
  rewrite (map_ext _ _ Hkey). reflexivity.
Qed.

(** ** Parsing what is printed *)

Lemma decimal_S fuel n :
  decimal (S fuel) n
  = String.append (if n <? 10 then EmptyString else decimal fuel (n / 10))
                  (String (digit (n mod 10)) EmptyString).
Proof. reflexivity. Qed.

Lemma decimal_one fuel n :
  0 <= n < 10 -> decimal (S fuel) n = String (digit n) EmptyString.
Proof.
  intros Hn. rewrite decimal_S.
  destruct (Z.ltb_spec n 10); [|lia]. rewrite Z.mod_small by lia. reflexivity.
Qed.

Lemma decimal_two fuel n :
  10 <= n < 100 ->
  decimal (S (S fuel)) n
  = String (digit (n / 10)) (String (digit (n mod 10)) EmptyString).
Proof.
  intros Hn. rewrite decimal_S.
  destruct (Z.ltb_spec n 10); [lia|].
  rewrite decimal_one by (Z.div_mod_to_equations; lia). reflexivity.
Qed.

Lemma decimal_three fuel n :
  100 <= n < 1000 ->
  decimal (S (S (S fuel))) n
  = String (digit (n / 100))
      (String (digit (n / 10 mod 10)) (String (digit (n mod 10)) EmptyString)).
Proof.
  intros Hn. rewrite decimal_S.
  destruct (Z.ltb_spec n 10); [lia|].
  rewrite decimal_two by (Z.div_mod_to_equations; lia).
  rewrite Z.div_div by lia. reflexivity.
Qed.

Lemma decimal_four fuel n :
  1000 <= n < 10000 ->
  decimal (S (S (S (S fuel)))) n
  = String (digit (n / 1000))
      (String (digit (n / 100 mod 10))
         (String (digit (n / 10 mod 10)) (String (digit (n mod 10)) EmptyString))).
Proof.
  intros Hn. rewrite decimal_S.
  destruct (Z.ltb_spec n 10); [lia|].
  rewrite decimal_three by (Z.div_mod_to_equations; lia).
  rewrite !Z.div_div by lia. reflexivity.
Qed.

(** The two digits printed for a number from 0 to 99. *)
Lemma ToZeroPaddedDecimalString_two n :
  0 <= n <= 99 ->
  ToZeroPaddedDecimalString n 2
  = String (digit (n / 10)) (String (digit (n mod 10)) EmptyString).
Proof.
  intros Hn. unfold ToZeroPaddedDecimalString.
  change 21%nat with (S (S 19)).
  destruct (Z.ltb_spec n 10).
  - rewrite decimal_one by lia. rewrite Z.div_small, Z.mod_small by lia. reflexivity.
  - rewrite decimal_two by lia. reflexivity.
Qed.

(** The four digits printed for a year from 0 to 9999. *)
Lemma ToZeroPaddedDecimalString_four n :
  0 <= n <= 9999 ->
  ToZeroPaddedDecimalString n 4
  = String (digit (n / 1000))
      (String (digit (n / 100 mod 10))
         (String (digit (n / 10 mod 10)) (String (digit (n mod 10)) EmptyString))).
Proof.
  intros Hn. unfold ToZeroPaddedDecimalString.
  change 21%nat with (S (S (S (S 17)))).
  destruct (Z.ltb_spec n 10); [|destruct (Z.ltb_spec n 100);
                                 [|destruct (Z.ltb_spec n 1000)]].
  - rewrite decimal_one by lia.
    rewrite (Z.div_small n 1000), (Z.div_small n 100), (Z.div_small n 10),
      (Z.mod_small n 10) by lia.
    reflexivity.
  - rewrite decimal_two by lia.
    rewrite (Z.div_small n 1000), (Z.div_small n 100) by lia.
    rewrite (Z.mod_small (n / 10) 10) by (Z.div_mod_to_equations; lia).
    reflexivity.
  - rewrite decimal_three by lia.
    rewrite (Z.div_small n 1000) by lia.
    rewrite (Z.mod_small (n / 100) 10) by (Z.div_mod_to_equations; lia).
    reflexivity.
  - rewrite decimal_four by lia. reflexivity.
Qed.

Lemma digitValue_digit a : 0 <= a <= 9 -> digitValue (digit a) = Some a.
Proof.
  intros Ha.
  assert (H : a = 0 \/ a = 1 \/ a = 2 \/ a = 3 \/ a = 4 \/ a = 5 \/ a = 6
              \/ a = 7 \/ a = 8 \/ a = 9) by lia.
  repeat (destruct H as [H | H]); subst a; reflexivity.
Qed.

Lemma twoDigits_digit a b :
  0 <= a <= 9 -> 0 <= b <= 9 -> twoDigits (digit a) (digit b) = Some (10 * a + b).
Proof.
  intros Ha Hb. unfold twoDigits. rewrite !digitValue_digit by assumption.
  reflexivity.
Qed.

(** The calendar date printed for a time value of the years 0 to 9999
    parses to midnight UTC of its day. *)
Lemma parseDateOnly_dateText t :
  0 <= YearFromTime t <= 9999 ->
  parseDateOnly (dateText (Some t)) = Some (Day t * msPerDay).
Proof.
  intros Hy.
  pose proof (MonthFromTime_range t) as Hm.
  pose proof (DateFromTime_range t) as Hd.
  pose proof (DateFromTime_le_31 t) as Hd31.
  rewrite dateText_calendarText. unfold calendarText, yearString.
  replace ((0 <=? YearFromTime t) && (YearFromTime t <=? 9999)) with true
    by (symmetry; apply andb_true_iff; split; apply Z.leb_le; lia).
  rewrite ToZeroPaddedDecimalString_four, !ToZeroPaddedDecimalString_two by lia.
  cbn [String.append parseDateOnly].
  rewrite !twoDigits_digit by (Z.div_mod_to_equations; lia).
  replace (100 * (10 * (YearFromTime t / 1000) + YearFromTime t / 100 mod 10)
           + (10 * (YearFromTime t / 10 mod 10) + YearFromTime t mod 10))
    with (YearFromTime t) by (Z.div_mod_to_equations; lia).
  replace (10 * ((MonthFromTime t + 1) / 10) + (MonthFromTime t + 1) mod 10)
    with (MonthFromTime t + 1) by (Z.div_mod_to_equations; lia).
  replace (10 * (DateFromTime t / 10) + DateFromTime t mod 10)
    with (DateFromTime t) by (Z.div_mod_to_equations; lia).
  replace (MonthFromTime t + 1 - 1) with (MonthFromTime t) by lia.
  fold (InLeapYear t).
  replace ((1 <=? MonthFromTime t + 1) && (MonthFromTime t + 1 <=? 12)
           && (1 <=? DateFromTime t)
           && (DateFromTime t <=? daysInMonth (MonthFromTime t) (InLeapYear t)))
    with true
    by (symmetry; repeat (apply andb_true_iff; split); apply Z.leb_le; lia).
  rewrite MakeDay_fields. unfold MakeDate. f_equal. lia.
Qed.

(** Calendar dates of the years 0 to 9999 with the same text are the same
    day. *)
Lemma dateText_same_day a b :
  0 <= YearFromTime a <= 9999 -> 0 <= YearFromTime b <= 9999 ->
  dateText (Some a) = dateText (Some b) -> Day a = Day b.
Proof.
  intros Ha Hb H.
  pose proof (parseDateOnly_dateText a Ha) as Pa.
  pose proof (parseDateOnly_dateText b Hb) as Pb.
  rewrite H, Pb in Pa. injection Pa as Pa. unfold msPerDay in Pa. lia.
Qed.

(** ** Dates that do not parse *)

Lemma cycleStartOf_invalid_start course joinDateStr :
  newDate (Course.startDate course) = None ->
  cycleStartOf course joinDateStr = None.
Proof.
  intros H. unfold cycleStartOf. rewrite H. apply alignLoop_not_entered. reflexivity.
Qed.

(** When the first cycle starts at an Invalid Date, the first iteration
    throws. *)
Lemma generate_invalid_cycleStart randomUUID studentId course joinDateStr
      existingPayments :
  cycleStartOf course joinDateStr = None ->
  generatePaymentsForEnrollment randomUUID studentId course joinDateStr
                                existingPayments = ThrowsRangeError.
Proof.
  intros H. rewrite generate_horizon. unfold horizon. rewrite H.
  destruct (periodsToGenerate_pos (Course.period course)) as [n ->].
  reflexivity.
Qed.

Lemma periodsToGenerate_two period : exists n, periodsToGenerate period = S (S n).
Proof.
  unfold periodsToGenerate.
  destruct (String.eqb period "weekly"); [eexists; reflexivity|].
  destruct (String.eqb period "monthly"); eexists; reflexivity.
Qed.

(** When the first cycle ends at an Invalid Date, the second iteration, if
    not the first, throws. *)
Lemma generate_invalid_first_end randomUUID studentId course joinDateStr
      existingPayments u :
  cycleStartOf course joinDateStr = Some u ->
  nextPeriod (Course.period course) (Some u) = None ->
  generatePaymentsForEnrollment randomUUID studentId course joinDateStr
                                existingPayments = ThrowsRangeError.
Proof.
  intros Hu Hnext. rewrite generate_horizon. unfold horizon. rewrite Hu.
  destruct (periodsToGenerate_two (Course.period course)) as [n ->].
  cbn [cycles forallb]. unfold periodEndOf at 1. rewrite Hnext.
  unfold completes at 2. cbn [snd effectiveStartOf date_ltb isValid andb].
  rewrite andb_false_r. reflexivity.
Qed.

(** X1. An unparseable start date: the generator throws the RangeError of
    [toISOString], whatever the join date and the existing payments. *)
Theorem invalid_start_throws randomUUID studentId course joinDateStr
        existingPayments :
  newDate (Course.startDate course) = None ->
  generatePaymentsForEnrollment randomUUID studentId course joinDateStr
                                existingPayments = ThrowsRangeError.
Proof.
  intros H. apply generate_invalid_cycleStart, cycleStartOf_invalid_start, H.
Qed.

(** ** A join date that is not after the start of the course *)

(** From a cycle that starts on or after both of two join dates, or when
    they are invalid, the generation loop does the same for both. *)
Lemma generateLoop_settled_ext randomUUID studentId course j1 j2 existingPayments n :
  forall i cps acc,
    settled j1 cps -> settled j2 cps ->
    generateLoop randomUUID studentId course j1 existingPayments n i cps acc
    = generateLoop randomUUID studentId course j2 existingPayments n i cps acc.
Proof.
  induction n as [|n IH]; intros i cps acc H1 H2; [reflexivity|].
  pose proof (aligned_settled_next course j1 cps (settled_aligned course j1 cps H1)) as S1.
  pose proof (aligned_settled_next course j2 cps (settled_aligned course j2 cps H2)) as S2.
  unfold periodEndOf in S1, S2.
  cbn [generateLoop]. unfold date_gtb. unfold settled in H1, H2. rewrite H1, H2.
  rewrite andb_false_r.
  destruct (date_geb cps _); [apply IH; assumption|].
  destruct (some_existing _ _ _ _) as [[|]|]; cbn [bind negb];
    [apply IH; assumption| |reflexivity].
  destruct (toISODate cps); cbn [bind]; [|reflexivity].
  destruct (toISODate _); cbn [bind]; [apply IH; assumption | reflexivity].
Qed.

(** X2. When the join date is not after the start of the course (it is
    before it, the same, or does not parse), the generator returns what
    it returns for a student who joins on the start date. *)
Theorem join_not_after_start randomUUID studentId course joinDateStr
        existingPayments :
  date_gtb (newDate joinDateStr) (newDate (Course.startDate course)) = false ->
  generatePaymentsForEnrollment randomUUID studentId course joinDateStr
                                existingPayments
  = generatePaymentsForEnrollment randomUUID studentId course
                                  (Course.startDate course) existingPayments.
Proof.
  intros Hgt.
  destruct (newDate (Course.startDate course)) as [s|] eqn:Hs.
  2: { rewrite !generate_invalid_cycleStart;
         [reflexivity | |]; apply cycleStartOf_invalid_start, Hs. }
  assert (Hcases : newDate joinDateStr = Some s
                   \/ date_leb (Some s) (newDate joinDateStr) = false).
  { destruct (newDate joinDateStr) as [j|]; [|right; reflexivity].
    unfold date_gtb in Hgt. simpl in Hgt. apply Z.ltb_ge in Hgt.
    destruct (Z.eq_dec j s) as [->|]; [left; reflexivity|].
    right. simpl. apply Z.leb_gt. lia. }
  destruct Hcases as [Hj | Hle].
  { unfold generatePaymentsForEnrollment. rewrite Hj, Hs. reflexivity. }
  assert (Hcs : cycleStartOf course joinDateStr = Some s).
  { unfold cycleStartOf. rewrite Hs. apply alignLoop_not_entered, Hle. }
  destruct (nextPeriod (Course.period course) (Some s)) as [v|] eqn:Hnext.
  - assert (Hv : s < v).
    { apply nextPeriod_Some in Hnext. unfold msPerDay in Hnext. lia. }
    assert (Hcs' : cycleStartOf course (Course.startDate course) = Some s).
    { unfold cycleStartOf. rewrite Hs. unfold alignFuel. cbn [alignLoop].
      rewrite Hnext. unfold date_gtb. simpl.
      rewrite Z.leb_refl. destruct (Z.ltb_spec s v); [reflexivity | lia]. }
    unfold generatePaymentsForEnrollment.
    fold (cycleStartOf course joinDateStr).
    fold (cycleStartOf course (Course.startDate course)).
    rewrite Hcs, Hcs', Hs. apply generateLoop_settled_ext.
    + unfold settled. apply date_leb_ltb, Hle.
    + unfold settled. simpl. apply Z.ltb_irrefl.
  - rewrite (generate_invalid_first_end _ _ _ _ _ _ Hcs Hnext).
    symmetry. apply generate_invalid_cycleStart.
    unfold cycleStartOf. rewrite Hs. unfold alignFuel. cbn [alignLoop].
    rewrite Hnext. simpl. rewrite Z.leb_refl.
    destruct (Z.to_nat _); reflexivity.
Qed.

(** ** The records *)

Lemma generate_fields randomUUID studentId course joinDateStr existingPayments out r :
  generatePaymentsForEnrollment randomUUID studentId course joinDateStr
                                existingPayments = Returns out ->
  In r out ->
  Payment.studentId r = studentId
  /\ Payment.courseId r = Course.id course
  /\ Payment.status r = pending
  /\ Payment.dueDate r = Payment.periodEnd r.
Proof.
  intros H Hr. apply generate_returns in H. destruct H as [_ ->].
  apply In_number_inv in Hr. destruct Hr as (c & k & _ & ->).
  repeat split.
Qed.

(** X3. Every record of the output is a pending payment of the student
    for the course, due at the end of its period and with no paid date. *)
Theorem records_pending_for_pair randomUUID studentId course joinDateStr
        existingPayments out :
  generatePaymentsForEnrollment randomUUID studentId course joinDateStr
                                existingPayments = Returns out ->
  Forall (fun r => Payment.studentId r = studentId
                   /\ Payment.courseId r = Course.id course
                   /\ Payment.status r = pending
                   /\ Payment.dueDate r = Payment.periodEnd r
                   /\ Payment.paidDate r = None) out.
Proof.
  intros H. apply generate_returns in H. destruct H as [_ ->].
  apply Forall_forall. intros r Hr.
  apply In_number_inv in Hr. destruct Hr as (c & k & _ & ->).
  repeat split.
Qed.

Lemma NoDup_map_injective {A B : Type} (f : A -> B) (l : list A) :
  (forall a b, f a = f b -> a = b) -> NoDup l -> NoDup (map f l).
Proof.
  intros Hf Hl. induction Hl as [|a l Ha Hl IH]; simpl; constructor; [|exact IH].
  intros Hin. apply in_map_iff in Hin. destruct Hin as (b & Hb & Hin).
  apply Hf in Hb. subst b. exact (Ha Hin).
Qed.

Lemma id_number randomUUID studentId course joinDate cs :
  forall k, map Payment.id (number randomUUID studentId course joinDate k cs)
            = map randomUUID (seq k (List.length cs)).
Proof.
  induction cs as [|c cs IH]; intros k; simpl; [reflexivity|].
  rewrite IH. reflexivity.
Qed.

(** X4. The identifiers of the output are the successive identifiers that
    [crypto.randomUUID] gives, one for each record and in the order of the
    records; they are pairwise distinct when those are. *)
Theorem ids_in_order randomUUID studentId course joinDateStr existingPayments out :
  generatePaymentsForEnrollment randomUUID studentId course joinDateStr
                                existingPayments = Returns out ->
  map Payment.id out = map randomUUID (seq 0 (List.length out))
  /\ ((forall a b, randomUUID a = randomUUID b -> a = b) ->
      NoDup (map Payment.id out)).
Proof.
  intros H. apply generate_returns in H. destruct H as [_ ->].
  rewrite id_number, length_number. split; [reflexivity|].
  intros Hinj. apply NoDup_map_injective; [exact Hinj | apply seq_NoDup].
Qed.

(** ** The amounts *)

Lemma cycles_index course n : forall i cps c,
  In c (cycles course n i cps) -> (i <= fst c)%nat.
Proof.
  induction n as [|n IH]; intros i cps c; simpl; [intros []|].
  intros [<- | Hin]; [simpl; lia|]. apply IH in Hin. lia.
Qed.

Lemma number_full_fee randomUUID studentId course joinDate cs :
  (forall c, In c cs -> fst c <> 0%nat) ->
  forall k, Forall (fun r => Payment.amount r = Course.fee course)
                   (number randomUUID studentId course joinDate k cs).
Proof.
  intros H k. apply Forall_forall. intros r Hr.
  apply In_number_inv in Hr. destruct Hr as (c & k' & Hc & ->).
  unfold candidate, amountOf. cbn [Payment.amount].
  destruct (fst c) as [|i] eqn:Hi; [exfalso; exact (H c Hc Hi) | reflexivity].
Qed.

(** X5. Only the first record can be pro-rated: every later record charges
    the fee of the course, and the first one charges either the fee or,
    when the join date is strictly inside the first cycle, the rounded
    share of the fee for the part of the cycle from the join date on, in
    which case it starts on the join date. *)
Theorem only_first_prorated randomUUID studentId course joinDateStr
        existingPayments out :
  generatePaymentsForEnrollment randomUUID studentId course joinDateStr
                                existingPayments = Returns out ->
  match out with
  | [] => True
  | first :: rest =>
      let joinDate := newDate joinDateStr in
      let cycleStart := cycleStartOf course joinDateStr in
      let periodEnd := nextPeriod (Course.period course) cycleStart in
      (Payment.amount first = Course.fee course
       \/ (date_gtb joinDate cycleStart = true
           /\ Payment.periodStart first = dateText joinDate
           /\ Payment.amount first
              = Math_round
                  (PrimFloat.mul (Course.fee course)
                     (PrimFloat.div
                        (PrimFloat.sub (getTime periodEnd) (getTime joinDate))
                        (PrimFloat.sub (getTime periodEnd) (getTime cycleStart))))))
      /\ Forall (fun r => Payment.amount r = Course.fee course) rest
  end.
Proof.
  intros H. apply generate_returns in H. destruct H as [_ ->].
  set (joinDate := newDate joinDateStr) in *.
  unfold horizon.
  destruct (periodsToGenerate (Course.period course)) as [|n]; [exact I|].
  cbn [cycles]. set (cs0 := cycleStartOf course joinDateStr) in *.
  assert (Hrest : forall k,
             Forall (fun r => Payment.amount r = Course.fee course)
                    (number randomUUID studentId course joinDate k
                       (unsuppressed studentId course joinDate existingPayments
                          (cycles course n 1 (periodEndOf course cs0))))).
  { apply number_full_fee. intros c Hc.
    apply filter_In in Hc. destruct Hc as [Hc _].
    apply cycles_index in Hc. lia. }
  unfold unsuppressed in *. cbn [filter].
  destruct (negb (suppressed studentId course joinDate existingPayments (0%nat, cs0))).
  - cbn [number]. cbv zeta. split; [|apply Hrest].
    unfold candidate, amountOf, effectiveStartOf. cbn [Payment.periodStart Payment.amount fst snd Nat.eqb andb].
    unfold date_gtb. destruct (date_ltb cs0 joinDate); [right | left; reflexivity].
    repeat split.
  - specialize (Hrest 0%nat).
    destruct (number _ _ _ _ _ _) as [|first rest]; [exact I|].
    inversion Hrest; subst. cbv zeta. split; [left|]; assumption.
Qed.

(** ** Existing payments of other students and courses *)

Lemma matchesCycle_ofPair studentId course day p :
  matchesCycle studentId course day p
  = ofPair studentId course p && String.prefix day (Payment.periodStart p).
Proof. reflexivity. Qed.

Lemma existsb_matchesCycle_ofPair studentId course day ps :
  existsb (matchesCycle studentId course day) (filter (ofPair studentId course) ps)
  = existsb (matchesCycle studentId course day) ps.
Proof.
  induction ps as [|p ps IH]; simpl; [reflexivity|].
  rewrite (matchesCycle_ofPair studentId course day p).
  destruct (ofPair studentId course p) eqn:Hp; simpl; [|exact IH].
  rewrite IH, matchesCycle_ofPair, Hp. reflexivity.
Qed.

Lemma generate_suppressed_ext randomUUID studentId course joinDateStr ps ps' :
  (forall c, suppressed studentId course (newDate joinDateStr) ps c
             = suppressed studentId course (newDate joinDateStr) ps' c) ->
  generatePaymentsForEnrollment randomUUID studentId course joinDateStr ps
  = generatePaymentsForEnrollment randomUUID studentId course joinDateStr ps'.
Proof.
  intros H. rewrite !generate_horizon. apply cycles_suppressed_ext.
  intros c _ _. apply H.
Qed.

Lemma generate_filter_ofPair randomUUID studentId course joinDateStr ps :
  generatePaymentsForEnrollment randomUUID studentId course joinDateStr ps
  = generatePaymentsForEnrollment randomUUID studentId course joinDateStr
                                  (filter (ofPair studentId course) ps).
Proof.
  apply generate_suppressed_ext. intros c. unfold suppressed.
  symmetry. apply existsb_matchesCycle_ofPair.
Qed.

(** X6. The generator reads the existing payments of its own student and
    course only: the other payments can be removed without any change to
    what it returns. *)
Theorem reads_own_payments_only randomUUID studentId course joinDateStr
        existingPayments :
  generatePaymentsForEnrollment randomUUID studentId course joinDateStr
                                existingPayments
  = generatePaymentsForEnrollment randomUUID studentId course joinDateStr
                                  (filter (ofPair studentId course) existingPayments).
Proof. apply generate_filter_ofPair. Qed.

Lemma suppressed_no_own studentId course joinDate ps c :
  forallb (fun p => negb (ofPair studentId course p)) ps = true ->
  suppressed studentId course joinDate ps c = false.
Proof.
  intros H. unfold suppressed.
  rewrite <- existsb_matchesCycle_ofPair.
  rewrite filter_none; [reflexivity|].
  rewrite forallb_forall in H. intros p Hp. apply negb_true_iff, H, Hp.
Qed.

Lemma unsuppressed_no_own studentId course joinDate ps cs :
  forallb (fun p => negb (ofPair studentId course p)) ps = true ->
  unsuppressed studentId course joinDate ps cs = cs.
Proof.
  intros H. unfold unsuppressed.
  induction cs as [|c cs IH]; simpl; [reflexivity|].
  rewrite (suppressed_no_own _ _ _ _ _ H), IH. reflexivity.
Qed.

(** ** The periods of the output *)

Lemma StronglySorted_filter {A : Type} (R : A -> A -> Prop) (f : A -> bool)
      (l : list A) :
  StronglySorted R l -> StronglySorted R (filter f l).
Proof.
  induction 1 as [|a l Hs IH Hall]; simpl; [constructor|].
  destruct (f a); [|exact IH]. constructor; [exact IH|].
  rewrite Forall_forall in *. intros x Hx. apply filter_In in Hx. apply Hall, Hx.
Qed.

Lemma StronglySorted_number randomUUID studentId course joinDate
      (R : nat * Date -> nat * Date -> Prop) (R' : Payment.t -> Payment.t -> Prop)
      cs :
  (forall c c' k k', In c cs -> In c' cs -> R c c' ->
     R' (candidate studentId course joinDate (randomUUID k) c)
        (candidate studentId course joinDate (randomUUID k') c')) ->
  StronglySorted R cs ->
  forall k, StronglySorted R' (number randomUUID studentId course joinDate k cs).
Proof.
  intros HR Hs. revert HR.
  induction Hs as [|c cs Hs IH Hall]; intros HR k; simpl; constructor.
  - apply IH. intros c1 c2 k1 k2 H1 H2. apply HR; right; assumption.
  - apply Forall_forall. intros r Hr.
    apply In_number_inv in Hr. destruct Hr as (c' & k' & Hc' & ->).
    apply HR; [left; reflexivity | right; exact Hc'|].
    rewrite Forall_forall in Hall. apply Hall, Hc'.
Qed.

(** A cycle [c] and a later cycle [c']: when [c] has a valid end and [c']
    a valid start, [c] ends no later than [c'] starts. *)
Local Abbreviation precedes course joinDate :=
  (fun c c' : nat * Date =>
     forall e, periodEndOf course (snd c) = Some e ->
               isValid (effectiveStartOf joinDate (snd c')) = true ->
               e <= startTime joinDate c').

Lemma cycles_invalid course m : forall j c,
  In c (cycles course m j None) -> snd c = None.
Proof.
  induction m as [|m IH]; intros j c; simpl; [intros []|].
  intros [<- | Hin]; [reflexivity|].
  unfold periodEndOf in Hin. rewrite nextPeriod_None in Hin. eapply IH, Hin.
Qed.

(** The cycles visited from a date on or after the join date do not start
    before that date. *)
Lemma cycles_from_settled course joinDate n : forall i u c,
  settled joinDate (Some u) ->
  In c (cycles course n i (Some u)) ->
  isValid (effectiveStartOf joinDate (snd c)) = true ->
  u <= startTime joinDate c.
Proof.
  induction n as [|n IH]; intros i u c Hset; simpl; [intros []|].
  intros [<- | Hin] Hv.
  - unfold startTime. cbn [snd]. rewrite (settled_startOf joinDate _ Hset). lia.
  - pose proof (aligned_settled_next course joinDate _
                  (settled_aligned course joinDate _ Hset)) as Hnext.
    destruct (periodEndOf course (Some u)) as [e|] eqn:He.
    + pose proof (periodEndOf_later course u e He).
      specialize (IH _ _ _ Hnext Hin Hv). lia.
    + apply cycles_invalid in Hin. rewrite Hin in Hv. discriminate Hv.
Qed.

Lemma cycles_precede course joinDate n : forall i cps,
  aligned course joinDate cps ->
  StronglySorted (precedes course joinDate) (cycles course n i cps).
Proof.
  induction n as [|n IH]; intros i cps Hal; simpl; constructor.
  - apply IH, aligned_periodEndOf, Hal.
  - apply Forall_forall. intros c' Hc' e He Hv. cbn [snd] in He.
    pose proof (aligned_settled_next course joinDate cps Hal) as Hset.
    rewrite He in Hc', Hset.
    exact (cycles_from_settled course joinDate n _ e c' Hset Hc' Hv).
Qed.

(** X7. The periods of the output do not overlap: every record ends no
    later than any later record of the output starts. *)
Theorem periods_do_not_overlap randomUUID studentId course joinDateStr
        existingPayments out :
  generatePaymentsForEnrollment randomUUID studentId course joinDateStr
                                existingPayments = Returns out ->
  StronglySorted
    (fun r r' => exists e a,
         Payment.periodEnd r = dateText (Some e)
         /\ Payment.periodStart r' = dateText (Some a)
         /\ e <= a)
    out.
Proof.
  intros H. apply generate_returns in H. destruct H as [Hok ->].
  set (joinDate := newDate joinDateStr) in *.
  rewrite forallb_forall in Hok.
  apply (StronglySorted_number randomUUID studentId course joinDate
           (precedes course joinDate)).
  - intros c c' k k' Hc Hc' HR.
    apply filter_In in Hc, Hc'. destruct Hc as [Hc Hs], Hc' as [Hc' _].
    pose proof (Hok c Hc) as Hcomp. unfold completes in Hcomp.
    apply negb_true_iff in Hs. rewrite Hs in Hcomp.
    apply andb_true_iff in Hcomp. destruct Hcomp as [_ Hend]. simpl in Hend.
    pose proof (completes_valid _ _ _ _ _ (Hok c' Hc')) as Hv'.
    destruct (periodEndOf course (snd c)) as [e|] eqn:He; [|discriminate].
    exists e, (startTime joinDate c'). cbn [candidate Payment.periodEnd Payment.periodStart].
    rewrite He. split; [reflexivity|]. split; [|exact (HR e eq_refl Hv')].
    apply startTime_dateText, Hv'.
  - apply StronglySorted_filter. unfold horizon.
    apply cycles_precede, cycleStartOf_aligned.
Qed.

Lemma tiling_number randomUUID studentId course joinDate n : forall i cps k,
  aligned course joinDate cps ->
  map Payment.periodEnd
      (removelast (number randomUUID studentId course joinDate k
                     (cycles course n i cps)))
  = map Payment.periodStart
        (tl (number randomUUID studentId course joinDate k (cycles course n i cps))).
Proof.
  induction n as [|n IH]; intros i cps k Hal; [reflexivity|].
  cbn [cycles number tl].
  destruct n as [|n]; [reflexivity|].
  specialize (IH (S i) (periodEndOf course cps) (S k)
                 (aligned_periodEndOf course joinDate cps Hal)).
  cbn [cycles number tl] in IH |- *. cbn [removelast] in IH |- *.
  cbn [map]. rewrite <- IH. clear IH.
  f_equal. cbn [candidate Payment.periodEnd Payment.periodStart snd].
  rewrite (settled_startOf joinDate _ (aligned_settled_next course joinDate cps Hal)).
  reflexivity.
Qed.

(** X8. When no existing payment is one of the student for the course, the
    periods of the output tile the horizon: every record ends on the date
    on which the next record starts. *)
Theorem periods_tile_without_existing randomUUID studentId course joinDateStr
        existingPayments out :
  forallb (fun p => negb (ofPair studentId course p)) existingPayments = true ->
  generatePaymentsForEnrollment randomUUID studentId course joinDateStr
                                existingPayments = Returns out ->
  map Payment.periodEnd (removelast out) = map Payment.periodStart (tl out).
Proof.
  intros Hnone H. apply generate_returns in H. destruct H as [_ ->].
  rewrite (unsuppressed_no_own _ _ _ _ _ Hnone). unfold horizon.
  apply tiling_number, cycleStartOf_aligned.
Qed.

(** ** More existing payments *)

Lemma filter_length_impl {A : Type} (f g : A -> bool) (l : list A) :
  (forall x, f x = true -> g x = true) ->
  (List.length (filter f l) <= List.length (filter g l))%nat.
Proof.
  intros H. induction l as [|a l IH]; simpl; [lia|].
  destruct (f a) eqn:Hf; [rewrite (H a Hf); simpl; lia|].
  destruct (g a); simpl; lia.
Qed.

(** X9. More existing payments, fewer records: when a call returns, a call
    with further existing payments returns too, and every record it
    returns is a record of the first call but for its fresh identifier:
    adding existing payments never adds or changes a charge. *)
Theorem more_existing_fewer_records randomUUID randomUUID' studentId course
        joinDateStr existingPayments more out :
  generatePaymentsForEnrollment randomUUID studentId course joinDateStr
                                existingPayments = Returns out ->
  exists out',
    generatePaymentsForEnrollment randomUUID' studentId course joinDateStr
                                  (existingPayments ++ more) = Returns out'
    /\ incl (map (fun r => (Payment.periodStart r, Payment.periodEnd r,
                            Payment.amount r)) out')
            (map (fun r => (Payment.periodStart r, Payment.periodEnd r,
                            Payment.amount r)) out)
    /\ (List.length out' <= List.length out)%nat.
Proof.
  intros H. apply generate_returns in H. destruct H as [Hok ->].
  set (joinDate := newDate joinDateStr) in *.
  rewrite forallb_forall in Hok.
  assert (Hsup : forall c,
             suppressed studentId course joinDate (existingPayments ++ more) c
             = false ->
             suppressed studentId course joinDate existingPayments c = false).
  { intros c. unfold suppressed. rewrite existsb_app. apply orb_false_elim. }
  rewrite generate_horizon. fold joinDate.
  replace (forallb _ (horizon course joinDateStr)) with true.
  - eexists. split; [reflexivity|]. split.
    + intros x Hx. apply in_map_iff in Hx. destruct Hx as (r' & <- & Hr').
      apply In_number_inv in Hr'. destruct Hr' as (c & k' & Hc & ->).
      apply filter_In in Hc. destruct Hc as [Hc Hs].
      apply negb_true_iff, Hsup in Hs.
      assert (Hkept : In c (unsuppressed studentId course joinDate existingPayments
                              (horizon course joinDateStr))).
      { apply filter_In. split; [exact Hc|]. rewrite Hs. reflexivity. }
      destruct (In_number randomUUID studentId course joinDate c _ 0%nat Hkept)
        as [k Hk].
      apply in_map_iff. eexists. split; [|exact Hk]. reflexivity.
    + rewrite !length_number. unfold unsuppressed.
      apply filter_length_impl. intros c Hs.
      apply negb_true_iff in Hs. apply negb_true_iff, Hsup, Hs.
  - symmetry. apply forallb_forall. intros c Hc.
    specialize (Hok c Hc). unfold completes in *.
    apply andb_true_iff in Hok. destruct Hok as [-> Hend]. simpl.
    destruct (suppressed studentId course joinDate (existingPayments ++ more) c)
      eqn:Hs; [reflexivity|].
    rewrite (Hsup c Hs) in Hend. exact Hend.
Qed.

(** ** The first cycle *)

Lemma cycleStartOf_bracket course joinDateStr s j :
  newDate (Course.startDate course) = Some s ->
  newDate joinDateStr = Some j ->
  s <= j -> j + 368 * msPerDay <= maxTime ->
  exists c e, cycleStartOf course joinDateStr = Some c
              /\ nextPeriod (Course.period course) (Some c) = Some e
              /\ c <= j < e
              /\ effectiveStartOf (Some j) (Some c) = Some j.
Proof.
  intros Hs Hj Hsj Hhi.
  pose proof (newDate_inRange (Course.startDate course)) as Hr.
  rewrite Hs in Hr. simpl in Hr.
  pose proof (alignLoop_exit (Course.period course) (newDate joinDateStr) _ _
                (alignFuel_enough (newDate joinDateStr)
                   (newDate (Course.startDate course)))) as Hexit.
  fold (cycleStartOf course joinDateStr) in Hexit.
  assert (Hcs : exists c, cycleStartOf course joinDateStr = Some c /\ c <= j).
  { unfold cycleStartOf. rewrite Hs, Hj.
    destruct (alignLoop_range (Course.period course) j
                (alignFuel (Some j) (Some s)) s) as (u & -> & Hu);
      [lia | exact Hhi|].
    exists u. split; [reflexivity | lia]. }
  destruct Hcs as (c & Hc & Hcj). rewrite Hc, Hj in Hexit.
  exists c. destruct Hexit as [Hexit | Hexit].
  - simpl in Hexit. apply Z.leb_gt in Hexit. lia.
  - unfold date_gtb in Hexit.
    destruct (nextPeriod (Course.period course) (Some c)) as [e|];
      [|discriminate].
    simpl in Hexit. apply Z.ltb_lt in Hexit.
    exists e. repeat split; [exact Hc | exact Hcj | exact Hexit|].
    unfold effectiveStartOf. simpl.
    destruct (Z.ltb_spec c j); [reflexivity | f_equal; lia].
Qed.

(** X10. The first cycle contains the join date: when the join date is on
    or after the start of the course (and at least 368 days, the longest
    year and the change of the offset, before the end of the range of time
    values), the alignment loop ends on a cycle that starts on or before
    the join date and ends after it, and the effective start of that cycle
    is the join date. *)
Theorem first_cycle_contains_join course joinDateStr s j :
  newDate (Course.startDate course) = Some s ->
  newDate joinDateStr = Some j ->
  s <= j -> j + 368 * msPerDay <= maxTime ->
  exists c e, cycleStartOf course joinDateStr = Some c
              /\ nextPeriod (Course.period course) (Some c) = Some e
              /\ c <= j < e
              /\ effectiveStartOf (Some j) (Some c) = Some j.
Proof. apply cycleStartOf_bracket. Qed.

(** ** Calendar dates never throw *)

(** For calendar dates, every cycle of the horizon starts and ends on a
    valid date. *)
Lemma horizon_calendar_valid course joinDateStr s j :
  newDate (Course.startDate course) = Some s ->
  newDate joinDateStr = Some j ->
  calendarDate s -> calendarDate j ->
  forall c, In c (horizon course joinDateStr) ->
    isValid (effectiveStartOf (newDate joinDateStr) (snd c)) = true
    /\ isValid (periodEndOf course (snd c)) = true.
Proof.
  intros Hs Hj Hcs Hcj c Hc.
  destruct (cycleStartOf_calendar _ _ _ _ Hs Hj Hcs Hcj) as (u & Hu & Hur).
  unfold horizon in Hc. rewrite Hu in Hc.
  apply cycles_valid in Hc;
    [|unfold maxTime; lia
     |pose proof (periodsToGenerate_le (Course.period course));
      unfold maxTime, msPerDay; lia].
  destruct Hc as (a & e & Ha & He).
  rewrite Ha, He, Hj. unfold effectiveStartOf.
  destruct (date_ltb _ _); split; reflexivity.
Qed.

(** X11. For a start date and a join date that are calendar dates, the
    generator returns (it does not throw); and when no existing payment is
    one of the student for the course, it returns one record for each
    cycle of the horizon: 52, 12 or 5 records. *)
Theorem calendar_dates_return randomUUID studentId course joinDateStr
        existingPayments s j :
  newDate (Course.startDate course) = Some s ->
  newDate joinDateStr = Some j ->
  calendarDate s -> calendarDate j ->
  exists out,
    generatePaymentsForEnrollment randomUUID studentId course joinDateStr
                                  existingPayments = Returns out
    /\ (forallb (fun p => negb (ofPair studentId course p)) existingPayments = true ->
        List.length out = periodsToGenerate (Course.period course)).
Proof.
  intros Hs Hj Hcs Hcj.
  pose proof (horizon_calendar_valid _ _ _ _ Hs Hj Hcs Hcj) as Hvalid.
  rewrite generate_horizon.
  replace (forallb _ (horizon course joinDateStr)) with true.
  - eexists. split; [reflexivity|]. intros Hnone.
    rewrite length_number, (unsuppressed_no_own _ _ _ _ _ Hnone).
    unfold horizon. apply length_cycles.
  - symmetry. apply forallb_forall. intros c Hc.
    destruct (Hvalid c Hc) as [Hv He]. unfold completes.
    rewrite Hv, He, orb_true_r. reflexivity.
Qed.

(** ** The date helpers *)

Lemma MakeDay_normal y m d : MakeDay y m d = MakeDay (y + m / 12) (m mod 12) d.
Proof.
  unfold MakeDay.
  rewrite Z.mod_mod by lia.
  rewrite (Z.div_small (m mod 12) 12) by (apply Z.mod_pos_bound; lia).
  rewrite Z.add_0_r. reflexivity.
Qed.

(** The fields of a day of a month: for a month [m] from 0 to 11 and a day
    [d] of that month, the day [MakeDay y m d] has the year [y], the month
    [m] and the day of the month [d]. *)
Lemma fields_of_MakeDay y m d t :
  0 <= m <= 11 -> 1 <= d <= daysInMonth m (if isLeap y then 1 else 0) ->
  Day t = MakeDay y m d ->
  YearFromTime t = y /\ MonthFromTime t = m /\ DateFromTime t = d.
Proof.
  intros Hm Hd Ht.
  assert (Hday : Day t = DayFromYear y
                         + daysBeforeMonth m (if isLeap y then 1 else 0) + d - 1).
  { rewrite Ht. unfold MakeDay.
    rewrite (Z.div_small m 12), (Z.mod_small m 12), Z.add_0_r by lia. reflexivity. }
  assert (Hyear : YearFromTime t = y).
  { apply YearFromTime_unique. rewrite Hday, DayFromYear_succ.
    unfold DaysInYear, daysInMonth, daysBeforeMonth in *.
    destruct (isLeap y); revert Hd; split_tests. }
  assert (Hleap : InLeapYear t = if isLeap y then 1 else 0)
    by (unfold InLeapYear; rewrite Hyear; reflexivity).
  assert (Hdwy : DayWithinYear t = daysBeforeMonth m (InLeapYear t) + d - 1)
    by (unfold DayWithinYear; rewrite Hyear, Hday, Hleap; lia).
  assert (Hmonth : MonthFromTime t = m).
  { unfold MonthFromTime. rewrite Hdwy, Hleap.
    unfold daysInMonth, daysBeforeMonth in *.
    destruct (isLeap y); revert Hd; split_tests. }
  split; [exact Hyear|]. split; [exact Hmonth|].
  unfold DateFromTime. rewrite Hmonth, Hdwy. lia.
Qed.

Lemma TimeWithinDay_range t : 0 <= TimeWithinDay t < msPerDay.
Proof. unfold TimeWithinDay, msPerDay. apply Z.mod_pos_bound. lia. Qed.

Lemma Day_MakeDate D tw : 0 <= tw < msPerDay -> Day (MakeDate D tw) = D.
Proof.
  intros H. unfold Day, MakeDate, msPerDay in *. Z.div_mod_to_equations; lia.
Qed.

Lemma TimeWithinDay_MakeDate D tw :
  0 <= tw < msPerDay -> TimeWithinDay (MakeDate D tw) = tw.
Proof.
  intros H. unfold TimeWithinDay, MakeDate, msPerDay in *.
  Z.div_mod_to_equations; lia.
Qed.

(** [addMonths] and [addYears] on a valid date. *)
Lemma addMonths_unfold u months :
  addMonths (Some u) months
  = TimeClip (UTC (MakeDate (MakeDay (YearFromTime (LocalTime u))
                                     (MonthFromTime (LocalTime u) + months)
                                     (DateFromTime (LocalTime u)))
                            (TimeWithinDay (LocalTime u)))).
Proof. reflexivity. Qed.

Lemma addYears_unfold u years :
  addYears (Some u) years
  = TimeClip (UTC (MakeDate (MakeDay (YearFromTime (LocalTime u) + years)
                                     (MonthFromTime (LocalTime u))
                                     (DateFromTime (LocalTime u)))
                            (TimeWithinDay (LocalTime u)))).
Proof. reflexivity. Qed.

(** The local time of the result is the local time that was asked of the
    host when the offset in force at the result is the offset with which
    the host read that local time. *)
Lemma LocalTime_UTC_same_offset local :
  LocalTZA (UTC local) true = LocalTZA local false ->
  LocalTime (UTC local) = local.
Proof. unfold LocalTime. intros ->. unfold UTC. lia. Qed.

(** X12. [addDays] moves the date by whole days on the local clock of the
    host: the result is the instant that the host reads for the local time
    [days] times 24 hours later (an Invalid Date past either end of the
    range of time values).  In time values that is exactly [days] times 24
    hours later when the offset with which the host reads that local time
    is the offset in force at the date, and less than two days from it in
    any case: across a change of the offset a week is not 168 hours. *)
Theorem addDays_local_days u days :
  addDays (Some u) days = TimeClip (UTC (LocalTime u + days * msPerDay))
  /\ (LocalTZA (LocalTime u + days * msPerDay) false = LocalTZA u true ->
      addDays (Some u) days = TimeClip (u + days * msPerDay))
  /\ (forall v, addDays (Some u) days = Some v ->
                (days - 2) * msPerDay < v - u < (days + 2) * msPerDay).
Proof.
  split; [apply addDays_Some|]. split.
  - intros H. rewrite addDays_Some, (UTC_LocalTime_same_offset _ _ H). reflexivity.
  - intros v H. rewrite addDays_Some in H. apply TimeClip_Some in H.
    destruct H as [-> _]. pose proof (UTC_LocalTime_days u days). lia.
Qed.

(** The fields of the local time that [addMonths] reaches from the local
    time [t]. *)
Lemma monthsLater_fields t months :
  let year := YearFromTime t + (MonthFromTime t + months) / 12 in
  let month := (MonthFromTime t + months) mod 12 in
  let len := daysInMonth month (if isLeap year then 1 else 0) in
  let local := MakeDate (MakeDay (YearFromTime t) (MonthFromTime t + months)
                                 (DateFromTime t))
                        (TimeWithinDay t) in
  TimeWithinDay local = TimeWithinDay t
  /\ if DateFromTime t <=? len
     then YearFromTime local = year
          /\ MonthFromTime local = month
          /\ DateFromTime local = DateFromTime t
     else YearFromTime local = year + (month + 1) / 12
          /\ MonthFromTime local = (month + 1) mod 12
          /\ DateFromTime local = DateFromTime t - len.
Proof.
  cbv zeta.
  pose proof (TimeWithinDay_range t) as Htw.
  split; [apply TimeWithinDay_MakeDate, Htw|].
  pose proof (Day_MakeDate (MakeDay (YearFromTime t) (MonthFromTime t + months)
                                    (DateFromTime t)) _ Htw) as Hday.
  generalize dependent (MakeDate (MakeDay (YearFromTime t) (MonthFromTime t + months)
                                          (DateFromTime t)) (TimeWithinDay t)).
  intros t' Hday. clear Htw. rewrite MakeDay_normal in Hday.
  generalize dependent (YearFromTime t + (MonthFromTime t + months) / 12).
  intros year.
  assert (Hm : 0 <= (MonthFromTime t + months) mod 12 <= 11)
    by (Z.div_mod_to_equations; lia).
  generalize dependent ((MonthFromTime t + months) mod 12). intros month Hm Hday.
  pose proof (DateFromTime_le_31 t) as Hd.
  generalize dependent (DateFromTime t). intros d Hday Hd.
  assert (Hlen : 28 <= daysInMonth month (if isLeap year then 1 else 0) <= 31).
  { apply daysInMonth_range; [exact Hm | destruct (isLeap year); lia]. }
  destruct (Z.leb_spec d (daysInMonth month (if isLeap year then 1 else 0)))
    as [Hle | Hgt].
  - assert (Hd' : 1 <= d <= daysInMonth month (if isLeap year then 1 else 0)) by lia.
    exact (fields_of_MakeDay year month d t' Hm Hd' Hday).
  - assert (Hday' : Day t'
                    = MakeDay (year + (month + 1) / 12) ((month + 1) mod 12)
                              (d - daysInMonth month (if isLeap year then 1 else 0))).
    { rewrite <- MakeDay_normal, MakeDay_next_month by exact Hm.
      rewrite Hday. unfold MakeDay. lia. }
    assert (Hm' : 0 <= (month + 1) mod 12 <= 11) by (Z.div_mod_to_equations; lia).
    assert (Hlen' : 28 <= daysInMonth ((month + 1) mod 12)
                            (if isLeap (year + (month + 1) / 12) then 1 else 0) <= 31).
    { apply daysInMonth_range; [exact Hm'|].
      destruct (isLeap (year + (month + 1) / 12)); lia. }
    assert (Hd' : 1 <= d - daysInMonth month (if isLeap year then 1 else 0)
                  <= daysInMonth ((month + 1) mod 12)
                       (if isLeap (year + (month + 1) / 12) then 1 else 0)) by lia.
    exact (fields_of_MakeDay _ _ _ t' Hm' Hd' Hday').
Qed.

(** X13. [addMonths] in calendar terms.  It asks the host for the local
    time on the same day of the month [months] months away, at the same
    time of day; when that month has no such day (the 29th to the 31st in a
    shorter month), for the day as many days into the month after as there
    are days in excess.  The result is the instant that the host reads for
    that local time, and has it as its local time when the offset in force
    at the result is the offset with which the host read it: always, but
    for a local time that a change of the offset skips. *)
Theorem addMonths_calendar u months :
  let t := LocalTime u in
  let year := YearFromTime t + (MonthFromTime t + months) / 12 in
  let month := (MonthFromTime t + months) mod 12 in
  let len := daysInMonth month (if isLeap year then 1 else 0) in
  exists local,
    addMonths (Some u) months = TimeClip (UTC local)
    /\ TimeWithinDay local = TimeWithinDay t
    /\ (if DateFromTime t <=? len
        then YearFromTime local = year
             /\ MonthFromTime local = month
             /\ DateFromTime local = DateFromTime t
        else YearFromTime local = year + (month + 1) / 12
             /\ MonthFromTime local = (month + 1) mod 12
             /\ DateFromTime local = DateFromTime t - len)
    /\ (forall r, addMonths (Some u) months = Some r ->
                  LocalTZA r true = LocalTZA local false ->
                  LocalTime r = local).
Proof.
  cbv zeta. eexists. split; [apply addMonths_unfold|].
  pose proof (monthsLater_fields (LocalTime u) months) as H. cbv zeta in H.
  destruct H as [Htime H]. split; [exact Htime|]. split; [exact H|].
  intros r Hr Hoff. rewrite addMonths_unfold in Hr.
  apply TimeClip_Some in Hr. destruct Hr as [-> _].
  apply LocalTime_UTC_same_offset, Hoff.
Qed.

(** The fields of the local time that [addYears] reaches from the local
    time [t]. *)
Lemma yearsLater_fields t years :
  let year := YearFromTime t + years in
  let local := MakeDate (MakeDay (YearFromTime t + years) (MonthFromTime t)
                                 (DateFromTime t))
                        (TimeWithinDay t) in
  TimeWithinDay local = TimeWithinDay t
  /\ YearFromTime local = year
  /\ if (MonthFromTime t =? 1) && (DateFromTime t =? 29) && negb (isLeap year)
     then MonthFromTime local = 2 /\ DateFromTime local = 1
     else MonthFromTime local = MonthFromTime t
          /\ DateFromTime local = DateFromTime t.
Proof.
  cbv zeta.
  pose proof (TimeWithinDay_range t) as Htw.
  split; [apply TimeWithinDay_MakeDate, Htw|].
  pose proof (Day_MakeDate (MakeDay (YearFromTime t + years) (MonthFromTime t)
                                    (DateFromTime t)) _ Htw) as Hday.
  generalize dependent (MakeDate (MakeDay (YearFromTime t + years) (MonthFromTime t)
                                          (DateFromTime t)) (TimeWithinDay t)).
  intros t' Hday. clear Htw.
  pose proof (MonthFromTime_range t) as Hm.
  pose proof (DateFromTime_range t) as Hd.
  pose proof (InLeapYear_cases t) as Hl.
  generalize dependent (YearFromTime t + years). intros year Hday.
  generalize dependent (InLeapYear t). intros l Hd Hl.
  generalize dependent (DateFromTime t). intros d Hday Hd.
  generalize dependent (MonthFromTime t). intros m Hm Hday Hd.
  destruct ((m =? 1) && (d =? 29) && negb (isLeap year)) eqn:Hfeb.
  - apply andb_true_iff in Hfeb. destruct Hfeb as [Hfeb Hleap].
    apply andb_true_iff in Hfeb. destruct Hfeb as [Hm1 Hd29].
    apply Z.eqb_eq in Hm1, Hd29. apply negb_true_iff in Hleap.
    assert (Hday' : Day t' = MakeDay year 2 1).
    { rewrite Hday, Hm1, Hd29.
      change (MakeDay year 2 1) with (MakeDay year (1 + 1) 1).
      rewrite (MakeDay_next_month year 1 1), Hleap by lia.
      change (daysInMonth 1 0) with 28. rewrite <- MakeDay_date. reflexivity. }
    assert (Hd' : 1 <= 1 <= daysInMonth 2 (if isLeap year then 1 else 0))
      by (rewrite Hleap; unfold daysInMonth; simpl; lia).
    assert (Hm2 : 0 <= 2 <= 11) by lia.
    destruct (fields_of_MakeDay year 2 1 t' Hm2 Hd' Hday') as (-> & -> & ->).
    repeat split.
  - assert (Hd' : 1 <= d <= daysInMonth m (if isLeap year then 1 else 0)).
    { revert Hd Hfeb. unfold daysInMonth, daysBeforeMonth.
      destruct (isLeap year), Hl as [-> | ->]; cbn [negb andb];
        destruct (Z.eqb_spec d 29); rewrite ?andb_true_r, ?andb_false_r;
        split_tests; intros; try discriminate; lia. }
    destruct (fields_of_MakeDay year m d t' Hm Hd' Hday) as (-> & -> & ->).
    repeat split.
Qed.

(** X14. [addYears] in calendar terms.  It asks the host for the local time
    on the same day of the same month [years] years away, at the same time
    of day; for the 1st of March when the day is the 29th of February and
    that year is not a leap year.  The result is the instant that the host
    reads for that local time, and has it as its local time when the
    offset in force at the result is the offset with which the host read
    it. *)
Theorem addYears_calendar u years :
  let t := LocalTime u in
  let year := YearFromTime t + years in
  exists local,
    addYears (Some u) years = TimeClip (UTC local)
    /\ TimeWithinDay local = TimeWithinDay t
    /\ YearFromTime local = year
    /\ (if (MonthFromTime t =? 1) && (DateFromTime t =? 29) && negb (isLeap year)
        then MonthFromTime local = 2 /\ DateFromTime local = 1
        else MonthFromTime local = MonthFromTime t
             /\ DateFromTime local = DateFromTime t)
    /\ (forall r, addYears (Some u) years = Some r ->
                  LocalTZA r true = LocalTZA local false ->
                  LocalTime r = local).
Proof.
  cbv zeta. eexists. split; [apply addYears_unfold|].
  pose proof (yearsLater_fields (LocalTime u) years) as H. cbv zeta in H.
  destruct H as (Htime & Hyear & H).
  split; [exact Htime|]. split; [exact Hyear|]. split; [exact H|].
  intros r Hr Hoff. rewrite addYears_unfold in Hr.
  apply TimeClip_Some in Hr. destruct Hr as [-> _].
  apply LocalTime_UTC_same_offset, Hoff.
Qed.

(** X15. Twelve months are a year: [addMonths] by a multiple of twelve
    months is [addYears] by as many years, on every date, valid or not. *)
Theorem addMonths_twelve d years : addMonths d (12 * years) = addYears d years.
Proof.
  destruct d as [u|]; [|reflexivity].
  unfold addMonths, addYears, setMonth, setFullYear, getMonth, getFullYear, plus,
    option_map.
  pose proof (MonthFromTime_range (LocalTime u)) as Hm.
  rewrite MakeDay_normal.
  replace ((MonthFromTime (LocalTime u) + 12 * years) / 12) with years
    by (Z.div_mod_to_equations; lia).
  replace ((MonthFromTime (LocalTime u) + 12 * years) mod 12)
    with (MonthFromTime (LocalTime u)) by (Z.div_mod_to_equations; lia).
  reflexivity.
Qed.

(** X16. The length of a period.  On the local clock of the host a week is
    seven days, a month as many days as the month of the local date has,
    from 28 to 31, and a year, for ['yearly'] and every other period, 365
    or 366 days.  The period ends at the instant that the host reads for
    the local time that many days later: exactly that many days later
    when the offset with which the host reads it is the offset in force at
    the start, and less than two days more or less in any case. *)
Theorem period_lengths period u v :
  nextPeriod period (Some u) = Some v ->
  exists days,
    v = UTC (LocalTime u + days * msPerDay)
    /\ (if String.eqb period "weekly" then days = 7
        else if String.eqb period "monthly" then
          days = daysInMonth (MonthFromTime (LocalTime u)) (InLeapYear (LocalTime u))
          /\ 28 <= days <= 31
        else 365 <= days <= 366)
    /\ (days - 2) * msPerDay < v - u < (days + 2) * msPerDay
    /\ (LocalTZA (LocalTime u + days * msPerDay) false = LocalTZA u true ->
        v = u + days * msPerDay).
Proof.
  intros H.
  assert (Hdays : exists days,
             nextPeriod period (Some u)
             = TimeClip (UTC (LocalTime u + days * msPerDay))
             /\ (if String.eqb period "weekly" then days = 7
                 else if String.eqb period "monthly" then
                   days = daysInMonth (MonthFromTime (LocalTime u))
                                      (InLeapYear (LocalTime u))
                   /\ 28 <= days <= 31
                 else 365 <= days <= 366)).
  { unfold nextPeriod. destruct (String.eqb period "weekly").
    - exists 7. split; [apply addDays_Some | reflexivity].
    - destruct (String.eqb period "monthly").
      + eexists. split; [apply addMonths_Some|]. split; [reflexivity|].
        apply daysInMonth_range; [apply MonthFromTime_range|].
        pose proof (InLeapYear_cases (LocalTime u)). lia.
      + destruct (addYears_Some u) as (k & Hk & E). exists k. auto. }
  destruct Hdays as (days & E & Hdays). rewrite E in H.
  apply TimeClip_Some in H. destruct H as [-> _].
  exists days. split; [reflexivity|]. split; [exact Hdays|]. split.
  - pose proof (UTC_LocalTime_days u days). lia.
  - apply UTC_LocalTime_same_offset.
Qed.

(** ** Printing what is parsed *)

Lemma digitValue_inv c v :
  digitValue c = Some v -> 0 <= v <= 9 /\ digit v = c.
Proof.
  unfold digitValue, digit.
  destruct (Z.leb_spec 48 (Z.of_nat (nat_of_ascii c)));
    destruct (Z.leb_spec (Z.of_nat (nat_of_ascii c)) 57);
    cbn [andb]; intros E; try discriminate E.
  injection E as <-. split; [lia|].
  replace (48 + Z.to_nat (Z.of_nat (nat_of_ascii c) - 48))%nat
    with (nat_of_ascii c) by lia.
  apply ascii_nat_embedding.
Qed.

Lemma twoDigits_inv a b v :
  twoDigits a b = Some v ->
  exists x y, 0 <= x <= 9 /\ 0 <= y <= 9 /\ v = 10 * x + y
              /\ digit x = a /\ digit y = b.
Proof.
  unfold twoDigits.
  destruct (digitValue a) as [x|] eqn:Ha; [|discriminate].
  destruct (digitValue b) as [y|] eqn:Hb; [|discriminate].
  intros H. injection H as <-.
  apply digitValue_inv in Ha, Hb. exists x, y. intuition.
Qed.

(** The shape of a string that [parseDateOnly] reads. *)
Lemma parseDateOnly_shape s t :
  parseDateOnly s = Some t ->
  exists y1 y2 y3 y4 m1 m2 d1 d2 yh yl m d,
    s = String y1 (String y2 (String y3 (String y4 (String "-"%char
          (String m1 (String m2 (String "-"%char
          (String d1 (String d2 EmptyString)))))))))
    /\ twoDigits y1 y2 = Some yh /\ twoDigits y3 y4 = Some yl
    /\ twoDigits m1 m2 = Some m /\ twoDigits d1 d2 = Some d
    /\ 1 <= m <= 12
    /\ 1 <= d <= daysInMonth (m - 1) (if isLeap (100 * yh + yl) then 1 else 0)
    /\ t = MakeDate (MakeDay (100 * yh + yl) (m - 1) d) 0.
Proof.
  intros H.
  destruct s as [|y1 [|y2 [|y3 [|y4 [|h1 s]]]]]; try discriminate H.
  destruct h1 as [[] [] [] [] [] [] [] []]; try discriminate H.
  destruct s as [|m1 [|m2 [|h2 s]]]; try discriminate H.
  destruct h2 as [[] [] [] [] [] [] [] []]; try discriminate H.
  destruct s as [|d1 [|d2 [|x s]]]; try discriminate H.
  unfold parseDateOnly in H.
  destruct (twoDigits y1 y2) as [yh|] eqn:Hyh; [|discriminate H].
  destruct (twoDigits y3 y4) as [yl|] eqn:Hyl; [|discriminate H].
  destruct (twoDigits m1 m2) as [m|] eqn:Hm; [|discriminate H].
  destruct (twoDigits d1 d2) as [d|] eqn:Hd; [|discriminate H].
  cbv zeta in H.
  destruct (Z.leb_spec 1 m); [|discriminate H].
  destruct (Z.leb_spec m 12); [|discriminate H].
  destruct (Z.leb_spec 1 d); [|discriminate H].
  destruct (Z.leb_spec d (daysInMonth (m - 1)
                            (if isLeap (100 * yh + yl) then 1 else 0)));
    [|discriminate H].
  cbn [andb] in H. injection H as <-.
  exists y1, y2, y3, y4, m1, m2, d1, d2, yh, yl, m, d.
  repeat split; auto.
Qed.

(** The calendar date printed for the time value of a date-only string is
    that string. *)
Lemma calendarText_parseDateOnly s t :
  parseDateOnly s = Some t -> calendarText t = s.
Proof.
  intros H. apply parseDateOnly_shape in H.
  destruct H as (y1 & y2 & y3 & y4 & m1 & m2 & d1 & d2 & yh & yl & m & d
                 & -> & Hyh & Hyl & Hm & Hd & Hmr & Hdr & ->).
  apply twoDigits_inv in Hyh, Hyl, Hm, Hd.
  destruct Hyh as (a & b & Ha & Hb & -> & <- & <-).
  destruct Hyl as (c & e & Hc & He & -> & <- & <-).
  destruct Hm as (ma & mb & Hma & Hmb & -> & <- & <-).
  destruct Hd as (da & db & Hda & Hdb & -> & <- & <-).
  set (y := 100 * (10 * a + b) + (10 * c + e)) in *.
  assert (Hday : Day (MakeDate (MakeDay y (10 * ma + mb - 1) (10 * da + db)) 0)
                 = MakeDay y (10 * ma + mb - 1) (10 * da + db))
    by (apply Day_MakeDate; unfold msPerDay; lia).
  assert (Hmonth : 0 <= 10 * ma + mb - 1 <= 11) by lia.
  destruct (fields_of_MakeDay _ _ _ _ Hmonth Hdr Hday) as (Hy & Hmo & Hdt).
  unfold calendarText. rewrite Hy, Hmo, Hdt.
  unfold yearString.
  replace ((0 <=? y) && (y <=? 9999)) with true
    by (symmetry; apply andb_true_iff; split; apply Z.leb_le; unfold y; lia).
  pose proof (daysInMonth_range (10 * ma + mb - 1) (if isLeap y then 1 else 0)
                Hmonth ltac:(destruct (isLeap y); lia)) as Hlen.
  rewrite ToZeroPaddedDecimalString_four by (unfold y; lia).
  rewrite !ToZeroPaddedDecimalString_two by lia.
  replace (y / 1000) with a by (unfold y; Z.div_mod_to_equations; lia).
  replace (y / 100 mod 10) with b by (unfold y; Z.div_mod_to_equations; lia).
  replace (y / 10 mod 10) with c by (unfold y; Z.div_mod_to_equations; lia).
  replace (y mod 10) with e by (unfold y; Z.div_mod_to_equations; lia).
  replace ((10 * ma + mb - 1 + 1) / 10) with ma by (Z.div_mod_to_equations; lia).
  replace ((10 * ma + mb - 1 + 1) mod 10) with mb by (Z.div_mod_to_equations; lia).
  replace ((10 * da + db) / 10) with da by (Z.div_mod_to_equations; lia).
  replace ((10 * da + db) mod 10) with db by (Z.div_mod_to_equations; lia).
  reflexivity.
Qed.

(** A date-only string denotes a calendar date. *)
Lemma parseDateOnly_calendarDate s t : parseDateOnly s = Some t -> calendarDate t.
Proof.
  intros H. apply parseDateOnly_shape in H.
  destruct H as (y1 & y2 & y3 & y4 & m1 & m2 & d1 & d2 & yh & yl & m & d
                 & _ & Hyh & Hyl & _ & _ & Hmr & Hdr & ->).
  apply twoDigits_inv in Hyh, Hyl.
  destruct Hyh as (a & b & Ha & Hb & -> & _). destruct Hyl as (c & e & Hc & He & -> & _).
  assert (H0 : 0 <= 0 < msPerDay) by (unfold msPerDay; lia).
  split; [apply TimeWithinDay_MakeDate, H0|].
  assert (Hmonth : 0 <= m - 1 <= 11) by lia.
  destruct (fields_of_MakeDay _ _ _ _ Hmonth Hdr (Day_MakeDate _ 0 H0)) as (-> & _).
  lia.
Qed.

(** X18. The first record starts on the join date as it was written: when the
    join date is a date-only string [YYYY-MM-DD] that the host reads as
    such, on or after the start of the course, and no existing payment is
    one of the student for the course, the [periodStart] of the first
    record is that very string. *)
Theorem first_record_keeps_join_string randomUUID studentId course joinDateStr
        existingPayments s j out :
  newDate (Course.startDate course) = Some s ->
  parseDateOnly joinDateStr = Some j ->
  Date_parse joinDateStr = Some j ->
  s <= j ->
  forallb (fun p => negb (ofPair studentId course p)) existingPayments = true ->
  generatePaymentsForEnrollment randomUUID studentId course joinDateStr
                                existingPayments = Returns out ->
  exists first rest,
    out = first :: rest /\ Payment.periodStart first = joinDateStr.
Proof.
  intros Hs Hparse Hhost Hsj Hnone H.
  pose proof (parseDateOnly_calendarDate _ _ Hparse) as [_ Hy].
  apply calendarDate_range in Hy.
  assert (Hj : newDate joinDateStr = Some j).
  { unfold newDate, TimeClip. rewrite Hhost.
    destruct (Z.leb_spec (Z.abs j) maxTime); [reflexivity | unfold maxTime in *; lia]. }
  assert (Hhi : j + 368 * msPerDay <= maxTime) by (unfold maxTime, msPerDay; lia).
  destruct (cycleStartOf_bracket course joinDateStr s j Hs Hj Hsj Hhi)
    as (c & e & Hc & _ & _ & Heff).
  apply generate_returns in H. destruct H as [_ ->].
  rewrite (unsuppressed_no_own _ _ _ _ _ Hnone).
  unfold horizon. rewrite Hc, Hj.
  destruct (periodsToGenerate_pos (Course.period course)) as [n ->].
  cbn [cycles number]. eexists. eexists. split; [reflexivity|].
  cbn [candidate Payment.periodStart snd]. rewrite Heff, dateText_calendarText.
  apply calendarText_parseDateOnly, Hparse.
Qed.

(** ** The callers of the generator *)

Lemma findCourse_Some data courseId course :
  findCourse data courseId = Some course ->
  In course (AppData.courses data) /\ Course.id course = courseId.
Proof.
  unfold findCourse. intros H. apply find_some in H.
  destruct H as [Hin Hid]. apply String.eqb_eq in Hid. auto.
Qed.

(** X19. The request that [handleEnrollStudent] posts names the student, the
    course and the join date it was called with, and every payment of the
    request is a pending payment of that student for that course: the
    generator's output for the first course of the data with that
    identifier. *)
Theorem enroll_request_consistent randomUUID data studentId courseId joinDate req :
  handleEnrollStudent randomUUID data studentId courseId joinDate
  = Returns (Some req) ->
  EnrollRequest.studentId req = studentId
  /\ EnrollRequest.courseId req = courseId
  /\ EnrollRequest.joinDate req = joinDate
  /\ (exists course,
        findCourse data courseId = Some course
        /\ In course (AppData.courses data)
        /\ generatePaymentsForEnrollment randomUUID studentId course joinDate
                                         (AppData.payments data)
           = Returns (EnrollRequest.payments req))
  /\ Forall (fun p => Payment.studentId p = studentId
                      /\ Payment.courseId p = courseId
                      /\ Payment.status p = pending)
            (EnrollRequest.payments req).
Proof.
  unfold handleEnrollStudent.
  destruct (findCourse data courseId) as [course|] eqn:Hfind; [|discriminate].
  destruct (findCourse_Some _ _ _ Hfind) as [Hin Hid].
  destruct (generatePaymentsForEnrollment _ _ _ _ _) as [out|] eqn:Hgen;
    [|discriminate].
  cbn [bind]. intros H. injection H as <-. cbn.
  repeat split; try reflexivity.
  - exists course. auto.
  - apply Forall_forall. intros p Hp.
    destruct (generate_fields _ _ _ _ _ _ _ Hgen Hp) as (Hs & Hc & Hst & _).
    rewrite Hs, Hc, Hid, Hst. auto.
Qed.

(** X20. No request is posted for a course that the data does not hold:
    [handleEnrollStudent] and [handleTransferStudent] return before the
    generator is called when no course has the identifier, and only then. *)
Theorem unknown_course_posts_nothing randomUUID data studentId courseId
        oldCourseId date :
  ((forall c, In c (AppData.courses data) -> Course.id c <> courseId)
   <-> handleEnrollStudent randomUUID data studentId courseId date = Returns None)
  /\ ((forall c, In c (AppData.courses data) -> Course.id c <> courseId)
      <-> handleTransferStudent randomUUID data studentId oldCourseId courseId date
          = Returns None).
Proof.
  assert (Hnone : (forall c, In c (AppData.courses data) -> Course.id c <> courseId)
                  <-> findCourse data courseId = None).
  { split.
    - intros H. destruct (findCourse data courseId) as [course|] eqn:Hfind;
        [|reflexivity].
      destruct (findCourse_Some _ _ _ Hfind) as [Hin Hid].
      exfalso. exact (H course Hin Hid).
    - intros Hfind c Hc Hid. unfold findCourse in Hfind.
      apply (find_none _ _ Hfind) in Hc. rewrite Hid, String.eqb_refl in Hc.
      discriminate. }
  unfold handleEnrollStudent, handleTransferStudent. rewrite Hnone.
  destruct (findCourse data courseId) as [course|].
  - split; (split; [discriminate|]);
      destruct (generatePaymentsForEnrollment _ _ _ _ _); discriminate.
  - split; split; reflexivity.
Qed.

Lemma filter_ofPair_keep studentId course (keep : Payment.t -> bool) ps :
  (forall p, Payment.courseId p = Course.id course -> keep p = true) ->
  filter (ofPair studentId course) (filter keep ps)
  = filter (ofPair studentId course) ps.
Proof.
  intros Hkeep. induction ps as [|p ps IH]; simpl; [reflexivity|].
  destruct (keep p) eqn:Hk; simpl; [rewrite IH; reflexivity|].
  destruct (ofPair studentId course p) eqn:Hp; [|exact IH].
  unfold ofPair in Hp. apply andb_true_iff in Hp. destruct Hp as [_ Hc].
  apply String.eqb_eq in Hc. rewrite (Hkeep p Hc) in Hk. discriminate.
Qed.

(** X21. A transfer reads the payments of the new course only: removing from
    the data any payments of other courses, as the server removes the
    pending payments of the old course, leaves the request of
    [handleTransferStudent] unchanged. *)
Theorem transfer_reads_new_course_only randomUUID data studentId oldCourseId
        newCourseId transferDate (keep : Payment.t -> bool) :
  (forall p, Payment.courseId p = newCourseId -> keep p = true) ->
  handleTransferStudent randomUUID
    (withPayments data (filter keep (AppData.payments data)))
    studentId oldCourseId newCourseId transferDate
  = handleTransferStudent randomUUID data studentId oldCourseId newCourseId
                          transferDate.
Proof.
  intros Hkeep. unfold handleTransferStudent, findCourse.
  cbn [withPayments AppData.courses AppData.payments].
  fold (findCourse data newCourseId).
  destruct (findCourse data newCourseId) as [course|] eqn:Hfind; [|reflexivity].
  destruct (findCourse_Some _ _ _ Hfind) as [_ Hid].
  rewrite (generate_filter_ofPair _ _ _ _ (filter keep _)).
  rewrite filter_ofPair_keep by (intros p Hp; apply Hkeep; congruence).
  rewrite <- generate_filter_ofPair. reflexivity.
Qed.

(** ** The payment rows of the server *)

(** X22. What enrolling creates, unenrolling deletes: the row that the
    server builds for any payment of the generator's output matches the
    [where] clause with which [/api/unenroll] deletes the payments of the
    student for the course. *)
Theorem generated_rows_match_unenroll randomUUID studentId course joinDateStr
        existingPayments out :
  generatePaymentsForEnrollment randomUUID studentId course joinDateStr
                                existingPayments = Returns out ->
  Forall (fun p => pendingOfPair studentId (Course.id course) (paymentRow p) = true)
         out.
Proof.
  intros H. apply Forall_forall. intros p Hp.
  destruct (generate_fields _ _ _ _ _ _ _ H Hp) as (Hs & Hc & Hst & _).
  unfold pendingOfPair, paymentRow.
  cbn [PaymentRow.studentId PaymentRow.courseId PaymentRow.status].
  rewrite Hs, Hc, Hst, !String.eqb_refl. reflexivity.
Qed.

(** ** The status of a payment *)

Lemma toISOString_truthy t s :
  Z.abs t <= maxTime -> toISOString (Some t) = Returns s -> truthy (Some s) = true.
Proof.
  intros Ht H. destruct (dateText_shape t Ht) as (c & rest & Hc & _).
  rewrite dateText_calendarText in Hc.
  unfold toISOString in H. injection H as <-. rewrite Hc. reflexivity.
Qed.

(** X23. The paid date follows the status: after the update that
    [handleUpdatePaymentStatus] requests, the row has the new status, and
    it has a paid date exactly when that status is ['paid']; marking a
    payment as waived, pending or overdue clears its paid date. *)
Theorem paid_date_follows_status now status row :
  Z.abs now <= maxTime ->
  exists body,
    handleUpdatePaymentStatus (Some now) status = Returns body
    /\ PaymentRow.status (updatePayment row (fst body) (snd body)) = status
    /\ (PaymentRow.paidDate (updatePayment row (fst body) (snd body)) <> None
        <-> status = paid).
Proof.
  intros Hnow. unfold handleUpdatePaymentStatus.
  destruct (toISOString (Some now)) as [s|] eqn:Hs; [|discriminate Hs].
  pose proof (toISOString_truthy now s Hnow Hs) as Ht.
  destruct status; cbn [PaymentStatus_eqb bind]; eexists;
    (split; [reflexivity|]); unfold updatePayment;
    cbn [fst snd PaymentRow.status PaymentRow.paidDate];
    (split; [reflexivity|]).
  - split; [intros H; exfalso; apply H; reflexivity | discriminate].
  - rewrite Ht. split; [reflexivity | discriminate].
  - split; [intros H; exfalso; apply H; reflexivity | discriminate].
  - split; [intros H; exfalso; apply H; reflexivity | discriminate].
Qed.

(** ** The payments view *)

Lemma countsAsOverdue_badge now p :
  countsAsOverdue now p = PaymentStatus_eqb (getDisplayStatus now p) overdue.
Proof.
  unfold countsAsOverdue, getDisplayStatus.
  destruct (Payment.status p), (date_ltb (newDate (Payment.dueDate p)) now);
    reflexivity.
Qed.

Lemma PaymentStatus_eqb_eq a b : PaymentStatus_eqb a b = true <-> a = b.
Proof. destruct a, b; simpl; split; intros E; try reflexivity; discriminate E. Qed.

(** X24. The badge and the total agree on the rows of the table: the overdue
    total of the payments view is the sum, in the order of the rows, of the
    amounts of the payments of the table (the payments that the filters of
    the view keep) whose badge shows them as overdue, and of no payment
    that the filters leave out; and the overdue payments of a student in
    the export are the payments of that student, among all the payments,
    that would have that badge. *)
Theorem overdue_badge_and_totals now filteredPayments payments (s : Student.t) :
  totalOverdue now filteredPayments
  = fold_left (fun acc curr => PrimFloat.add acc (Payment.amount curr))
      (filter (fun p => PaymentStatus_eqb (getDisplayStatus now p) overdue)
              filteredPayments)
      0%float
  /\ (forall p, In p (filter (countsAsOverdue now) filteredPayments)
                <-> In p filteredPayments /\ getDisplayStatus now p = overdue)
  /\ (forall p, In p (overduePayments now payments s)
                <-> In p payments
                    /\ Payment.studentId p = Student.id s
                    /\ getDisplayStatus now p = overdue).
Proof.
  split; [|split].
  - unfold totalOverdue.
    rewrite (filter_ext _ _ (countsAsOverdue_badge now)). reflexivity.
  - intros p. rewrite filter_In, countsAsOverdue_badge, PaymentStatus_eqb_eq.
    reflexivity.
  - intros p. unfold overduePayments. rewrite filter_In.
    change (overdueOf now s p)
      with (String.eqb (Payment.studentId p) (Student.id s)
            && countsAsOverdue now p).
    rewrite andb_true_iff, String.eqb_eq, countsAsOverdue_badge,
      PaymentStatus_eqb_eq.
    reflexivity.
Qed.

(** X25. A payment of the generator's output shows as pending until its
    period has ended: its badge is overdue when the end of its period is
    before the time of the call, and pending otherwise. *)
Theorem generated_badge randomUUID studentId course joinDateStr existingPayments
        out now :
  generatePaymentsForEnrollment randomUUID studentId course joinDateStr
                                existingPayments = Returns out ->
  Forall (fun p => getDisplayStatus now p
                   = if date_ltb (newDate (Payment.periodEnd p)) now
                     then overdue else pending) out.
Proof.
  intros H. apply Forall_forall. intros p Hp.
  destruct (generate_fields _ _ _ _ _ _ _ H Hp) as (_ & _ & Hst & Hdue).
  unfold getDisplayStatus. rewrite Hst, Hdue. reflexivity.
Qed.

(** ** The courses view *)

(** X26. The students of a course and the students that can be enrolled in
    it: every student is in exactly one of the two lists, which keep the
    order of the students, and no student offered for enrolment has an
    enrolment in the course. *)
Theorem enrolled_or_available students courseId :
  (forall s, In s students ->
     (In s (getEnrolledStudents students courseId)
      /\ ~ In s (getAvailableStudents students courseId))
     \/ (~ In s (getEnrolledStudents students courseId)
         /\ In s (getAvailableStudents students courseId)))
  /\ (List.length (getEnrolledStudents students courseId)
      + List.length (getAvailableStudents students courseId)
      = List.length students)%nat
  /\ (forall s e, In s (getAvailableStudents students courseId) ->
        In e (Student.enrollments s) -> Enrollment.courseId e <> courseId).
Proof.
  unfold getEnrolledStudents, getAvailableStudents. split; [|split].
  - intros s Hs. destruct (enrolledIn courseId s) eqn:He; [left | right];
      rewrite !filter_In, He; simpl; split; auto; intros [_ E]; discriminate E.
  - induction students as [|s l IH]; simpl; [reflexivity|].
    destruct (enrolledIn courseId s); simpl; lia.
  - intros s e Hs He Hid. apply filter_In in Hs. destruct Hs as [_ Hs].
    apply negb_true_iff in Hs. unfold enrolledIn in Hs.
    assert (Hex : existsb (fun e => String.eqb (Enrollment.courseId e) courseId)
                          (Student.enrollments s) = true).
    { apply existsb_exists. exists e. split; [exact He|].
      rewrite Hid. apply String.eqb_refl. }
    rewrite Hex in Hs. discriminate.
Qed.

(** X27. A click on a day toggles it: after [handleDayToggle] the day is
    among the schedule days exactly when it was not before, the other days
    are as they were, and days that were listed once still are. *)
Theorem toggle_day scheduleDays day :
  let before := match scheduleDays with Some l => l | None => [] end in
  let after := handleDayToggle scheduleDays day in
  (In day after <-> ~ In day before)
  /\ (forall d, d <> day -> (In d after <-> In d before))
  /\ (NoDup before -> NoDup after).
Proof.
  intros before after. unfold after, handleDayToggle. fold before.
  assert (Hin : existsb (String.eqb day) before = true <-> In day before).
  { rewrite existsb_exists. split.
    - intros (x & Hx & E). apply String.eqb_eq in E. subst x. exact Hx.
    - intros H. exists day. split; [exact H | apply String.eqb_refl]. }
  destruct (existsb (String.eqb day) before) eqn:Hex.
  - assert (Hday : In day before) by (apply Hin; reflexivity).
    split; [|split].
    + rewrite filter_In, String.eqb_refl. simpl. split; [intros [_ E]; discriminate E|].
      intros H. exfalso. exact (H Hday).
    + intros d Hd. rewrite filter_In. split; [intros [H _]; exact H|].
      intros H. split; [exact H|]. apply negb_true_iff, String.eqb_neq, Hd.
    + intros Hnd. apply NoDup_filter, Hnd.
  - assert (Hday : ~ In day before).
    { intros H. apply Hin in H. discriminate H. }
    split; [|split].
    + rewrite in_app_iff. simpl. split; [intros _; exact Hday | auto].
    + intros d Hd. rewrite in_app_iff. simpl. split; [|auto].
      intros [H | [H | []]]; [exact H | congruence].
    + intros Hnd. apply NoDup_app; [exact Hnd | repeat constructor; intros [] |].
      intros x Hx [<- | []]. exact (Hday Hx).
Qed.

End Properties.

(** * Hosts without daylight saving time

    On a host whose offset from UTC never changes, a local time that is
    read back is the local time that was asked for, and the date helpers
    move time values by whole days. *)

Lemma YearFromTime_Day a b : Day a = Day b -> YearFromTime a = YearFromTime b.
Proof. unfold YearFromTime. intros ->. reflexivity. Qed.

Lemma MonthFromTime_Day a b : Day a = Day b -> MonthFromTime a = MonthFromTime b.
Proof.
  intros H. unfold MonthFromTime, DayWithinYear, InLeapYear.
  rewrite H, (YearFromTime_Day a b H). reflexivity.
Qed.

Lemma DateFromTime_Day a b : Day a = Day b -> DateFromTime a = DateFromTime b.
Proof.
  intros H. unfold DateFromTime, DayWithinYear, InLeapYear.
  rewrite H, (YearFromTime_Day a b H), (MonthFromTime_Day a b H). reflexivity.
Qed.

Lemma midnight_Day_lt a b :
  TimeWithinDay a = 0 -> TimeWithinDay b = 0 -> a < b -> Day a < Day b.
Proof.
  intros Ha Hb Hlt.
  pose proof (Day_TimeWithinDay a). pose proof (Day_TimeWithinDay b).
  unfold msPerDay in *. lia.
Qed.

Lemma inUTC_fixed (host : Host) : fixedOffset (inUTC host) 0.
Proof. intros t isUTC. reflexivity. Qed.

Section FixedOffset.

Context {host : Host}.
Variable z : Z.
Hypothesis fixed : fixedOffset host z.

Lemma LocalTime_fixed t : LocalTime t = t + z.
Proof using fixed. unfold LocalTime. rewrite (fixed t true). reflexivity. Qed.

Lemma UTC_fixed t : UTC t = t - z.
Proof using fixed. unfold UTC. rewrite (fixed t false). reflexivity. Qed.

Lemma LocalTime_UTC t : LocalTime (UTC t) = t.
Proof using fixed. rewrite LocalTime_fixed, UTC_fixed. lia. Qed.

Lemma UTC_LocalTime_fixed u k :
  UTC (LocalTime u + k * msPerDay) = u + k * msPerDay.
Proof using fixed. rewrite UTC_fixed, LocalTime_fixed. lia. Qed.

Lemma addDays_fixed u k : addDays (Some u) k = TimeClip (u + k * msPerDay).
Proof using fixed. rewrite addDays_Some, UTC_LocalTime_fixed. reflexivity. Qed.

(** Every period is a whole number of days, from 7 to 366. *)
Lemma nextPeriod_fixed period u v :
  nextPeriod period (Some u) = Some v ->
  exists k, 7 <= k <= 366 /\ v = u + k * msPerDay.
Proof using fixed.
  destruct (nextPeriod_TimeClip period u) as (k & Hk & ->).
  rewrite UTC_LocalTime_fixed. intros H. apply TimeClip_Some in H.
  exists k. split; [exact Hk | apply H].
Qed.

Lemma nextPeriod_atMidnight period d :
  atMidnight d -> atMidnight (nextPeriod period d).
Proof using fixed.
  destruct (nextPeriod period d) as [v|] eqn:Hv; [|intros _; exact I].
  destruct (nextPeriod_valid _ _ _ Hv) as [u ->]. simpl. intros Hu.
  apply nextPeriod_fixed in Hv. destruct Hv as (k & _ & ->).
  rewrite TimeWithinDay_add. exact Hu.
Qed.

Lemma alignLoop_atMidnight period joinDate fuel : forall cycleStart,
  atMidnight cycleStart -> atMidnight (alignLoop fuel period joinDate cycleStart).
Proof using fixed.
  induction fuel as [|fuel IH]; intros cs Hcs; simpl; [exact Hcs|].
  destruct (date_leb cs joinDate); [|exact Hcs].
  destruct (date_gtb _ _); [exact Hcs|].
  apply IH, nextPeriod_atMidnight, Hcs.
Qed.

Lemma cycles_atMidnight course n : forall i cps c,
  atMidnight cps -> In c (cycles course n i cps) ->
  atMidnight (snd c) /\ atMidnight (periodEndOf course (snd c)).
Proof using fixed.
  induction n as [|n IH]; intros i cps c Hcps; simpl; [intros []|].
  intros [<- | Hin].
  - split; [exact Hcps | apply nextPeriod_atMidnight, Hcps].
  - eapply IH; [|exact Hin]. apply nextPeriod_atMidnight, Hcps.
Qed.

(** One month after a local date on one of the first 28 days of a month. *)
Lemma addMonths_one_fields u r :
  addMonths (Some u) 1 = Some r ->
  DateFromTime (LocalTime u) <= 28 ->
  YearFromTime (LocalTime r)
  = YearFromTime (LocalTime u) + (MonthFromTime (LocalTime u) + 1) / 12
  /\ MonthFromTime (LocalTime r) = (MonthFromTime (LocalTime u) + 1) mod 12
  /\ DateFromTime (LocalTime r) = DateFromTime (LocalTime u)
  /\ TimeWithinDay (LocalTime r) = TimeWithinDay (LocalTime u).
Proof using fixed.
  intros H Hd. rewrite addMonths_unfold in H.
  apply TimeClip_Some in H. destruct H as [-> _]. rewrite LocalTime_UTC.
  pose proof (monthsLater_fields (LocalTime u) 1) as F. cbv zeta in F.
  destruct F as [Htime F]. revert F.
  assert (Hm : 0 <= (MonthFromTime (LocalTime u) + 1) mod 12 <= 11)
    by (Z.div_mod_to_equations; lia).
  match goal with
  | |- context [daysInMonth ?m ?l] =>
      pose proof (daysInMonth_range m l Hm) as Hlen;
      assert (Hl : 0 <= l <= 1) by (destruct (isLeap _); lia);
      specialize (Hlen Hl);
      destruct (Z.leb_spec (DateFromTime (LocalTime u)) (daysInMonth m l)); [|lia]
  end.
  intros (Hy & Hmo & Hda). auto.
Qed.

(** One year after a local date other than the 29th of February. *)
Lemma addYears_one_fields u r :
  addYears (Some u) 1 = Some r ->
  ~ (MonthFromTime (LocalTime u) = 1 /\ DateFromTime (LocalTime u) = 29) ->
  YearFromTime (LocalTime r) = YearFromTime (LocalTime u) + 1
  /\ MonthFromTime (LocalTime r) = MonthFromTime (LocalTime u)
  /\ DateFromTime (LocalTime r) = DateFromTime (LocalTime u)
  /\ TimeWithinDay (LocalTime r) = TimeWithinDay (LocalTime u).
Proof using fixed.
  intros H Hfeb. rewrite addYears_unfold in H.
  apply TimeClip_Some in H. destruct H as [-> _]. rewrite LocalTime_UTC.
  pose proof (yearsLater_fields (LocalTime u) 1) as F. cbv zeta in F.
  destruct F as (Htime & Hy & F). revert F.
  replace ((MonthFromTime (LocalTime u) =? 1) && (DateFromTime (LocalTime u) =? 29))
    with false.
  - cbn [andb]. intros (Hmo & Hda). auto.
  - symmetry. apply andb_false_iff.
    destruct (Z.eqb_spec (MonthFromTime (LocalTime u)) 1);
      destruct (Z.eqb_spec (DateFromTime (LocalTime u)) 29); auto.
    exfalso. apply Hfeb. auto.
Qed.

(** The start of the course advanced by [k] periods, in closed form. *)
Lemma advanced_fixed course s k v :
  newDate (Course.startDate course) = Some s ->
  advanced course k = Some v ->
  (Course.period course = "weekly" -> v = s + 7 * Z.of_nat k * msPerDay)
  /\ (Course.period course = "monthly" ->
      DateFromTime (LocalTime s) <= 28 ->
      let months := MonthFromTime (LocalTime s) + Z.of_nat k in
      getFullYear (Some v) = Some (YearFromTime (LocalTime s) + months / 12)
      /\ getMonth (Some v) = Some (months mod 12)
      /\ getDate (Some v) = getDate (Some s)
      /\ TimeWithinDay (LocalTime v) = TimeWithinDay (LocalTime s))
  /\ (Course.period course <> "weekly" -> Course.period course <> "monthly" ->
      ~ (MonthFromTime (LocalTime s) = 1 /\ DateFromTime (LocalTime s) = 29) ->
      getFullYear (Some v) = Some (YearFromTime (LocalTime s) + Z.of_nat k)
      /\ getMonth (Some v) = getMonth (Some s)
      /\ getDate (Some v) = getDate (Some s)
      /\ TimeWithinDay (LocalTime v) = TimeWithinDay (LocalTime s)).
Proof using fixed.
  intros Hs. unfold advanced. rewrite Hs. clear Hs.
  revert v. induction k as [|k IH]; intros v Hv.
  - simpl in Hv. injection Hv as <-. split; [intros _; lia|]. split.
    + intros _ _. cbv zeta. unfold getFullYear, getMonth, getDate, option_map.
      pose proof (MonthFromTime_range (LocalTime s)) as Hm.
      change (Z.of_nat 0) with 0.
      rewrite Z.add_0_r, Z.div_small, Z.mod_small, Z.add_0_r by lia. auto.
    + intros _ _ _. unfold getFullYear, option_map. change (Z.of_nat 0) with 0.
      rewrite Z.add_0_r. auto.
  - rewrite Nat.iter_succ in Hv.
    destruct (nextPeriod_valid _ _ _ Hv) as [u Hu]. rewrite Hu in Hv.
    destruct (IH u Hu) as (IHw & IHm & IHy). split; [|split].
    + intros Hw. rewrite Hw in Hv. rewrite nextPeriod_weekly, addDays_fixed in Hv.
      apply TimeClip_Some in Hv. destruct Hv as [-> _].
      rewrite (IHw Hw), Nat2Z.inj_succ. lia.
    + intros Hmo Hd. rewrite Hmo in Hv. rewrite nextPeriod_monthly in Hv.
      specialize (IHm Hmo Hd). cbv zeta in IHm |- *.
      unfold getFullYear, getMonth, getDate, option_map in IHm |- *.
      destruct IHm as (Hy & Hmonth & Hdate & Htime).
      injection Hy as Hy. injection Hmonth as Hmonth. injection Hdate as Hdate.
      assert (Hdu : DateFromTime (LocalTime u) <= 28) by lia.
      destruct (addMonths_one_fields u v Hv Hdu) as (-> & -> & -> & ->).
      rewrite Hy, Hmonth, Hdate, Htime. rewrite Nat2Z.inj_succ.
      set (m := MonthFromTime (LocalTime s)). set (n := Z.of_nat k).
      repeat split; f_equal; Z.div_mod_to_equations; lia.
    + intros Hw Hmo Hfeb. rewrite (nextPeriod_fallback _ _ Hw Hmo) in Hv.
      specialize (IHy Hw Hmo Hfeb).
      unfold getFullYear, getMonth, getDate, option_map in IHy |- *.
      destruct IHy as (Hy & Hmonth & Hdate & Htime).
      injection Hy as Hy. injection Hmonth as Hmonth. injection Hdate as Hdate.
      assert (Hfu : ~ (MonthFromTime (LocalTime u) = 1
                       /\ DateFromTime (LocalTime u) = 29))
        by (rewrite Hmonth, Hdate; exact Hfeb).
      destruct (addYears_one_fields u v Hv Hfu) as (-> & -> & -> & ->).
      rewrite Hy, Hmonth, Hdate, Htime, Nat2Z.inj_succ.
      repeat split; f_equal; lia.
Qed.

(** For a start date and a join date at midnight UTC, every record of the
    output ends on a later day than it starts. *)
Lemma periods_nonempty_fixed randomUUID studentId course joinDateStr
      existingPayments out r :
  atMidnight (newDate (Course.startDate course)) ->
  atMidnight (newDate joinDateStr) ->
  generatePaymentsForEnrollment randomUUID studentId course joinDateStr
                                existingPayments = Returns out ->
  In r out ->
  exists a b, Payment.periodStart r = dateText (Some a)
              /\ Payment.periodEnd r = dateText (Some b)
              /\ Day a < Day b.
Proof using fixed.
  intros Hs Hj H Hr.
  destruct (record_cycle _ _ _ _ _ _ _ H Hr)
    as (c & a & b & Hc & Ea & Eb & Ha & Hb & Hlt).
  assert (Hmid : atMidnight (snd c) /\ atMidnight (periodEndOf course (snd c))).
  { unfold horizon in Hc. eapply cycles_atMidnight; [|exact Hc].
    unfold cycleStartOf. apply alignLoop_atMidnight, Hs. }
  destruct Hmid as [Hc0 He0].
  exists a, b. split; [exact Ha|]. split; [exact Hb|].
  apply midnight_Day_lt; [| |exact Hlt].
  - unfold effectiveStartOf in Ea.
    destruct (date_ltb (snd c) (newDate joinDateStr)).
    + rewrite Ea in Hj. exact Hj.
    + rewrite Ea in Hc0. exact Hc0.
  - rewrite Eb in He0. exact He0.
Qed.

End FixedOffset.

(** X17. The boundaries of the cycles in closed form, on a host without
    daylight saving time (its offset from UTC is the same at every
    instant).  The start of the course advanced by [k] periods is, for a
    weekly course, [7 * k] days later; for a monthly course that starts on
    one of the first 28 days of a month, it is the same day of the month
    and the same time of day, [k] months later, in the local time of the
    host; and for a yearly course (or one of any other period) that does
    not start on a 29th of February, the same day of the same month, [k]
    years later. *)
Theorem cycle_boundaries (host : Host) z course s k v :
  fixedOffset host z ->
  newDate (Course.startDate course) = Some s ->
  advanced course k = Some v ->
  (Course.period course = "weekly" -> v = s + 7 * Z.of_nat k * msPerDay)
  /\ (Course.period course = "monthly" ->
      DateFromTime (LocalTime s) <= 28 ->
      let months := MonthFromTime (LocalTime s) + Z.of_nat k in
      getFullYear (Some v) = Some (YearFromTime (LocalTime s) + months / 12)
      /\ getMonth (Some v) = Some (months mod 12)
      /\ getDate (Some v) = getDate (Some s)
      /\ TimeWithinDay (LocalTime v) = TimeWithinDay (LocalTime s))
  /\ (Course.period course <> "weekly" -> Course.period course <> "monthly" ->
      ~ (MonthFromTime (LocalTime s) = 1 /\ DateFromTime (LocalTime s) = 29) ->
      getFullYear (Some v) = Some (YearFromTime (LocalTime s) + Z.of_nat k)
      /\ getMonth (Some v) = getMonth (Some s)
      /\ getDate (Some v) = getDate (Some s)
      /\ TimeWithinDay (LocalTime v) = TimeWithinDay (LocalTime s)).
Proof. intros Hfixed. apply (advanced_fixed z Hfixed). Qed.

(** ** Weekly courses

    On a host without daylight saving time [addDays] moves a date by whole
    days whatever the offset, so that the generator, which takes nothing
    else from the time zone, does the same for a weekly course on every
    such host. *)

Lemma alignLoop_host_ext (h1 h2 : Host) period joinDate :
  (forall d, nextPeriod (host := h1) period d = nextPeriod (host := h2) period d) ->
  forall fuel cycleStart,
    alignLoop (host := h1) fuel period joinDate cycleStart
    = alignLoop (host := h2) fuel period joinDate cycleStart.
Proof.
  intros Hnext. induction fuel as [|fuel IH]; intros cs; simpl; [reflexivity|].
  rewrite Hnext, IH. reflexivity.
Qed.

Lemma generateLoop_host_ext (h1 h2 : Host) randomUUID studentId course joinDate
      existingPayments :
  (forall d, nextPeriod (host := h1) (Course.period course) d
             = nextPeriod (host := h2) (Course.period course) d) ->
  forall n i cps acc,
    generateLoop (host := h1) randomUUID studentId course joinDate existingPayments
                 n i cps acc
    = generateLoop (host := h2) randomUUID studentId course joinDate
                   existingPayments n i cps acc.
Proof.
  intros Hnext. induction n as [|n IH]; intros i cps acc; simpl; [reflexivity|].
  rewrite Hnext.
  destruct (date_geb _ _); [apply IH|].
  destruct (some_existing _ _ _ _) as [[|]|]; simpl; [apply IH| |reflexivity].
  destruct (toISODate (if date_ltb cps joinDate then joinDate else cps));
    simpl; [|reflexivity].
  destruct (toISODate (nextPeriod _ _)); simpl; [apply IH | reflexivity].
Qed.

Lemma nextPeriod_weekly_host (h1 h2 : Host) z1 z2 d :
  fixedOffset h1 z1 -> fixedOffset h2 z2 ->
  nextPeriod (host := h1) "weekly" d = nextPeriod (host := h2) "weekly" d.
Proof.
  intros H1 H2. destruct d as [u|]; [|reflexivity].
  rewrite !nextPeriod_weekly, (addDays_fixed z1 H1), (addDays_fixed z2 H2).
  reflexivity.
Qed.

(** X28. A weekly course is billed alike on all hosts without daylight
    saving time: two hosts whose offsets from UTC never change, whatever
    these offsets are, and whose parsers read the start date and the join
    date alike, return the same payments for a weekly course. *)
Theorem weekly_any_fixed_offset (h1 h2 : Host) z1 z2 randomUUID studentId course
        joinDateStr existingPayments :
  fixedOffset h1 z1 -> fixedOffset h2 z2 ->
  Course.period course = "weekly" ->
  Date_parse (Host := h1) (Course.startDate course)
  = Date_parse (Host := h2) (Course.startDate course) ->
  Date_parse (Host := h1) joinDateStr = Date_parse (Host := h2) joinDateStr ->
  generatePaymentsForEnrollment (host := h1) randomUUID studentId course
                                joinDateStr existingPayments
  = generatePaymentsForEnrollment (host := h2) randomUUID studentId course
                                  joinDateStr existingPayments.
Proof.
  intros H1 H2 Hw Hs Hj.
  assert (Hnext : forall d, nextPeriod (host := h1) (Course.period course) d
                            = nextPeriod (host := h2) (Course.period course) d)
    by (intros d; rewrite Hw; exact (nextPeriod_weekly_host h1 h2 z1 z2 d H1 H2)).
  unfold generatePaymentsForEnrollment, newDate. rewrite Hs, Hj.
  rewrite (alignLoop_host_ext h1 h2 _ _ Hnext).
  apply generateLoop_host_ext, Hnext.
Qed.

(** ** Hosts at or east of UTC

    The source parses and prints dates in UTC and moves them in local time.
    For dates at midnight UTC, a fixed offset at or east of UTC (from 0 to
    less than a day) puts the local date on the same day, and the
    generator does what it does on a host in UTC. *)

Section East.

Context {host : Host}.
Variable z : Z.
Hypothesis fixed : fixedOffset host z.
Hypothesis east : 0 <= z < msPerDay.

Lemma Day_east u : TimeWithinDay u = 0 -> Day (LocalTime u) = Day u.
Proof using fixed east.
  intros Hu. pose proof (Day_TimeWithinDay u) as H.
  rewrite (LocalTime_fixed z fixed).
  unfold Day, TimeWithinDay, msPerDay in *.
  Z.div_mod_to_equations; lia.
Qed.

Lemma TimeWithinDay_east u :
  TimeWithinDay u = 0 -> TimeWithinDay (LocalTime u) = z.
Proof using fixed east.
  intros Hu. pose proof (Day_TimeWithinDay u) as H.
  rewrite (LocalTime_fixed z fixed).
  unfold Day, TimeWithinDay, msPerDay in *.
  Z.div_mod_to_equations; lia.
Qed.

Lemma nextPeriod_east period d :
  atMidnight d -> nextPeriod period d = nextPeriod (host := inUTC host) period d.
Proof using fixed east.
  destruct d as [u|]; [|intros _; rewrite !nextPeriod_None; reflexivity].
  simpl. intros Hu.
  assert (H0 : LocalTime (host := inUTC host) u = u) by (unfold LocalTime; simpl; lia).
  pose proof (Day_east u Hu) as Hd.
  unfold nextPeriod, addDays, addMonths, addYears, setDate, setMonth, setFullYear,
    getDate, getMonth, getFullYear, plus, option_map.
  rewrite H0, (YearFromTime_Day _ _ Hd), (MonthFromTime_Day _ _ Hd),
    (DateFromTime_Day _ _ Hd), (TimeWithinDay_east u Hu), Hu.
  rewrite !(UTC_fixed z fixed), !(UTC_fixed (host := inUTC host) 0 (inUTC_fixed host)).
  unfold MakeDate.
  destruct (String.eqb period "weekly");
    [|destruct (String.eqb period "monthly")];
    f_equal; lia.
Qed.

Lemma alignLoop_east period joinDate fuel : forall cycleStart,
  atMidnight cycleStart ->
  alignLoop fuel period joinDate cycleStart
  = alignLoop (host := inUTC host) fuel period joinDate cycleStart
  /\ atMidnight (alignLoop (host := inUTC host) fuel period joinDate cycleStart).
Proof using fixed east.
  induction fuel as [|fuel IH]; intros cs Hcs; simpl; [auto|].
  rewrite (nextPeriod_east _ _ Hcs).
  destruct (date_leb cs joinDate); [|auto].
  destruct (date_gtb _ _); [auto|].
  apply IH, (nextPeriod_atMidnight (host := inUTC host) 0 (inUTC_fixed host)), Hcs.
Qed.

Lemma generateLoop_east randomUUID studentId course joinDate existingPayments n :
  forall i cps acc,
    atMidnight cps ->
    generateLoop randomUUID studentId course joinDate existingPayments n i cps acc
    = generateLoop (host := inUTC host) randomUUID studentId course joinDate
                   existingPayments n i cps acc.
Proof using fixed east.
  induction n as [|n IH]; intros i cps acc Hcps; simpl; [reflexivity|].
  rewrite (nextPeriod_east _ _ Hcps).
  pose proof (nextPeriod_atMidnight (host := inUTC host) 0 (inUTC_fixed host)
                (Course.period course) cps Hcps) as Hnext.
  destruct (date_geb _ _); [apply IH, Hnext|].
  destruct (some_existing _ _ _ _) as [[|]|]; simpl; [apply IH, Hnext| |reflexivity].
  destruct (toISODate (if date_ltb cps joinDate then joinDate else cps));
    simpl; [|reflexivity].
  destruct (toISODate (nextPeriod _ _)); simpl; [apply IH, Hnext|reflexivity].
Qed.

(** For a course start at midnight UTC, the generator on a host at a fixed
    offset at or east of UTC is the generator on a host in UTC. *)
Lemma generate_east randomUUID studentId course joinDateStr existingPayments :
  atMidnight (newDate (Course.startDate course)) ->
  generatePaymentsForEnrollment randomUUID studentId course joinDateStr
                                existingPayments
  = generatePaymentsForEnrollment (host := inUTC host) randomUUID studentId course
                                  joinDateStr existingPayments.
Proof using fixed east.
  intros Hs. unfold generatePaymentsForEnrollment.
  change (newDate (host := inUTC host)) with (newDate (host := host)).
  destruct (alignLoop_east (Course.period course) (newDate joinDateStr)
              (alignFuel (newDate joinDateStr) (newDate (Course.startDate course)))
              _ Hs) as [-> Hmid].
  apply generateLoop_east, Hmid.
Qed.

End East.

(** The scenario of the specification on a host at a fixed offset at or
    east of UTC: for a monthly course with fee 1000 that starts on
    2024-01-01 and a join date of 2024-01-16, with no existing payment, the
    first record runs from 2024-01-16 to 2024-02-01 with amount
    round (1000 * 16 / 31) = 516 and the second from 2024-02-01 to
    2024-03-01 with amount 1000. *)
Lemma proration_scenario_east (host : Host) z randomUUID studentId course :
  fixedOffset host z ->
  0 <= z < msPerDay ->
  Date_parse "2024-01-01" = parseDateOnly "2024-01-01" ->
  Date_parse "2024-01-16" = parseDateOnly "2024-01-16" ->
  Course.startDate course = "2024-01-01" ->
  Course.fee course = 1000%float ->
  Course.period course = "monthly" ->
  exists first second rest,
    generatePaymentsForEnrollment randomUUID studentId course "2024-01-16" []
    = Returns (first :: second :: rest)
    /\ Payment.periodStart first = "2024-01-16"
    /\ Payment.periodEnd first = "2024-02-01"
    /\ Payment.amount first = Math_round (1000 * (16 / 31))%float
    /\ Payment.amount first = 516%float
    /\ Payment.periodStart second = "2024-02-01"
    /\ Payment.periodEnd second = "2024-03-01"
    /\ Payment.amount second = 1000%float.
Proof.
  intros Hfixed Heast Hstart Hjoin Hcs Hfee Hperiod.
  rewrite (generate_east z Hfixed Heast)
    by (unfold newDate; rewrite Hcs, Hstart; vm_compute; reflexivity).
  unfold generatePaymentsForEnrollment, newDate.
  change (Date_parse (Host := inUTC host)) with (Date_parse (Host := host)).
  rewrite Hcs, Hstart, Hjoin.
  destruct course as [cid cname cstart cfee cperiod cdays ctime cnotes].
  simpl in Hcs, Hfee, Hperiod. subst cstart cfee cperiod.
  vm_compute.
  do 3 eexists. split; [reflexivity|]. repeat split.
Qed.
(** X30. East of UTC as in UTC, without daylight saving time: for a course
    whose start date is at midnight UTC, as a date written [YYYY-MM-DD]
    is, the generator on a host whose local time is ahead of UTC by a fixed
    offset of less than a day returns what it returns on the same host in
    UTC, for every period. *)
Theorem east_of_UTC_as_UTC (host : Host) z randomUUID studentId course joinDateStr
        existingPayments :
  fixedOffset host z ->
  0 <= z < msPerDay ->
  atMidnight (newDate (Course.startDate course)) ->
  generatePaymentsForEnrollment randomUUID studentId course joinDateStr
                                existingPayments
  = generatePaymentsForEnrollment (host := inUTC host) randomUUID studentId course
                                  joinDateStr existingPayments.
Proof. intros Hfixed Heast Hs. apply (generate_east z Hfixed Heast), Hs. Qed.

(** * The payments that the server returns

    The server stores the dates of a payment as [Date]s and returns them
    as ISO date-times.  The duplicate check, which compares the calendar
    date of a cycle with the beginning of the [periodStart] of an existing
    payment, finds in them the payments of an earlier call. *)

Lemma prefix_append (s r : string) : String.prefix s (String.append s r) = true.
Proof.
  induction s as [|a s IH]; simpl; [destruct r; reflexivity|].
  destruct (ascii_dec a a); [exact IH | congruence].
Qed.

Lemma calendarText_Day a b : Day a = Day b -> calendarText a = calendarText b.
Proof.
  intros H. unfold calendarText.
  rewrite (YearFromTime_Day a b H), (MonthFromTime_Day a b H),
    (DateFromTime_Day a b H).
  reflexivity.
Qed.

(** A calendar date of ten characters has a year from 0 to 9999. *)
Lemma calendarText_four_digit_year t :
  Z.abs t <= maxTime -> String.length (calendarText t) = 10%nat ->
  0 <= YearFromTime t <= 9999.
Proof.
  intros Ht Hlen.
  destruct (dateText_shape t Ht) as (c & rest & Hc & Hl).
  rewrite dateText_calendarText in Hc, Hl. rewrite Hlen in Hl.
  destruct (isSign c) eqn:Hsign; [discriminate Hl|].
  unfold calendarText, yearString in Hc.
  destruct (Z.leb_spec 0 (YearFromTime t)), (Z.leb_spec (YearFromTime t) 9999);
    try lia; cbn [andb] in Hc.
  - destruct (Z.ltb_spec (YearFromTime t) 0); [lia|].
    cbn [String.append] in Hc. injection Hc as <- _. discriminate Hsign.
  - destruct (Z.ltb_spec (YearFromTime t) 0); [|lia].
    cbn [String.append] in Hc. injection Hc as <- _. discriminate Hsign.
Qed.

Lemma Forall2_In_l {A B : Type} (R : A -> B -> Prop) (l : list A) (l' : list B) a :
  Forall2 R l l' -> In a l -> exists b, In b l' /\ R a b.
Proof.
  induction 1 as [|x y l l' Hxy _ IH]; simpl; [intros []|].
  intros [<- | Hin]; [exists y; auto|].
  destruct (IH Hin) as (b & Hb & Hab). exists b. auto.
Qed.

(** The date that the server stores for a printed calendar date of a
    four-digit year, and what it returns for it. *)
Lemma stored_date (server : Host) t :
  (forall s v, parseDateOnly s = Some v -> Date_parse (Host := server) s = Some v) ->
  0 <= YearFromTime t <= 9999 ->
  exists clock,
    Date_toJSON (newDate (host := server) (calendarText t))
    = Some (String.append (calendarText t) clock).
Proof.
  intros Hparse Hy.
  pose proof (parseDateOnly_dateText t Hy) as Hp.
  rewrite dateText_calendarText in Hp.
  unfold newDate. rewrite (Hparse _ _ Hp).
  assert (Hday : Day (Day t * msPerDay) = Day t)
    by (unfold Day at 1; apply Z.div_mul; unfold msPerDay; lia).
  assert (Hr : Z.abs (Day t * msPerDay) <= maxTime).
  { rewrite <- (YearFromTime_Day _ _ Hday) in Hy.
    apply calendarDate_range in Hy. unfold maxTime. lia. }
  unfold TimeClip. destruct (Z.leb_spec (Z.abs (Day t * msPerDay)) maxTime); [|lia].
  unfold Date_toJSON, toISOString. rewrite (calendarText_Day _ _ Hday).
  eexists. reflexivity.
Qed.

(** X29. Idempotence through the server.  The payments of a first call,
    stored by the server as rows with [Date]s and returned as JSON,
    suppress every cycle in a second call on the same inputs, which returns
    the empty list: provided that the server reads the date-only form and
    that the dates of the output have four-digit years. *)
Theorem stored_output_suppresses (client server : Host) randomUUID randomUUID'
        studentId course joinDateStr existingPayments out stored :
  (forall s v, parseDateOnly s = Some v -> Date_parse (Host := server) s = Some v) ->
  generatePaymentsForEnrollment (host := client) randomUUID studentId course
                                joinDateStr existingPayments = Returns out ->
  Forall (fun p => String.length (Payment.periodStart p) = 10%nat) out ->
  Forall2 (storedAs (host := server)) out stored ->
  generatePaymentsForEnrollment (host := client) randomUUID' studentId course
                                joinDateStr (existingPayments ++ stored)
  = Returns [].
Proof.
  intros Hparse H Hlen Hstored.
  apply (generate_returns (host := client)) in H. destruct H as [Hok Hout].
  rewrite (generate_horizon (host := client)).
  set (joinDate := newDate (host := client) joinDateStr) in *.
  set (cycles := horizon (host := client) course joinDateStr) in *.
  rewrite forallb_forall in Hok. rewrite Forall_forall in Hlen.
  assert (Hsup : forall c, In c cycles ->
                 suppressed studentId course joinDate (existingPayments ++ stored) c
                 = true).
  { intros c Hc. unfold suppressed. rewrite existsb_app.
    destruct (existsb _ existingPayments) eqn:Hex; [reflexivity|]. simpl.
    assert (Hkept : In c (unsuppressed studentId course joinDate existingPayments
                            cycles)).
    { apply filter_In. split; [exact Hc|]. unfold suppressed. rewrite Hex. reflexivity. }
    destruct (In_number (host := client) randomUUID studentId course joinDate c _
                0%nat Hkept) as [k Hk].
    rewrite <- Hout in Hk.
    destruct (Forall2_In_l _ _ _ _ Hstored Hk) as (q & Hq & Hs & Hcid & Hjson).
    specialize (Hlen _ Hk).
    cbn [candidate Payment.studentId Payment.courseId Payment.periodStart
         paymentRow PaymentRow.periodStart] in Hs, Hcid, Hjson, Hlen.
    pose proof (completes_valid _ _ _ _ _ (Hok c Hc)) as Hv.
    pose proof (horizon_inRange (host := client) _ _ _ Hc) as Hr. fold joinDate in Hr.
    destruct (effectiveStartOf joinDate (snd c)) as [t|]; [|discriminate Hv].
    simpl in Hr. rewrite dateText_calendarText in *.
    pose proof (calendarText_four_digit_year t Hr Hlen) as Hy.
    destruct (stored_date server t Hparse Hy) as [clock Hclock].
    rewrite Hclock in Hjson. injection Hjson as Hjson.
    apply existsb_matchesCycle. exists q. repeat split; try assumption.
    rewrite <- Hjson. apply prefix_append. }
  replace (forallb _ _) with true.
  - f_equal. unfold unsuppressed. rewrite filter_none; [reflexivity|].
    intros c Hc. rewrite (Hsup c Hc). reflexivity.
  - symmetry. apply forallb_forall. intros c Hc.
    unfold completes. rewrite (Hsup c Hc), orb_true_l, andb_true_r.
    apply (completes_valid _ _ _ _ _ (Hok c Hc)).
Qed.

(** * Concrete runs *)

(** ** The built-in operations *)

(** The epoch, the day before it, a leap day and the two ends of the range
    of time values. *)
Lemma dateText_examples :
  dateText (Some 0) = "1970-01-01"
  /\ dateText (Some (-1)) = "1969-12-31"
  /\ dateText (Some 951782400000) = "2000-02-29"
  /\ dateText (Some maxTime) = "+275760-09-13"
  /\ dateText (Some (- maxTime)) = "-271821-04-20"
  /\ toISODate None = ThrowsRangeError.
Proof. repeat split; vm_compute; reflexivity. Qed.

(** The full ISO text of three instants, and the part of it that the
    generator keeps. *)
Lemma toISOString_examples :
  toISOString (Some 0) = Returns "1970-01-01T00:00:00.000Z"
  /\ toISOString (Some 1705363200000) = Returns "2024-01-16T00:00:00.000Z"
  /\ toISOString (Some 1705420799999) = Returns "2024-01-16T15:59:59.999Z"
  /\ toISOString (Some (-1)) = Returns "1969-12-31T23:59:59.999Z"
  /\ split_T_0 "2024-01-16T15:59:59.999Z" = "2024-01-16"
  /\ split_T_0 "2024-01-16" = "2024-01-16".
Proof. repeat split; vm_compute; reflexivity. Qed.

(** Ties go toward +infinity, and a negative number that rounds to zero
    gives the negative zero. *)
Lemma Math_round_examples :
  Math_round 2.5 = 3%float
  /\ Math_round (-2.5) = (-2)%float
  /\ Math_round 0.5 = 1%float
  /\ Math_round (-0.5) = (-0)%float
  /\ Math_round (-0.25) = (-0)%float
  /\ Math_round 516.125 = 516%float
  /\ Math_round 4503599627370497 = 4503599627370497%float
  /\ Math_round PrimFloat.infinity = PrimFloat.infinity.
Proof. repeat split; vm_compute; reflexivity. Qed.

(** A day of the month that the target month lacks overflows into the
    next month: one month after 2024-01-31 is 2024-03-02, and one year
    after 2024-02-29 is 2025-03-01; a week is seven days. *)
Lemma nextPeriod_examples :
  dateText (nextPeriod (host := utcHost) "monthly" (parseDateOnly "2024-01-31"))
  = "2024-03-02"
  /\ dateText (nextPeriod (host := utcHost) "yearly" (parseDateOnly "2024-02-29"))
     = "2025-03-01"
  /\ dateText (nextPeriod (host := utcHost) "weekly" (parseDateOnly "2024-02-26"))
     = "2024-03-04"
  /\ nextPeriod (host := utcHost) "weekly" (Some maxTime) = None
  /\ nextPeriod (host := utcHost) "monthly" None = None.
Proof. repeat split; vm_compute; reflexivity. Qed.

(** On the host in Central European time the clocks go forward on
    2024-03-31.  The week from 2024-03-27 00:00 UTC (01:00 on the local
    clock) ends at 01:00 on the local clock of 2024-04-03, 167 hours
    later.  Two months after 2024-01-31 01:30 UTC (02:30 on the local
    clock) the helper asks for 02:30 on 2024-03-31, which the clocks skip:
    the host reads it as 01:30 UTC, 03:30 on the local clock. *)
Lemma daylight_saving_examples :
  addDays (host := berlinHost) (Some 1711497600000) 7 = Some 1712098800000
  /\ 1712098800000 - 1711497600000 = 167 * msPerHour
  /\ toISOString (addDays (host := berlinHost) (Some 1711497600000) 7)
     = Returns "2024-04-02T23:00:00.000Z"
  /\ addMonths (host := berlinHost) (Some 1706664600000) 2 = Some 1711848600000
  /\ toISOString (Some 1706664600000) = Returns "2024-01-31T01:30:00.000Z"
  /\ toISOString (Some 1711848600000) = Returns "2024-03-31T01:30:00.000Z"
  /\ clockText (LocalTime (host := berlinHost) 1706664600000) = "02:30:00.000"
  /\ clockText (LocalTime (host := berlinHost) 1711848600000) = "03:30:00.000".
Proof. repeat split; vm_compute; reflexivity. Qed.

(** ** The generator *)

Lemma sampleRun_returns : sampleRun "2024-01-16" [] = Returns sampleOutput.
Proof. vm_compute. reflexivity. Qed.

Lemma sampleRun_periods :
  map (fun p => (Payment.periodStart p, Payment.periodEnd p, Payment.amount p))
      sampleOutput
  = [("2024-01-16", "2024-02-01", 516%float);
     ("2024-02-01", "2024-03-01", 1000%float);
     ("2024-03-01", "2024-04-01", 1000%float);
     ("2024-04-01", "2024-05-01", 1000%float);
     ("2024-05-01", "2024-06-01", 1000%float);
     ("2024-06-01", "2024-07-01", 1000%float);
     ("2024-07-01", "2024-08-01", 1000%float);
     ("2024-08-01", "2024-09-01", 1000%float);
     ("2024-09-01", "2024-10-01", 1000%float);
     ("2024-10-01", "2024-11-01", 1000%float);
     ("2024-11-01", "2024-12-01", 1000%float);
     ("2024-12-01", "2025-01-01", 1000%float)].
Proof. vm_compute. reflexivity. Qed.

(** With daylight saving time the boundaries of the cycles move.  On the
    host in Central European time the cycles of the scenario start at
    01:00 on the local clock of the first day of each month, which from
    April to October is 23:00 UTC of the day before; and the weeks of the
    weekly course, which start at 01:00 of a Wednesday on the local clock,
    start on a Tuesday in UTC from April on. *)
Lemma sampleRun_daylight_saving :
  map (fun p => (Payment.periodStart p, Payment.periodEnd p, Payment.amount p))
      (firstn 4 (returned (generatePaymentsForEnrollment (host := berlinHost)
                             sampleUUID "student-1" sampleCourse "2024-01-16" [])))
  = [("2024-01-16", "2024-02-01", 516%float);
     ("2024-02-01", "2024-03-01", 1000%float);
     ("2024-03-01", "2024-03-31", 1000%float);
     ("2024-03-31", "2024-04-30", 1000%float)]
  /\ map (fun p => (Payment.periodStart p, Payment.periodEnd p))
         (firstn 4 (returned (generatePaymentsForEnrollment (host := berlinHost)
                                sampleUUID "student-1" guitarCourse "2024-03-13" [])))
     = [("2024-03-13", "2024-03-20"); ("2024-03-20", "2024-03-27");
        ("2024-03-27", "2024-04-02"); ("2024-04-02", "2024-04-09")]
  /\ map (fun p => (Payment.periodStart p, Payment.periodEnd p))
         (firstn 4 (returned (generatePaymentsForEnrollment (host := utcHost)
                                sampleUUID "student-1" guitarCourse "2024-03-13" [])))
     = [("2024-03-13", "2024-03-20"); ("2024-03-20", "2024-03-27");
        ("2024-03-27", "2024-04-03"); ("2024-04-03", "2024-04-10")].
Proof. repeat split; vm_compute; reflexivity. Qed.

(** With a payment for 2024-02-01 in the existing payments, that period is
    left out and the other eleven of the horizon are generated. *)
Lemma duplicate_suppression_example :
  sampleRun "2024-01-16" sampleExisting = Returns sampleOutputAfterFebruary
  /\ map Payment.periodStart sampleOutputAfterFebruary
     = ["2024-01-16"; "2024-03-01"; "2024-04-01"; "2024-05-01"; "2024-06-01";
        "2024-07-01"; "2024-08-01"; "2024-09-01"; "2024-10-01"; "2024-11-01";
        "2024-12-01"].
Proof. split; vm_compute; reflexivity. Qed.

(** ** The properties at the concrete runs *)

Lemma generate_idempotent_witness :
  sampleRun "2024-01-16" [] = Returns sampleOutput
  /\ sampleRun "2024-01-16" ([] ++ sampleOutput) = Returns [].
Proof.
  split; [vm_compute; reflexivity|].
  apply (generate_idempotent (host := utcHost) sampleUUID sampleUUID "student-1"
           sampleCourse "2024-01-16" [] sampleOutput).
  vm_compute. reflexivity.
Defined.

(** C2. The scenario of the specification (a monthly course with fee 1000
    that starts on 2024-01-01, a join date of 2024-01-16 and no existing
    payment) on two hosts.  In UTC the first two records are those of the
    claim.  Five hours west of UTC the first record is the same and the
    second runs from 2024-02-01 to 2024-03-03, not to 2024-03-01: the
    start of the period, read in UTC, is still the 31st of January on the
    local clock, and one month later on that clock is the 2nd of March,
    which is printed, in UTC, as the 3rd. *)
Theorem proration_scenario_west_of_UTC :
  map (fun p => (Payment.periodStart p, Payment.periodEnd p, Payment.amount p))
      (firstn 2 (returned (sampleRun "2024-01-16" [])))
  = [("2024-01-16", "2024-02-01", 516%float);
     ("2024-02-01", "2024-03-01", 1000%float)]
  /\ map (fun p => (Payment.periodStart p, Payment.periodEnd p, Payment.amount p))
         (firstn 2 (returned sampleRunWest))
     = [("2024-01-16", "2024-02-01", 516%float);
        ("2024-02-01", "2024-03-03", 1000%float)]
  /\ dateText (Some (LocalTime (host := westHost) 1706745600000)) = "2024-01-31"
  /\ ~ (exists first second rest,
          sampleRunWest = Returns (first :: second :: rest)
          /\ Payment.periodStart second = "2024-02-01"
          /\ Payment.periodEnd second = "2024-03-01").
Proof.
  split; [vm_compute; reflexivity|]. split; [vm_compute; reflexivity|].
  split; [vm_compute; reflexivity|].
  intros (first & second & rest & Hrun & _ & Hend).
  vm_compute in Hrun. injection Hrun as <- <- <-.
  vm_compute in Hend. discriminate Hend.
Qed.

Lemma alignment_invariant_witness :
  sampleRun "2024-01-16" [] = Returns sampleOutput
  /\ match sampleOutput with
     | [] => True
     | first :: rest =>
         (onCycleBoundary (host := utcHost) sampleCourse first
          \/ Payment.periodStart first = dateText (newDate (host := utcHost) "2024-01-16"))
         /\ Forall (onCycleBoundary (host := utcHost) sampleCourse) rest
     end.
Proof.
  split; [vm_compute; reflexivity|].
  apply (alignment_invariant (host := utcHost) sampleUUID "student-1" sampleCourse
           "2024-01-16" [] sampleOutput).
  vm_compute. reflexivity.
Defined.

Lemma duplicate_suppression_witness :
  (sampleRun "2024-01-16" sampleExisting = Returns sampleOutputAfterFebruary
   /\ In februaryCycle (horizon (host := utcHost) sampleCourse "2024-01-16"))
  /\ let day := dateText (effectiveStartOf (newDate (host := utcHost) "2024-01-16")
                                           (snd februaryCycle)) in
     ((exists r, In r sampleOutputAfterFebruary
                 /\ Payment.studentId r = "student-1"
                 /\ Payment.courseId r = Course.id sampleCourse
                 /\ Payment.periodStart r = day)
      <-> ~ (exists p, In p sampleExisting
                       /\ Payment.studentId p = "student-1"
                       /\ Payment.courseId p = Course.id sampleCourse
                       /\ datePrefix (Payment.periodStart p) = day)).
Proof.
  assert (Hin : In februaryCycle (horizon (host := utcHost) sampleCourse "2024-01-16"))
    by (vm_compute; right; left; reflexivity).
  split; [split; [vm_compute; reflexivity | exact Hin]|].
  apply (duplicate_suppression (host := utcHost) sampleUUID "student-1" sampleCourse
           "2024-01-16" sampleExisting sampleOutputAfterFebruary);
    [vm_compute; reflexivity | exact Hin].
Defined.

Lemma horizon_bound_witness :
  sampleRun "2024-01-16" [] = Returns sampleOutput
  /\ ((Course.period sampleCourse = "weekly" -> (List.length sampleOutput <= 52)%nat)
      /\ (Course.period sampleCourse = "monthly"
          -> (List.length sampleOutput <= 12)%nat)
      /\ (Course.period sampleCourse = "yearly"
          -> (List.length sampleOutput <= 5)%nat)).
Proof.
  split; [vm_compute; reflexivity|].
  apply (horizon_bound (host := utcHost) sampleUUID "student-1" sampleCourse
           "2024-01-16" [] sampleOutput).
  vm_compute. reflexivity.
Defined.

Lemma join_before_start_witness :
  (newDate (host := utcHost) (Course.startDate sampleCourse) = Some 1704067200000
   /\ newDate (host := utcHost) "2023-12-15" = Some 1702598400000
   /\ 1702598400000 < 1704067200000)
  /\ (cycleStartOf (host := utcHost) sampleCourse "2023-12-15" = Some 1704067200000
      /\ effectiveStartOf (Some 1702598400000) (Some 1704067200000)
         = Some 1704067200000
      /\ (forall out,
            sampleRun "2023-12-15" [] = Returns out ->
            ~ (exists p, In p []
                         /\ Payment.studentId p = "student-1"
                         /\ Payment.courseId p = Course.id sampleCourse
                         /\ String.prefix (dateText (Some 1704067200000))
                                          (Payment.periodStart p) = true) ->
            exists first rest,
              out = first :: rest
              /\ Payment.periodStart first = dateText (Some 1704067200000)
              /\ Payment.amount first = Course.fee sampleCourse)).
Proof.
  split; [repeat split; vm_compute; reflexivity|].
  apply (join_before_start (host := utcHost) sampleUUID "student-1" sampleCourse
           "2023-12-15" [] 1704067200000 1702598400000);
    vm_compute; reflexivity.
Defined.

(** C6 as stated fails: the join date 2023-12-15 precedes the course start
    2024-01-01, the alignment loop leaves [cycleStart] at the course start,
    and the first generated record starts on 2024-01-01 with the full fee,
    not on the join date. *)
Lemma join_before_start_counterexample :
  date_ltb (newDate (host := utcHost) "2023-12-15")
           (newDate (host := utcHost) (Course.startDate sampleCourse)) = true
  /\ cycleStartOf (host := utcHost) sampleCourse "2023-12-15"
     = newDate (host := utcHost) (Course.startDate sampleCourse)
  /\ map (fun p => (Payment.periodStart p, Payment.amount p))
         (firstn 1 (returned (sampleRun "2023-12-15" [])))
     = [("2024-01-01", 1000%float)]
  /\ ~ (exists first rest,
          sampleRun "2023-12-15" [] = Returns (first :: rest)
          /\ Payment.periodStart first
             = dateText (newDate (host := utcHost) "2023-12-15")).
Proof.
  split; [vm_compute; reflexivity|]. split; [vm_compute; reflexivity|].
  split; [vm_compute; reflexivity|].
  intros (first & rest & Hrun & Hstart).
  vm_compute in Hrun. injection Hrun as <- <-.
  vm_compute in Hstart. discriminate Hstart.
Qed.

Lemma unrecognized_period_is_yearly_witness :
  (Course.period quarterlyCourse <> "weekly"
   /\ Course.period quarterlyCourse <> "monthly")
  /\ (generatePaymentsForEnrollment (host := utcHost) sampleUUID "student-1"
                                    quarterlyCourse "2024-01-16" []
      = generatePaymentsForEnrollment (host := utcHost) sampleUUID "student-1"
                                      (withPeriod quarterlyCourse "yearly")
                                      "2024-01-16" []
      /\ (forall d, nextPeriod (host := utcHost) (Course.period quarterlyCourse) d
                 = addYears (host := utcHost) d 1)
      /\ periodsToGenerate (Course.period quarterlyCourse) = 5%nat).
Proof.
  assert (Hw : Course.period quarterlyCourse <> "weekly") by (simpl; discriminate).
  assert (Hm : Course.period quarterlyCourse <> "monthly") by (simpl; discriminate).
  split; [split; assumption|].
  exact (unrecognized_period_is_yearly (host := utcHost) sampleUUID "student-1"
           quarterlyCourse "2024-01-16" [] Hw Hm).
Defined.

Lemma output_ascending_witness :
  sampleRun "2024-01-16" [] = Returns sampleOutput
  /\ exists ts,
       Forall2 (fun r t => Payment.periodStart r = dateText (Some t)) sampleOutput ts
       /\ StronglySorted Z.lt ts
       /\ StronglySorted Z.le (map Day ts).
Proof.
  split; [vm_compute; reflexivity|].
  apply (output_ascending (host := utcHost) sampleUUID "student-1" sampleCourse
           "2024-01-16" [] sampleOutput).
  vm_compute. reflexivity.
Defined.

Lemma calendarDate_2024_01_01 : calendarDate 1704067200000.
Proof. split; [reflexivity|]. split; vm_compute; discriminate. Qed.

Lemma calendarDate_2024_01_16 : calendarDate 1705363200000.
Proof. split; [reflexivity|]. split; vm_compute; discriminate. Qed.

(** C9. A record that ends on the day on which it starts.  On the host in
    Central European time, for the monthly course that starts on
    2024-01-01 and a join date of 2024-04-30, two valid calendar dates, the
    cycle that contains the join date starts and ends at 01:00 on the
    local clock of the first day of a month, which in summer time is 23:00
    UTC of the day before: on 2024-03-31 and on 2024-04-30.  The join date,
    at 00:00 UTC of 2024-04-30, is before the end of the cycle, so that the
    skip branch is not taken; and the first record runs from 2024-04-30 to
    2024-04-30, for the 23 hours of the cycle that are left: its
    [periodStart] is not before its [periodEnd]. *)
Theorem empty_period_under_daylight_saving :
  (newDate (host := berlinHost) (Course.startDate sampleCourse) = Some 1704067200000
   /\ newDate (host := berlinHost) "2024-04-30" = Some 1714435200000
   /\ calendarDate 1704067200000 /\ calendarDate 1714435200000)
  /\ toISOString (cycleStartOf (host := berlinHost) sampleCourse "2024-04-30")
     = Returns "2024-03-31T23:00:00.000Z"
  /\ toISOString (nextPeriod (host := berlinHost) "monthly"
                    (cycleStartOf (host := berlinHost) sampleCourse "2024-04-30"))
     = Returns "2024-04-30T23:00:00.000Z"
  /\ map (fun p => (Payment.periodStart p, Payment.periodEnd p, Payment.amount p))
         (firstn 2 (returned sampleRunBerlin))
     = [("2024-04-30", "2024-04-30", 32%float);
        ("2024-04-30", "2024-05-31", 1000%float)]
  /\ exists r, In r (returned sampleRunBerlin)
               /\ Payment.periodStart r = Payment.periodEnd r.
Proof.
  split; [repeat split; vm_compute; try reflexivity; discriminate|].
  split; [vm_compute; reflexivity|]. split; [vm_compute; reflexivity|].
  split; [vm_compute; reflexivity|].
  eexists. split; [vm_compute; left; reflexivity | reflexivity].
Qed.

Lemma sameKeys_paid_pending : sameKeys sampleExisting sampleExistingPending.
Proof. intros k. vm_compute. split; intros H; exact H. Qed.

Lemma dedup_reads_keys_only_witness :
  sameKeys sampleExisting sampleExistingPending
  /\ sampleRun "2024-01-16" sampleExisting
     = sampleRun "2024-01-16" sampleExistingPending.
Proof.
  split; [exact sameKeys_paid_pending|].
  exact (proj1 (dedup_reads_keys_only (host := utcHost) sampleUUID "student-1"
                  sampleCourse "2024-01-16")
           sampleExisting sampleExistingPending sameKeys_paid_pending).
Defined.

(** * The further properties at concrete runs *)

Lemma invalid_start_throws_witness :
  newDate (host := utcHost) (Course.startDate misdatedCourse) = None
  /\ generatePaymentsForEnrollment (host := utcHost) sampleUUID "student-1"
                                   misdatedCourse "2024-01-16" sampleExisting
     = ThrowsRangeError.
Proof.
  split; [reflexivity|].
  apply (invalid_start_throws (host := utcHost) sampleUUID "student-1"
           misdatedCourse "2024-01-16" sampleExisting).
  reflexivity.
Defined.

Lemma join_not_after_start_witness :
  date_gtb (newDate (host := utcHost) "soon")
           (newDate (host := utcHost) (Course.startDate sampleCourse)) = false
  /\ sampleRun "soon" [] = sampleRun (Course.startDate sampleCourse) [].
Proof.
  split; [reflexivity|].
  apply (join_not_after_start (host := utcHost) sampleUUID "student-1" sampleCourse
           "soon" []).
  reflexivity.
Defined.

Lemma records_pending_for_pair_witness :
  sampleRun "2024-01-16" [] = Returns sampleOutput
  /\ Forall (fun r => Payment.studentId r = "student-1"
                      /\ Payment.courseId r = Course.id sampleCourse
                      /\ Payment.status r = pending
                      /\ Payment.dueDate r = Payment.periodEnd r
                      /\ Payment.paidDate r = None) sampleOutput.
Proof.
  split; [vm_compute; reflexivity|].
  apply (records_pending_for_pair (host := utcHost) sampleUUID "student-1"
           sampleCourse "2024-01-16" [] sampleOutput).
  vm_compute. reflexivity.
Defined.

Lemma ids_in_order_witness :
  sampleRun "2024-01-16" [] = Returns sampleOutput
  /\ (map Payment.id sampleOutput
      = map sampleUUID (seq 0 (List.length sampleOutput))
      /\ ((forall a b, sampleUUID a = sampleUUID b -> a = b) ->
          NoDup (map Payment.id sampleOutput))).
Proof.
  split; [vm_compute; reflexivity|].
  apply (ids_in_order (host := utcHost) sampleUUID "student-1" sampleCourse
           "2024-01-16" [] sampleOutput).
  vm_compute. reflexivity.
Defined.

Lemma only_first_prorated_witness :
  sampleRun "2024-01-16" [] = Returns sampleOutput
  /\ match sampleOutput with
     | [] => True
     | first :: rest =>
         let joinDate := newDate (host := utcHost) "2024-01-16" in
         let cycleStart := cycleStartOf (host := utcHost) sampleCourse "2024-01-16" in
         let periodEnd :=
           nextPeriod (host := utcHost) (Course.period sampleCourse) cycleStart in
         (Payment.amount first = Course.fee sampleCourse
          \/ (date_gtb joinDate cycleStart = true
              /\ Payment.periodStart first = dateText joinDate
              /\ Payment.amount first
                 = Math_round
                     (PrimFloat.mul (Course.fee sampleCourse)
                        (PrimFloat.div
                           (PrimFloat.sub (getTime periodEnd) (getTime joinDate))
                           (PrimFloat.sub (getTime periodEnd)
                                          (getTime cycleStart))))))
         /\ Forall (fun r => Payment.amount r = Course.fee sampleCourse) rest
     end.
Proof.
  split; [vm_compute; reflexivity|].
  apply (only_first_prorated (host := utcHost) sampleUUID "student-1" sampleCourse
           "2024-01-16" [] sampleOutput).
  vm_compute. reflexivity.
Defined.

Lemma periods_do_not_overlap_witness :
  sampleRun "2024-01-16" sampleExisting = Returns sampleOutputAfterFebruary
  /\ StronglySorted
       (fun r r' => exists e a,
            Payment.periodEnd r = dateText (Some e)
            /\ Payment.periodStart r' = dateText (Some a)
            /\ e <= a)
       sampleOutputAfterFebruary.
Proof.
  split; [vm_compute; reflexivity|].
  apply (periods_do_not_overlap (host := utcHost) sampleUUID "student-1" sampleCourse
           "2024-01-16" sampleExisting sampleOutputAfterFebruary).
  vm_compute. reflexivity.
Defined.

Lemma periods_tile_without_existing_witness :
  (forallb (fun p => negb (ofPair "student-1" sampleCourse p)) guitarPending = true
   /\ sampleRun "2024-01-16" guitarPending = Returns sampleOutput)
  /\ map Payment.periodEnd (removelast sampleOutput)
     = map Payment.periodStart (tl sampleOutput).
Proof.
  split; [split; vm_compute; reflexivity|].
  apply (periods_tile_without_existing (host := utcHost) sampleUUID "student-1"
           sampleCourse "2024-01-16" guitarPending sampleOutput);
    vm_compute; reflexivity.
Defined.

Lemma first_cycle_contains_join_witness :
  (newDate (host := utcHost) (Course.startDate sampleCourse) = Some 1704067200000
   /\ newDate (host := utcHost) "2024-03-16" = Some 1710547200000
   /\ 1704067200000 <= 1710547200000
   /\ 1710547200000 + 368 * msPerDay <= maxTime)
  /\ exists c e,
       cycleStartOf (host := utcHost) sampleCourse "2024-03-16" = Some c
       /\ nextPeriod (host := utcHost) (Course.period sampleCourse) (Some c) = Some e
       /\ c <= 1710547200000 < e
       /\ effectiveStartOf (Some 1710547200000) (Some c) = Some 1710547200000.
Proof.
  split; [repeat split; vm_compute; try reflexivity; discriminate|].
  apply (first_cycle_contains_join (host := utcHost) sampleCourse "2024-03-16"
           1704067200000 1710547200000);
    vm_compute; try reflexivity; discriminate.
Defined.

Lemma calendar_dates_return_witness :
  (newDate (host := utcHost) (Course.startDate sampleCourse) = Some 1704067200000
   /\ newDate (host := utcHost) "2024-01-16" = Some 1705363200000
   /\ calendarDate 1704067200000 /\ calendarDate 1705363200000)
  /\ exists out,
       sampleRun "2024-01-16" guitarPending = Returns out
       /\ (forallb (fun p => negb (ofPair "student-1" sampleCourse p)) guitarPending
           = true ->
           List.length out = periodsToGenerate (Course.period sampleCourse)).
Proof.
  split; [repeat split; vm_compute; try reflexivity; discriminate|].
  apply (calendar_dates_return (host := utcHost) sampleUUID "student-1" sampleCourse
           "2024-01-16" guitarPending 1704067200000 1705363200000);
    [vm_compute; reflexivity | vm_compute; reflexivity
     | exact calendarDate_2024_01_01 | exact calendarDate_2024_01_16].
Defined.

Lemma weekly_any_fixed_offset_witness :
  (fixedOffset westHost (-18000000) /\ fixedOffset utcHost 0
   /\ Course.period guitarCourse = "weekly"
   /\ Date_parse (Host := westHost) (Course.startDate guitarCourse)
      = Date_parse (Host := utcHost) (Course.startDate guitarCourse)
   /\ Date_parse (Host := westHost) "2024-01-16"
      = Date_parse (Host := utcHost) "2024-01-16")
  /\ generatePaymentsForEnrollment (host := westHost) sampleUUID "student-1"
                                   guitarCourse "2024-01-16" guitarPending
     = generatePaymentsForEnrollment (host := utcHost) sampleUUID "student-1"
                                     guitarCourse "2024-01-16" guitarPending.
Proof.
  assert (Hwest : fixedOffset westHost (-18000000)) by (intros t b; reflexivity).
  assert (Hutc : fixedOffset utcHost 0) by (intros t b; reflexivity).
  split; [repeat split; assumption|].
  apply (weekly_any_fixed_offset westHost utcHost (-18000000) 0 sampleUUID
           "student-1" guitarCourse "2024-01-16" guitarPending Hwest Hutc);
    reflexivity.
Defined.

(** The week from 2024-03-27 on the host in Central European time, across
    the start of summer time. *)
Lemma period_lengths_witness :
  nextPeriod (host := berlinHost) "weekly" (Some 1711497600000)
  = Some 1712098800000
  /\ exists days,
       1712098800000
       = UTC (host := berlinHost)
             (LocalTime (host := berlinHost) 1711497600000 + days * msPerDay)
       /\ (if String.eqb "weekly" "weekly" then days = 7
           else if String.eqb "weekly" "monthly" then
             days = daysInMonth
                      (MonthFromTime (LocalTime (host := berlinHost) 1711497600000))
                      (InLeapYear (LocalTime (host := berlinHost) 1711497600000))
             /\ 28 <= days <= 31
           else 365 <= days <= 366)
       /\ (days - 2) * msPerDay < 1712098800000 - 1711497600000
          < (days + 2) * msPerDay
       /\ (LocalTZA (Host := berlinHost)
                    (LocalTime (host := berlinHost) 1711497600000 + days * msPerDay)
                    false
           = LocalTZA (Host := berlinHost) 1711497600000 true ->
           1712098800000 = 1711497600000 + days * msPerDay).
Proof.
  split; [vm_compute; reflexivity|].
  apply (period_lengths (host := berlinHost) "weekly" 1711497600000 1712098800000).
  vm_compute. reflexivity.
Defined.

Lemma enroll_request_consistent_witness :
  handleEnrollStudent (host := utcHost) sampleUUID sampleData
                      "student-2" "course-1" "2024-01-16"
  = Returns (Some sampleRequest)
  /\ (EnrollRequest.studentId sampleRequest = "student-2"
      /\ EnrollRequest.courseId sampleRequest = "course-1"
      /\ EnrollRequest.joinDate sampleRequest = "2024-01-16"
      /\ (exists course,
            findCourse sampleData "course-1" = Some course
            /\ In course (AppData.courses sampleData)
            /\ generatePaymentsForEnrollment (host := utcHost) sampleUUID
                 "student-2" course "2024-01-16" (AppData.payments sampleData)
               = Returns (EnrollRequest.payments sampleRequest))
      /\ Forall (fun p => Payment.studentId p = "student-2"
                          /\ Payment.courseId p = "course-1"
                          /\ Payment.status p = pending)
                (EnrollRequest.payments sampleRequest)).
Proof.
  split; [vm_compute; reflexivity|].
  apply (enroll_request_consistent (host := utcHost) sampleUUID sampleData
           "student-2" "course-1" "2024-01-16" sampleRequest).
  vm_compute. reflexivity.
Defined.

Lemma keptOnTransfer_other_course p :
  Payment.courseId p = "course-1" -> keptOnTransfer p = true.
Proof.
  intros H. unfold keptOnTransfer. rewrite H. simpl.
  rewrite andb_false_r. reflexivity.
Qed.

(** A transfer of the second student from the weekly course to the
    monthly one. *)
Lemma transfer_reads_new_course_only_witness :
  (forall p, Payment.courseId p = "course-1" -> keptOnTransfer p = true)
  /\ handleTransferStudent (host := utcHost) sampleUUID
       (withPayments sampleData (filter keptOnTransfer (AppData.payments sampleData)))
       "student-2" "course-2" "course-1" "2024-02-10"
     = handleTransferStudent (host := utcHost) sampleUUID sampleData
         "student-2" "course-2" "course-1" "2024-02-10".
Proof.
  split; [exact keptOnTransfer_other_course|].
  exact (transfer_reads_new_course_only (host := utcHost) sampleUUID sampleData
           "student-2" "course-2" "course-1" "2024-02-10" keptOnTransfer
           keptOnTransfer_other_course).
Defined.

Lemma generated_rows_match_unenroll_witness :
  sampleRun "2024-01-16" [] = Returns sampleOutput
  /\ Forall (fun p => pendingOfPair "student-1" (Course.id sampleCourse)
                                    (paymentRow (host := utcHost) p) = true)
            sampleOutput.
Proof.
  split; [vm_compute; reflexivity|].
  apply (generated_rows_match_unenroll (host := utcHost) sampleUUID "student-1"
           sampleCourse "2024-01-16" [] sampleOutput).
  vm_compute. reflexivity.
Defined.

Lemma sampleStored_storedAs :
  Forall2 (storedAs (host := utcHost)) sampleOutput sampleStored.
Proof. repeat constructor. Qed.

Lemma stored_output_suppresses_witness :
  ((forall s v, parseDateOnly s = Some v -> Date_parse (Host := utcHost) s = Some v)
   /\ sampleRun "2024-01-16" [] = Returns sampleOutput
   /\ Forall (fun p => String.length (Payment.periodStart p) = 10%nat) sampleOutput
   /\ Forall2 (storedAs (host := utcHost)) sampleOutput sampleStored)
  /\ sampleRun "2024-01-16" ([] ++ sampleStored) = Returns [].
Proof.
  assert (Hparse : forall s v, parseDateOnly s = Some v ->
                               Date_parse (Host := utcHost) s = Some v)
    by (intros s v H; exact H).
  assert (Hlen : Forall (fun p => String.length (Payment.periodStart p) = 10%nat)
                        sampleOutput) by (repeat constructor).
  split.
  { split; [exact Hparse|]. split; [vm_compute; reflexivity|].
    split; [exact Hlen | exact sampleStored_storedAs]. }
  exact (stored_output_suppresses utcHost utcHost sampleUUID sampleUUID "student-1"
           sampleCourse "2024-01-16" [] sampleOutput sampleStored Hparse
           eq_refl Hlen sampleStored_storedAs).
Defined.

(** On 2024-02-15 the first payment of the scenario, due on 2024-02-01,
    shows as overdue and the others as pending. *)
Lemma generated_badge_witness :
  sampleRun "2024-01-16" [] = Returns sampleOutput
  /\ Forall (fun p => getDisplayStatus (host := utcHost) (Some 1707955200000) p
                      = if date_ltb (newDate (host := utcHost) (Payment.periodEnd p))
                                    (Some 1707955200000)
                        then overdue else pending) sampleOutput.
Proof.
  split; [vm_compute; reflexivity|].
  apply (generated_badge (host := utcHost) sampleUUID "student-1" sampleCourse
           "2024-01-16" [] sampleOutput (Some 1707955200000)).
  vm_compute. reflexivity.
Defined.

(** On 2024-02-15 the paid payment is marked as waived. *)
Lemma paid_date_follows_status_witness :
  Z.abs 1707955200000 <= maxTime
  /\ exists body,
       handleUpdatePaymentStatus (Some 1707955200000) waived = Returns body
       /\ PaymentRow.status
            (updatePayment (host := utcHost) sampleRow (fst body) (snd body))
          = waived
       /\ (PaymentRow.paidDate
             (updatePayment (host := utcHost) sampleRow (fst body) (snd body))
           <> None
           <-> waived = paid).
Proof.
  split; [vm_compute; discriminate|].
  apply (paid_date_follows_status (host := utcHost) 1707955200000 waived sampleRow).
  vm_compute. discriminate.
Defined.

(** The third boundary after 2024-01-01 is 2024-04-01. *)
Lemma cycle_boundaries_witness :
  (fixedOffset utcHost 0
   /\ newDate (host := utcHost) (Course.startDate sampleCourse) = Some 1704067200000
   /\ advanced (host := utcHost) sampleCourse 3 = Some 1711929600000)
  /\ ((Course.period sampleCourse = "weekly" ->
       1711929600000 = 1704067200000 + 7 * Z.of_nat 3 * msPerDay)
      /\ (Course.period sampleCourse = "monthly" ->
          DateFromTime (LocalTime (host := utcHost) 1704067200000) <= 28 ->
          let months := MonthFromTime (LocalTime (host := utcHost) 1704067200000)
                        + Z.of_nat 3 in
          getFullYear (host := utcHost) (Some 1711929600000)
          = Some (YearFromTime (LocalTime (host := utcHost) 1704067200000)
                  + months / 12)
          /\ getMonth (host := utcHost) (Some 1711929600000) = Some (months mod 12)
          /\ getDate (host := utcHost) (Some 1711929600000)
             = getDate (host := utcHost) (Some 1704067200000)
          /\ TimeWithinDay (LocalTime (host := utcHost) 1711929600000)
             = TimeWithinDay (LocalTime (host := utcHost) 1704067200000))
      /\ (Course.period sampleCourse <> "weekly" ->
          Course.period sampleCourse <> "monthly" ->
          ~ (MonthFromTime (LocalTime (host := utcHost) 1704067200000) = 1
             /\ DateFromTime (LocalTime (host := utcHost) 1704067200000) = 29) ->
          getFullYear (host := utcHost) (Some 1711929600000)
          = Some (YearFromTime (LocalTime (host := utcHost) 1704067200000)
                  + Z.of_nat 3)
          /\ getMonth (host := utcHost) (Some 1711929600000)
             = getMonth (host := utcHost) (Some 1704067200000)
          /\ getDate (host := utcHost) (Some 1711929600000)
             = getDate (host := utcHost) (Some 1704067200000)
          /\ TimeWithinDay (LocalTime (host := utcHost) 1711929600000)
             = TimeWithinDay (LocalTime (host := utcHost) 1704067200000))).
Proof.
  assert (Hutc : fixedOffset utcHost 0) by (intros t b; reflexivity).
  split; [split; [exact Hutc | split; vm_compute; reflexivity]|].
  apply (cycle_boundaries utcHost 0 sampleCourse 1704067200000 3 1711929600000 Hutc);
    vm_compute; reflexivity.
Defined.

Lemma east_of_UTC_as_UTC_witness :
  (fixedOffset eastHost 10800000
   /\ 0 <= 10800000 < msPerDay
   /\ atMidnight (newDate (host := eastHost) (Course.startDate sampleCourse)))
  /\ generatePaymentsForEnrollment (host := eastHost) sampleUUID "student-1"
                                   sampleCourse "2024-01-16" sampleExisting
     = generatePaymentsForEnrollment (host := inUTC eastHost) sampleUUID "student-1"
                                     sampleCourse "2024-01-16" sampleExisting.
Proof.
  assert (Heast : fixedOffset eastHost 10800000) by (intros t b; reflexivity).
  split; [split; [exact Heast | split; [unfold msPerDay; lia | vm_compute; reflexivity]]|].
  apply (east_of_UTC_as_UTC eastHost 10800000 sampleUUID "student-1" sampleCourse
           "2024-01-16" sampleExisting Heast);
    [unfold msPerDay; lia | vm_compute; reflexivity].
Defined.

Lemma more_existing_fewer_records_witness :
  sampleRun "2024-01-16" [] = Returns sampleOutput
  /\ exists out',
       sampleRun "2024-01-16" ([] ++ sampleExisting) = Returns out'
       /\ incl (map (fun r => (Payment.periodStart r, Payment.periodEnd r,
                               Payment.amount r)) out')
               (map (fun r => (Payment.periodStart r, Payment.periodEnd r,
                               Payment.amount r)) sampleOutput)
       /\ (List.length out' <= List.length sampleOutput)%nat.
Proof.
  split; [vm_compute; reflexivity|].
  apply (more_existing_fewer_records (host := utcHost) sampleUUID sampleUUID
           "student-1" sampleCourse "2024-01-16" [] sampleExisting sampleOutput).
  vm_compute. reflexivity.
Defined.

Lemma first_record_keeps_join_string_witness :
  (newDate (host := utcHost) (Course.startDate sampleCourse) = Some 1704067200000
   /\ parseDateOnly "2024-03-16" = Some 1710547200000
   /\ Date_parse (Host := utcHost) "2024-03-16" = Some 1710547200000
   /\ 1704067200000 <= 1710547200000
   /\ forallb (fun p => negb (ofPair "student-2" sampleCourse p))
              (AppData.payments sampleData) = true
   /\ generatePaymentsForEnrollment (host := utcHost) sampleUUID "student-2"
        sampleCourse "2024-03-16" (AppData.payments sampleData)
      = Returns marchOutput)
  /\ exists first rest,
       marchOutput = first :: rest /\ Payment.periodStart first = "2024-03-16".
Proof.
  split; [repeat split; vm_compute; try reflexivity; discriminate|].
  apply (first_record_keeps_join_string (host := utcHost) sampleUUID "student-2"
           sampleCourse "2024-03-16" (AppData.payments sampleData)
           1704067200000 1710547200000 marchOutput);
    vm_compute; try reflexivity; discriminate.
Defined.
